(** * Houzz-to-Zoho: the PDF estimate extractor ([pdf_parser.py])

    A shallow embedding of [extract_line_items] and [extract_customer_info]
    of [src/pdf_parser.py], the module the sync workflow imports, and the
    properties of its table extractor, text strategies, orchestrator,
    normalizer and customer-info cascades.

    After the parser come the parts of the workflow around it: the
    dashboard's data file and log view ([dashboard.py]), the token manager
    ([token_manager.py]), the client of the accounting service
    ([zoho_api.py]) and the PDF branch of the workflow
    ([sync_estimates_new.py]).  What lies outside the program (the clock, the
    token endpoint, the estimates endpoint, the Drive) is given by the
    answers it returns, in the order of the calls; the token file and the
    requests sent are kept in an explicit state.

    Conventions of the model:
    - text is a [string] of ASCII characters; the character classes [\d],
      [\w], [\s] and [str.lower]/[str.strip] are given on ASCII code points;
    - regular expressions are terms of [Re.regex], one per pattern of the
      source, run by a backtracking matcher with the priorities of Python's
      [re];
    - a Python [float] obtained from a decimal literal is represented by the
      exact rational it denotes ([Q]); the source only compares such values
      with [0] and [100], both exactly representable, so the comparisons
      agree with the binary64 ones for every literal that does not underflow;
      integers are unbounded ([Z]);
    - Python exceptions are explicit: [exc A] is either [Ok a] or [Raise e];
    - logging is dropped (with the two searches of lines 40-44 that only
      feed a log message); instead the orchestrator records which extraction
      strategies it ran. *)

From Stdlib Require Import String Ascii List Bool Arith ZArith QArith Lia.
Import ListNotations.
Close Scope Q_scope.
Local Open Scope string_scope.

(** ** Python strings *)

Module PyStr.

Local Open Scope nat_scope.
Local Open Scope string_scope.

Definition code (c : ascii) : nat := nat_of_ascii c.

Definition in_range (lo hi : nat) (c : ascii) : bool :=
  (Nat.leb lo (code c) && Nat.leb (code c) hi)%bool.

(** [\d] on ASCII. *)
Definition is_digit (c : ascii) : bool := in_range 48 57 c.

Definition is_upper (c : ascii) : bool := in_range 65 90 c.
Definition is_lower (c : ascii) : bool := in_range 97 122 c.

(** [\w] on ASCII: letters, digits and the underscore. *)
Definition is_word (c : ascii) : bool :=
  (is_digit c || is_upper c || is_lower c || Nat.eqb (code c) 95)%bool.

(** [\s] and [str.isspace] on ASCII: tab, LF, VT, FF, CR, the four
    separators 0x1c-0x1f and the blank. *)
Definition is_space (c : ascii) : bool :=
  (in_range 9 13 c || in_range 28 31 c || Nat.eqb (code c) 32)%bool.

Definition nl : ascii := ascii_of_nat 10.

Definition lower_char (c : ascii) : ascii :=
  if is_upper c then ascii_of_nat (code c + 32) else c.

(** [s.lower()] *)
Fixpoint lower (s : string) : string :=
  match s with
  | EmptyString => EmptyString
  | String c s' => String (lower_char c) (lower s')
  end.

Fixpoint lstrip (s : string) : string :=
  match s with
  | EmptyString => EmptyString
  | String c s' => if is_space c then lstrip s' else s
  end.

Fixpoint rev_onto (s acc : string) : string :=
  match s with
  | EmptyString => acc
  | String c s' => rev_onto s' (String c acc)
  end.

Definition rev (s : string) : string := rev_onto s EmptyString.

Definition rstrip (s : string) : string := rev (lstrip (rev s)).

(** [s.strip()] *)
Definition strip (s : string) : string := rstrip (lstrip s).

(** [needle in hay] *)
Fixpoint contains (needle hay : string) : bool :=
  (prefix needle hay ||
   match hay with
   | EmptyString => false
   | String _ hay' => contains needle hay'
   end)%bool.

(** [s.replace(c, by)] for a one-character pattern. *)
Fixpoint replace (c : ascii) (by_ : string) (s : string) : string :=
  match s with
  | EmptyString => EmptyString
  | String x s' =>
      if Ascii.eqb x c then by_ ++ replace c by_ s' else String x (replace c by_ s')
  end.

(** [s.split(c)]: the pieces between the occurrences of [c]; never empty. *)
Fixpoint split (c : ascii) (s : string) : list string :=
  match s with
  | EmptyString => [EmptyString]
  | String x s' =>
      if Ascii.eqb x c then EmptyString :: split c s'
      else match split c s' with
           | [] => [String x EmptyString]
           | p :: ps => String x p :: ps
           end
  end.

(** [sep.join(l)] *)
Fixpoint join (sep : string) (l : list string) : string :=
  match l with
  | [] => EmptyString
  | [s] => s
  | s :: l' => s ++ sep ++ join sep l'
  end.

(** Truthiness of a string: non-empty. *)
Definition nonempty (s : string) : bool :=
  match s with EmptyString => false | _ => true end.

Definition all_digits (s : string) : bool :=
  forallb is_digit (list_ascii_of_string s).

(** [s.isdigit()] on ASCII. *)
Definition isdigit (s : string) : bool := (nonempty s && all_digits s)%bool.

Definition digit_val (c : ascii) : Z := Z.of_nat (code c - 48).

Fixpoint digits_val (acc : Z) (s : string) : Z :=
  match s with
  | EmptyString => acc
  | String c s' => digits_val (10 * acc + digit_val c)%Z s'
  end.

End PyStr.

(** ** Exceptions *)

Inductive exn := ValueError | AttributeError | TypeError | PDFError.

Inductive exc (A : Type) : Type :=
| Ok (a : A)
| Raise (e : exn).

Arguments Ok {A} a.
Arguments Raise {A} e.

Definition exn_eqb (a b : exn) : bool :=
  match a, b with
  | ValueError, ValueError | AttributeError, AttributeError
  | TypeError, TypeError | PDFError, PDFError => true
  | _, _ => false
  end.

Definition ebind {A B} (m : exc A) (k : A -> exc B) : exc B :=
  match m with
  | Ok a => k a
  | Raise e => Raise e
  end.

(** [try: body except (e1, ..., en): handler] *)
Definition try_except {A} (body : exc A) (caught : list exn) (handler : exc A) : exc A :=
  match body with
  | Ok a => Ok a
  | Raise e => if existsb (exn_eqb e) caught then handler else Raise e
  end.

Declare Scope exc_scope.
Delimit Scope exc_scope with exc.
Notation "x <- m ;; k" := (ebind m (fun x => k))
  (at level 61, m at next level, right associativity) : exc_scope.

(** [sys.get_int_max_str_digits()]: the interpreter refuses to convert a
    decimal literal of more digits, leading zeros included. *)
Definition int_max_str_digits : nat := 4300.

(** [int(s)] for a string of digits, [ValueError] otherwise, and for a
    string of more than [int_max_str_digits] digits. *)
Definition py_int (s : string) : exc Z :=
  if PyStr.isdigit s then
    if Nat.leb (String.length s) int_max_str_digits
    then Ok (PyStr.digits_val 0 s)
    else Raise ValueError
  else Raise ValueError.

Fixpoint pow10 (n : nat) : positive :=
  match n with
  | O => 1%positive
  | S n' => (10 * pow10 n')%positive
  end.

(** [float(s)].  Every argument the source passes to [float] consists of
    digits and dots only (commas and other characters are removed first), so
    the model covers the plain decimal literals [ddd], [ddd.], [.ddd] and
    [ddd.ddd] and raises [ValueError] on anything else. *)
Definition py_float (s : string) : exc Q :=
  match PyStr.split "." s with
  | [i] => if PyStr.isdigit i then Ok (inject_Z (PyStr.digits_val 0 i)) else Raise ValueError
  | [i; f] =>
      if (PyStr.all_digits i && PyStr.all_digits f && PyStr.nonempty (i ++ f))%bool
      then Ok (Qmake (PyStr.digits_val 0 (i ++ f)) (pow10 (String.length f)))
      else Raise ValueError
  | _ => Raise ValueError
  end.

(** ** Regular expressions: the fragment of Python's [re] the parser uses

    A backtracking matcher with Python's priorities: alternatives left to
    right, greedy repetitions longest first, lazy ones shortest first, the
    leftmost start position wins. *)

Module Re.

Local Open Scope nat_scope.
Local Open Scope string_scope.

(** Members of a bracket expression. *)
Inductive cset :=
| One (c : ascii)            (* a literal character *)
| Range (lo hi : ascii)      (* [lo-hi] *)
| Digit                      (* \d *)
| Word                       (* \w *)
| Space.                     (* \s *)

Inductive regex :=
| Lit (c : ascii)                                  (* a literal character *)
| Class (negated : bool) (members : list cset)     (* [...] and [^...] *)
| Dot                                              (* . *)
| Eps
| Cat (r1 r2 : regex)
| Alt (r1 r2 : regex)                              (* r1|r2 *)
| Rep (greedy : bool) (lo : nat) (hi : option nat) (r : regex)
| Grp (n : nat) (r : regex)                        (* capturing group number n *)
| Ahead (r : regex)                                (* (?=r) *)
| Bol                                              (* ^ *)
| Eol.                                             (* $ *)

Record flags := { MULTILINE : bool; DOTALL : bool }.

Definition no_flags : flags := {| MULTILINE := false; DOTALL := false |}.

Definition cset_mem (c : ascii) (m : cset) : bool :=
  match m with
  | One x => Ascii.eqb c x
  | Range lo hi => PyStr.in_range (PyStr.code lo) (PyStr.code hi) c
  | Digit => PyStr.is_digit c
  | Word => PyStr.is_word c
  | Space => PyStr.is_space c
  end.

Definition class_mem (negated : bool) (ms : list cset) (c : ascii) : bool :=
  xorb negated (existsb (cset_mem c) ms).

(** The matcher's position: the offset, the character just before it, the
    text still to read, and the groups captured so far (latest first). *)
Record mstate := {
  pos : nat;
  prev : option ascii;
  rest : string;
  caps : list (nat * string)
}.

Definition advance (st : mstate) (c : ascii) (s : string) : mstate :=
  {| pos := S (pos st); prev := Some c; rest := s; caps := caps st |}.

Definition step_if (p : ascii -> bool) (st : mstate) (k : mstate -> option mstate)
  : option mstate :=
  match rest st with
  | String c s => if p c then k (advance st c s) else None
  | EmptyString => None
  end.

Definition at_bol (fl : flags) (st : mstate) : bool :=
  match prev st with
  | None => true
  | Some c => (MULTILINE fl && Ascii.eqb c PyStr.nl)%bool
  end.

Definition at_eol (fl : flags) (st : mstate) : bool :=
  match rest st with
  | EmptyString => true
  | String c s =>
      (Ascii.eqb c PyStr.nl &&
       (MULTILINE fl || match s with EmptyString => true | _ => false end))%bool
  end.

Definition orelse {A} (a b : option A) : option A :=
  match a with
  | Some _ => a
  | None => b
  end.

Definition below (hi : option nat) (n : nat) : bool :=
  match hi with
  | None => true
  | Some h => Nat.ltb n h
  end.

(** [rmatch fl r st k]: match [r] at [st], then continue with [k]; the first
    alternative for which [k] succeeds is the one taken.  An iteration of a
    repetition has to consume a character, which every repeated
    sub-expression of the parser does. *)
Fixpoint rmatch (fl : flags) (r : regex) (st : mstate)
    (k : mstate -> option mstate) {struct r} : option mstate :=
  match r with
  | Lit c => step_if (Ascii.eqb c) st k
  | Class ng ms => step_if (class_mem ng ms) st k
  | Dot => step_if (fun c => (DOTALL fl || negb (Ascii.eqb c PyStr.nl))%bool) st k
  | Eps => k st
  | Cat r1 r2 => rmatch fl r1 st (fun st' => rmatch fl r2 st' k)
  | Alt r1 r2 => orelse (rmatch fl r1 st k) (rmatch fl r2 st k)
  | Grp n r1 =>
      rmatch fl r1 st
        (fun st' =>
           k {| pos := pos st'; prev := prev st'; rest := rest st';
                caps := (n, substring 0 (pos st' - pos st) (rest st)) :: caps st' |})
  | Ahead r1 =>
      match rmatch fl r1 st (fun st' => Some st') with
      | Some st' => k {| pos := pos st; prev := prev st; rest := rest st; caps := caps st' |}
      | None => None
      end
  | Bol => if at_bol fl st then k st else None
  | Eol => if at_eol fl st then k st else None
  | Rep greedy lo hi r1 =>
      (fix loop (fuel : nat) (cnt : nat) (st : mstate) {struct fuel} : option mstate :=
         let stop := if Nat.leb lo cnt then k st else None in
         match fuel with
         | O => stop
         | S fuel' =>
             let more :=
               if below hi cnt
               then rmatch fl r1 st
                      (fun st' => if Nat.ltb (pos st) (pos st') then loop fuel' (S cnt) st' else None)
               else None in
             if greedy then orelse more stop else orelse stop more
         end) (String.length (rest st)) 0 st
  end.

(** A match object: [start()], [end()], [group(0)] and the numbered groups. *)
Record match_obj := {
  m_start : nat;
  m_end : nat;
  m_text : string;
  m_caps : list (nat * string)
}.

Fixpoint assoc (n : nat) (l : list (nat * string)) : option string :=
  match l with
  | [] => None
  | (m, s) :: l' => if Nat.eqb n m then Some s else assoc n l'
  end.

(** [m.group(n)] for [n >= 1]; every group of the parser's patterns takes
    part in every match, an absent one is read as the empty string. *)
Definition group (n : nat) (m : match_obj) : string :=
  match assoc n (m_caps m) with
  | Some s => s
  | None => EmptyString
  end.

Definition match_at (fl : flags) (r : regex) (st : mstate) : option match_obj :=
  match rmatch fl r {| pos := pos st; prev := prev st; rest := rest st; caps := [] |}
          (fun st' => Some st') with
  | Some st' =>
      Some {| m_start := pos st; m_end := pos st';
              m_text := substring 0 (pos st' - pos st) (rest st);
              m_caps := caps st' |}
  | None => None
  end.

(** Try every start position from [st] on, leftmost first. *)
Fixpoint scan (fl : flags) (r : regex) (fuel : nat) (st : mstate) : option match_obj :=
  match match_at fl r st with
  | Some m => Some m
  | None =>
      match fuel, rest st with
      | S fuel', String c s => scan fl r fuel' (advance st c s)
      | _, _ => None
      end
  end.

Definition start_of (s : string) : mstate :=
  {| pos := 0; prev := None; rest := s; caps := [] |}.

(** [re.search(r, s, flags)] *)
Definition search (fl : flags) (r : regex) (s : string) : option match_obj :=
  scan fl r (String.length s) (start_of s).

Fixpoint skip (n : nat) (st : mstate) : mstate :=
  match n, rest st with
  | S n', String c s => skip n' (advance st c s)
  | _, _ => st
  end.

(** The successive non-overlapping matches of [r], as [re.finditer] yields
    them.  After an empty match the scan resumes one character further. *)
Fixpoint finditer_from (fl : flags) (r : regex) (fuel : nat) (st : mstate)
  : list match_obj :=
  match fuel with
  | O => []
  | S fuel' =>
      match scan fl r (String.length (rest st)) st with
      | None => []
      | Some m =>
          let st' := skip (m_end m - pos st) st in
          if Nat.ltb (m_start m) (m_end m)
          then m :: finditer_from fl r fuel' st'
          else match rest st' with
               | String c s => m :: finditer_from fl r fuel' (advance st' c s)
               | EmptyString => [m]
               end
      end
  end.

Definition finditer (fl : flags) (r : regex) (s : string) : list match_obj :=
  finditer_from fl r (S (String.length s)) (start_of s).

(** [re.sub(r, repl, s)] for a constant replacement. *)
Fixpoint sub_from (fl : flags) (r : regex) (repl : string) (fuel : nat) (st : mstate)
  : string :=
  match fuel with
  | O => rest st
  | S fuel' =>
      match match_at fl r st with
      | Some m =>
          if Nat.ltb (m_start m) (m_end m)
          then repl ++ sub_from fl r repl fuel' (skip (m_end m - pos st) st)
          else match rest st with
               | String c s => repl ++ String c (sub_from fl r repl fuel' (advance st c s))
               | EmptyString => repl
               end
      | None =>
          match rest st with
          | String c s => String c (sub_from fl r repl fuel' (advance st c s))
          | EmptyString => EmptyString
          end
      end
  end.

Definition sub (fl : flags) (r : regex) (repl : string) (s : string) : string :=
  sub_from fl r repl (S (String.length s)) (start_of s).

(** *** Writing patterns *)

Fixpoint lit (s : string) : regex :=
  match s with
  | EmptyString => Eps
  | String c EmptyString => Lit c
  | String c s' => Cat (Lit c) (lit s')
  end.

Fixpoint seq (rs : list regex) : regex :=
  match rs with
  | [] => Eps
  | [r] => r
  | r :: rs' => Cat r (seq rs')
  end.

Fixpoint alts (rs : list regex) : regex :=
  match rs with
  | [] => Eps
  | [r] => r
  | r :: rs' => Alt r (alts rs')
  end.

Definition plus (r : regex) : regex := Rep true 1 None r.        (* r+ *)
Definition star_lazy (r : regex) : regex := Rep false 0 None r.  (* r*? *)
Definition opt (r : regex) : regex := Rep true 0 (Some 1) r.     (* r? *)
Definition times (n : nat) (r : regex) : regex := Rep true n (Some n) r.       (* r{n} *)
Definition between (lo hi : nat) (r : regex) : regex := Rep true lo (Some hi) r. (* r{lo,hi} *)
Definition at_least (lo : nat) (r : regex) : regex := Rep true lo None r.      (* r{lo,} *)

Definition d : regex := Class false [Digit].   (* \d *)
Definition w : regex := Class false [Word].    (* \w *)
Definition s : regex := Class false [Space].   (* \s *)
Definition newline : regex := Lit PyStr.nl.    (* \n *)

End Re.

(** ** The data model *)

(** A value held in a dict or a DataFrame cell: a Python [int], a finite
    [float], a [str], or a missing value ([None] / [NaN]). *)
Inductive cell :=
| CInt (z : Z)
| CFloat (q : Q)
| CStr (s : string)
| CNone.

(** A dict appended to [line_items]; a field is [None] when the dict has no
    such key.  Only the four columns the parser names are modelled. *)
Record raw_record := {
  raw_item : option cell;
  raw_description : option cell;
  raw_quantity : option cell;
  raw_unit_price : option cell
}.

(** A row of the DataFrame the parser returns. *)
Record line_item := {
  item : cell;
  description : cell;
  Quantity : Z;
  Unit_Price : Q
}.

(** The dict literal [{'item': i, 'description': d, 'Quantity': q, 'Unit Price': p}]. *)
Definition mk_item (i d : string) (q : Z) (p : Q) : raw_record :=
  {| raw_item := Some (CStr i); raw_description := Some (CStr d);
     raw_quantity := Some (CInt q); raw_unit_price := Some (CFloat p) |}.

(** The same row once in a DataFrame. *)
Definition df_row (i d : string) (q : Z) (p : Q) : line_item :=
  {| item := CStr i; description := CStr d; Quantity := q; Unit_Price := p |}.

(** A table cell is a string or [None]; a table is a list of rows. *)
Definition row := list (option string).
Definition table := list row.

Record page := {
  extract_text : string;
  extract_tables : list table
}.

(** What [pdfplumber.open] gives: the pages, or the exception it raises on
    a file it cannot read. *)
Definition pdf_content := exc (list page).

(** [a > b] on numbers. *)
Definition Qgtb (a b : Q) : bool := negb (Qle_bool a b).

(** Truthiness of a cell that is a string or [None]. *)
Definition truthy (c : option string) : bool :=
  match c with
  | Some s => PyStr.nonempty s
  | None => false
  end.

Definition str_of (c : option string) : string :=
  match c with
  | Some s => s
  | None => EmptyString
  end.

Definition is_nil {A} (l : list A) : bool :=
  match l with
  | [] => true
  | _ => false
  end.

(** ** Line-Item Normalizer ([pdf_parser.py], lines 258-271) *)

Module Normalizer.

(** A numeric string as pandas reads it.  The model reads plain decimal
    literals with an optional sign; pandas also accepts exponents and
    padding, which no record of the parser contains. *)
Definition str_to_numeric (s : string) : option Q :=
  match s with
  | String "-" s' =>
      match py_float s' with Ok q => Some (Qopp q) | Raise _ => None end
  | _ => match py_float s with Ok q => Some q | Raise _ => None end
  end.

(** [pd.to_numeric(x, errors='coerce')] on one cell; [None] is [NaN]. *)
Definition to_numeric (c : cell) : option Q :=
  match c with
  | CInt z => Some (inject_Z z)
  | CFloat q => Some q
  | CStr s => str_to_numeric s
  | CNone => None
  end.

Definition fillna (dflt : Q) (x : option Q) : Q :=
  match x with
  | Some q => q
  | None => dflt
  end.

(** *** The integer column

    The quantities the strategies of the parser build are Python [int]s that
    are not negative.  [pd.DataFrame(line_items)] followed by
    [pd.to_numeric] leaves a column of [int]s that all fit 64 signed bits as
    [int64], one of non-negative [int]s that all fit 64 unsigned bits as
    [uint64], and makes one with a non-negative [int] beyond 64 bits
    [float64], as it does a column with a [float], a string that is not a
    number or a missing value among the cells.  (A column of strings that all
    spell integers, and one that mixes negative [int]s with [int]s beyond 63
    bits, are treated in other ways by pandas; no strategy of the parser
    builds them, and they are read here as [float64].) *)

Definition INT64_MIN : Z := (- 2 ^ 63)%Z.
Definition INT64_MAX : Z := (2 ^ 63 - 1)%Z.
Definition UINT64_MAX : Z := (2 ^ 64 - 1)%Z.

Inductive dtype := int64 | uint64 | float64.

Definition fits_int64 (z : Z) : bool := (Z.leb INT64_MIN z && Z.leb z INT64_MAX)%bool.

Definition is_int64 (c : cell) : bool :=
  match c with
  | CInt z => fits_int64 z
  | _ => false
  end.

Definition is_uint64 (c : cell) : bool :=
  match c with
  | CInt z => (Z.leb 0 z && Z.leb z UINT64_MAX)%bool
  | _ => false
  end.

Definition dtype_of (cells : list cell) : dtype :=
  if forallb is_int64 cells then int64
  else if forallb is_uint64 cells then uint64
  else float64.

(** [float(z)] for an integer: the nearest binary64 number, ties to even.
    (An integer of 1024 bits or more has no binary64 value; how pandas
    treats such a cell was not established, and it is rounded here like the
    others.) *)
Definition round_binary64 (z : Z) : Z :=
  let a := Z.abs z in
  let bits := (Z.log2 a + 1)%Z in
  if Z.leb bits 53 then z
  else
    let sh := (bits - 53)%Z in
    let q := Z.shiftr a sh in
    let r := Z.land a (Z.ones sh) in
    let half := Z.shiftl 1 (sh - 1) in
    let up := (Z.ltb half r || (Z.eqb r half && Z.odd q))%bool in
    (Z.sgn z * Z.shiftl (if up then q + 1 else q) sh)%Z.

(** The cell in a [float64] column; [None] is [NaN]. *)
Definition to_float (c : cell) : option Q :=
  match c with
  | CInt z => Some (inject_Z (round_binary64 z))
  | _ => to_numeric c
  end.

(** Truncation towards zero. *)
Definition trunc (q : Q) : Z := Z.quot (Qnum q) (Zpos (Qden q)).

(** [.fillna(1).astype(int)] on a cell of a column of dtype [dt]: the cast is
    to [int64].  An [int64] stays as it is; a [uint64] beyond [INT64_MAX]
    wraps around; a [float64] is truncated, and one outside the range of
    [int64] gives [INT64_MIN], the value the conversion instruction of
    x86-64 returns (numpy leaves that case to the platform). *)
Definition astype_int (dt : dtype) (c : cell) : Z :=
  match dt, c with
  | int64, CInt z => z
  | uint64, CInt z => if Z.leb z INT64_MAX then z else (z - 2 ^ 64)%Z
  | _, _ =>
      let t := trunc (fillna 1 (to_float c)) in
      if fits_int64 t then t else INT64_MIN
  end.

Definition is_some {A} (o : option A) : bool :=
  match o with
  | Some _ => true
  | None => false
  end.

(** [col in df.columns]: some dict has the key. *)
Definition has_column (f : raw_record -> option cell) (line_items : list raw_record) : bool :=
  existsb (fun r => is_some (f r)) line_items.

(** The cell of column [f] in the row built from [r]: the dict's value,
    [NaN] when this dict lacks the key, and [fill] when every dict does
    ([df[col] = None if col in ['description'] else 0]). *)
Definition column (f : raw_record -> option cell) (fill : cell)
    (line_items : list raw_record) (r : raw_record) : cell :=
  if has_column f line_items then
    match f r with
    | Some c => c
    | None => CNone
    end
  else fill.

(** The dtype of the [Quantity] column. *)
Definition quantity_dtype (line_items : list raw_record) : dtype :=
  dtype_of (map (column raw_quantity (CInt 0) line_items) line_items).

Definition coerce_row (line_items : list raw_record) (r : raw_record) : line_item :=
  {| item := column raw_item (CInt 0) line_items r;
     description := column raw_description CNone line_items r;
     Quantity :=
       astype_int (quantity_dtype line_items)
         (column raw_quantity (CInt 0) line_items r);
     Unit_Price := fillna 0 (to_numeric (column raw_unit_price (CInt 0) line_items r)) |}.

(** The DataFrame construction, the two coercions and the filter
    [df[df['Unit Price'] > 0]]. *)
Definition normalize (line_items : list raw_record) : list line_item :=
  filter (fun it => Qgtb (Unit_Price it) 0) (map (coerce_row line_items) line_items).

(** A row of a DataFrame read back as a record with all four keys. *)
Definition to_record (it : line_item) : raw_record :=
  {| raw_item := Some (item it); raw_description := Some (description it);
     raw_quantity := Some (CInt (Quantity it));
     raw_unit_price := Some (CFloat (Unit_Price it)) |}.

End Normalizer.

Import Re.
Local Open Scope exc_scope.

(** ** Table Extractor ([pdf_parser.py], lines 52-112) *)

Module TableExtractor.

(** [cell and kw in cell.lower()] *)
Definition header_has (kw : string) (c : option string) : bool :=
  match c with
  | Some s => (PyStr.nonempty s && PyStr.contains kw (PyStr.lower s))%bool
  | None => false
  end.

(** [any(cell and "item" in cell.lower() for cell in header_row if cell)] *)
Definition is_line_items_table (header_row : row) : bool :=
  existsb (header_has "item") header_row.

(** [next((i for i, cell in enumerate(header_row) if p cell), None)] *)
Fixpoint find_index (p : option string -> bool) (header_row : row) : option nat :=
  match header_row with
  | [] => None
  | c :: cs => if p c then Some O else option_map S (find_index p cs)
  end.

Definition item_idx (h : row) : option nat := find_index (header_has "item") h.
Definition desc_idx (h : row) : option nat := find_index (header_has "description") h.
Definition qty_idx (h : row) : option nat :=
  find_index (fun c => (header_has "quantity" c || header_has "qty" c)%bool) h.
Definition price_idx (h : row) : option nat :=
  find_index (fun c => (header_has "price" c || header_has "total" c)%bool) h.

(** [row[idx] if idx is not None and idx < len(row) else dflt] *)
Definition cell_at (idx : option nat) (r : row) (dflt : string) : option string :=
  match idx with
  | Some i => if Nat.ltb i (List.length r) then nth i r None else Some dflt
  | None => Some dflt
  end.

(** [c.strip() if c else ""] *)
Definition clean (c : option string) : string :=
  if truthy c then PyStr.strip (str_of c) else EmptyString.

(** [m.group()] on the result of [re.search]: [AttributeError] on [None]. *)
Definition group0 (m : option match_obj) : exc string :=
  match m with
  | Some mo => Ok (m_text mo)
  | None => Raise AttributeError
  end.

(** Lines 92-95. *)
Definition coerce_quantity (quantity : option string) : exc Z :=
  try_except
    (if truthy quantity
     then g <- group0 (search no_flags (plus d) (str_of quantity)) ;; py_int g
     else Ok 1%Z)
    [AttributeError; ValueError]
    (Ok 1%Z).

Definition not_digit_or_dot : regex := Class true [Digit; One "."].   (* [^\d.] *)

(** Lines 97-102. *)
Definition coerce_price (price : option string) : exc Q :=
  try_except
    (let price1 := if truthy price
                   then sub no_flags not_digit_or_dot "" (str_of price)
                   else "0" in
     if PyStr.nonempty price1 then py_float price1 else Ok 0%Q)
    [ValueError]
    (Ok 0%Q).

(** The body of the row loop, lines 82-112: the dict it appends, if any. *)
Definition row_item (header_row r : row) : exc (list raw_record) :=
  let item := cell_at (item_idx header_row) r "" in
  let description := cell_at (desc_idx header_row) r "" in
  let quantity := cell_at (qty_idx header_row) r "1" in
  let price := cell_at (price_idx header_row) r "0" in
  let item := clean item in
  let description := clean description in
  quantity <- coerce_quantity quantity ;;
  price <- coerce_price price ;;
  if (PyStr.nonempty item && Qgtb price 0)%bool
  then Ok [mk_item item description quantity price]
  else Ok [].

(** [not row or all(not cell for cell in row)] *)
Definition empty_row (r : row) : bool := forallb (fun c => negb (truthy c)) r.

Fixpoint collect {A B} (f : A -> exc (list B)) (l : list A) : exc (list B) :=
  match l with
  | [] => Ok []
  | a :: l' => x <- f a ;; xs <- collect f l' ;; Ok (x ++ xs)%list
  end.

(** The rows after the header, once the column indices are resolved. *)
Definition extract_rows (header_row : row) (rows : list row) : exc (list raw_record) :=
  collect (fun r => if empty_row r then Ok [] else row_item header_row r) rows.

(** One table: contract of section 4.1, lines 59-112. *)
Definition table_items (t : table) : exc (list raw_record) :=
  match t with
  | [] | [_] => Ok []                         (* not table or len(table) <= 1 *)
  | header_row :: rows =>
      if is_line_items_table header_row then extract_rows header_row rows else Ok []
  end.

(** The table strategy: every table of the document, in order. *)
Definition tables_items (tables : list table) : exc (list raw_record) :=
  collect table_items tables.

End TableExtractor.

Import TableExtractor.

(** ** Text Section Extractor ([pdf_parser.py], lines 114-256) *)

Module TextExtractor.

Definition amount_chars : regex := plus (Class false [Range "0" "9"; One ","; One "."]).

(** [[0-9,.]+\.\d{2}] *)
Definition amount : regex := seq [amount_chars; Lit "."; times 2 d].

Definition word_or_hyphen : regex := Class false [Word; One "-"].   (* [\w-] *)

(** [(\d+)\s+([\w-]+)\s+([0-9,.]+\.\d{2})] *)
Definition main_section_pattern : regex :=
  seq [Grp 1 (plus d); plus s; Grp 2 (plus word_or_hyphen); plus s; Grp 3 amount].

(** [float(x.replace(',', ''))] *)
Definition to_float (x : string) : exc Q := py_float (PyStr.replace "," "" x).

(** Lines 127-132 for one line of the text: the section it adds to
    [main_sections], if any. *)
Definition main_section_of_line (line : string)
  : exc (list (string * string * string)) :=
  match search no_flags main_section_pattern line with
  | Some m =>
      let section_num := group 1 m in
      let section_name := group 2 m in
      let section_total := group 3 m in
      if PyStr.isdigit section_num then
        n <- py_int section_num ;;
        if (Z.leb 1 n && Z.leb n 39)%bool then
          t <- to_float section_total ;;
          if Qgtb t 100 then Ok [(section_num, section_name, section_total)] else Ok []
        else Ok []
      else Ok []
  | None => Ok []
  end.

(** Lines 123-132. *)
Definition main_sections (text : string) : exc (list (string * string * string)) :=
  collect main_section_of_line (PyStr.split PyStr.nl text).

(** [rf'{section_num}\.(\d+)\s+(.*?)(?=\d+\.\d+|\d+\s+[\w-]+\s+[0-9,.]+\.\d{{2}}|$)'] *)
Definition subsection_pattern (section_num : string) : regex :=
  seq [lit section_num; Lit "."; Grp 1 (plus d); plus s; Grp 2 (star_lazy Dot);
       Ahead (alts [seq [plus d; Lit "."; plus d];
                    seq [plus d; plus s; plus word_or_hyphen; plus s; amount];
                    Eol])].

Definition dotall : flags := {| MULTILINE := false; DOTALL := true |}.

(** [Allowance:\s+\$([0-9,.]+)] *)
Definition allowance_pattern : regex :=
  seq [lit "Allowance:"; plus s; Lit "$"; Grp 1 amount_chars].

(** Lines 156-179 for one subsection found by [re.findall]. *)
Definition subsection_item (section_num : string) (m : match_obj) : exc (list raw_record) :=
  let subsection_num := group 1 m in
  let subsection_text := group 2 m in
  let clean_subsection_text := PyStr.strip subsection_text in
  let subsection_lines := PyStr.split PyStr.nl clean_subsection_text in
  let subsection_name := PyStr.strip (hd EmptyString subsection_lines) in
  let description :=
    if Nat.ltb 1 (List.length subsection_lines)
    then PyStr.strip (PyStr.join (String PyStr.nl "") (tl subsection_lines))
    else "" in
  unit_price <-
    match search no_flags allowance_pattern clean_subsection_text with
    | Some a => to_float (group 1 a)
    | None => Ok 0%Q
    end ;;
  if (PyStr.nonempty subsection_name && Qgtb unit_price 0)%bool
  then Ok [mk_item (section_num ++ "." ++ subsection_num ++ " " ++ subsection_name)
                   description 1 unit_price]
  else Ok [].

(** Lines 138-179 for one main section: its item, then its subsections. *)
Definition section_items (text : string) (sec : string * string * string)
  : exc (list raw_record) :=
  let '(section_num, section_name, section_total) := sec in
  let clean_section_name := PyStr.strip (PyStr.replace "-" " " section_name) in
  total <- to_float section_total ;;
  subs <- collect (subsection_item section_num)
            (finditer dotall (subsection_pattern section_num) text) ;;
  Ok (mk_item (section_num ++ ". " ++ clean_section_name)
              ("Main category: " ++ clean_section_name) 1 total :: subs).

(** The main-section strategy with its subsection refinement. *)
Definition main_section_items (text : string) : exc (list raw_record) :=
  secs <- main_sections text ;;
  collect (section_items text) secs.

(** [([\w\s-]+)(?::|-)?\s+\$([0-9,.]+\.\d{2})] *)
Definition general_pattern : regex :=
  seq [Grp 1 (plus (Class false [Word; Space; One "-"]));
       opt (Alt (Lit ":") (Lit "-")); plus s; Lit "$"; Grp 2 amount].

(** Lines 189-202 for one match of the general pattern. *)
Definition general_item (m : match_obj) : exc (list raw_record) :=
  let clean_item_name := PyStr.strip (group 1 m) in
  price_float <- to_float (group 2 m) ;;
  if (PyStr.nonempty clean_item_name && Qgtb price_float 100)%bool
  then Ok [mk_item clean_item_name ("Item from PDF: " ++ clean_item_name) 1 price_float]
  else Ok [].

(** The generic strategy. *)
Definition general_items (text : string) : exc (list raw_record) :=
  collect general_item (finditer no_flags general_pattern text).

(** [Subtotal\s+\$([0-9,.]+\.\d{2})] *)
Definition subtotal_pattern : regex :=
  seq [lit "Subtotal"; plus s; Lit "$"; Grp 1 amount].

(** [Total\s+([0-9,.]+\.\d{2})] *)
Definition total_pattern : regex :=
  seq [lit "Total"; plus s; Grp 1 amount].

Definition complete_project (price : Q) : raw_record :=
  mk_item "1. Complete Project" "Full project as described in PDF" 1 price.

(** Lines 212-221 and 227-236: the item synthesised from a match of the
    subtotal or of the total pattern. *)
Definition complete_project_of (m : match_obj) : exc (list raw_record) :=
  p <- to_float (group 1 m) ;; Ok [complete_project p].

(** What a fallback pattern contributes: one item when it matches. *)
Definition fallback_items (m : option match_obj) : exc (list raw_record) :=
  match m with
  | Some mo => complete_project_of mo
  | None => Ok []
  end.

Definition subtotal_items (text : string) : exc (list raw_record) :=
  fallback_items (search no_flags subtotal_pattern text).

Definition total_items (text : string) : exc (list raw_record) :=
  fallback_items (search no_flags total_pattern text).

(** Lines 242-254. *)
Definition hardcoded_items : list raw_record :=
  [ mk_item "1. Kitchen Demo" "Kitchen demolition and preparation" 1 2574.00;
    mk_item "2. Kitchen Cabinetry" "Cabinetry and countertop installation" 1 9931.60;
    mk_item "3. Kitchen Tile" "Tile installation for backsplash" 1 1989.40;
    mk_item "4. Kitchen Plumbing" "Plumbing fixtures and installation" 1 3510.65;
    mk_item "5. Kitchen Electrical" "Electrical work in kitchen" 1 2185.04;
    mk_item "6. Kitchen HVAC" "HVAC work in kitchen" 1 2202.20;
    mk_item "7. Flooring Demo" "Flooring demolition" 1 6024.10;
    mk_item "8. Flooring Installation" "New flooring installation" 1 18718.52;
    mk_item "9. Bathroom Renovation" "Primary bathroom renovation" 1 35000.00;
    mk_item "10. Guest Bathroom" "Guest bathroom renovation" 1 20000.00;
    mk_item "11. General Contractor" "Project management and oversight" 1 9290.00 ].

End TextExtractor.

Import TextExtractor.

(** ** Extraction Orchestrator ([extract_line_items]) *)

(** The strategies, in the order the orchestrator tries them. *)
Inductive strategy :=
| TryTables
| TryMainSections
| TryGeneric
| TrySubtotal
| TryTotal
| UseFallbackDefaults.

(** A computation that records the strategies it runs, and may raise. *)
Definition traced (A : Type) : Type := (list strategy * exc A)%type.

Definition tret {A} (a : A) : traced A := ([], Ok a).

Definition tbind {A B} (m : traced A) (k : A -> traced B) : traced B :=
  match m with
  | (t, Ok a) => let (t', r) := k a in ((t ++ t')%list, r)
  | (t, Raise e) => (t, Raise e)
  end.

(** Entering the code of strategy [st]. *)
Definition mark (st : strategy) : traced unit := ([st], Ok tt).

(** A step that adds nothing to the record. *)
Definition lift {A} (m : exc A) : traced A := ([], m).

Declare Scope traced_scope.
Delimit Scope traced_scope with traced.
Notation "x <- m ;; k" := (tbind m (fun x => k))
  (at level 61, m at next level, right associativity) : traced_scope.

(** [text = '\n'.join([page.extract_text() for page in pdf.pages])] *)
Definition all_text (pages : list page) : string :=
  PyStr.join (String PyStr.nl "") (map extract_text pages).

(** The accumulated [tables] list, lines 31-35. *)
Definition all_tables (pages : list page) : list table :=
  flat_map extract_tables pages.

(** Lines 49-256: the cascade that fills [line_items]. *)
Definition cascade (text : string) (tables : list table) : traced (list raw_record) :=
  (line_items <-
     (if negb (is_nil tables)
      then _ <- mark TryTables ;; lift (tables_items tables)
      else tret []) ;;
   line_items <-
     (if is_nil line_items
      then _ <- mark TryMainSections ;; lift (main_section_items text)
      else tret line_items) ;;
   line_items <-
     (if is_nil line_items
      then _ <- mark TryGeneric ;; lift (general_items text)
      else tret line_items) ;;
   if is_nil line_items then
     _ <- mark TrySubtotal ;;
     match search no_flags subtotal_pattern text with
     | Some subtotal_match => lift (complete_project_of subtotal_match)
     | None =>
         _ <- mark TryTotal ;;
         match search no_flags total_pattern text with
         | Some total_match => lift (complete_project_of total_match)
         | None => _ <- mark UseFallbackDefaults ;; tret hardcoded_items
         end
     end
   else tret line_items)%traced.

(** The DataFrame of the [except] branch, lines 279-285. *)
Definition error_items : list line_item :=
  [ df_row "1. Kitchen Demo" "Kitchen demolition and preparation" 1 2574.00;
    df_row "2. Kitchen Cabinetry" "Cabinetry and countertop installation" 1 9931.60;
    df_row "3. Kitchen Tile" "Tile installation for backsplash" 1 1989.40;
    df_row "4. Kitchen Plumbing" "Plumbing fixtures and installation" 1 3510.65;
    df_row "5. Kitchen Electrical" "Electrical work in kitchen" 1 2185.04 ].

(** The [try] body of [extract_line_items] with the strategies it ran. *)
Definition extract_line_items_traced (pdf : pdf_content) : traced (list line_item) :=
  match pdf with
  | Ok pages =>
      (line_items <- cascade (all_text pages) (all_tables pages) ;;
       tret (Normalizer.normalize line_items))%traced
  | Raise e => ([], Raise e)
  end.

(** [extract_line_items(pdf_content)]: the [except Exception] branch turns
    every exception into the fixed DataFrame. *)
Definition extract_line_items (pdf : pdf_content) : list line_item :=
  match snd (extract_line_items_traced pdf) with
  | Ok df => df
  | Raise _ => error_items
  end.

(** A one-page document without tables. *)
Definition text_only (text : string) : pdf_content :=
  Ok [{| extract_text := text; extract_tables := [] |}].

(** ** Customer Info Extractor ([extract_customer_info]) *)

(** The dict the extractor returns: four keys always present, four optional. *)
Record customer_info := {
  customer_name : string;
  estimate_number : string;
  date : string;
  total : string;
  subtotal : option string;
  phone : option string;
  email : option string;
  address : option string
}.

Module CustomerInfo.

Definition multiline_dotall : flags := {| MULTILINE := true; DOTALL := true |}.

Definition colon_or_space : regex := Class false [One ":"; Space].   (* [:\s] *)
Definition upper : regex := Class false [Range "A" "Z"].              (* [A-Z] *)
Definition lower : regex := Class false [Range "a" "z"].              (* [a-z] *)
Definition number_chars : regex :=
  Class false [Range "A" "Z"; Range "0" "9"; One "-"].                (* [A-Z0-9-] *)

(** [label[:\s]+(.*?)(?=\n\n|\n[A-Z]|Estimate|$)] *)
Definition labelled_name (label : string) : regex :=
  seq [lit label; plus colon_or_space; Grp 1 (star_lazy Dot);
       Ahead (alts [seq [newline; newline]; seq [newline; upper]; lit "Estimate"; Eol])].

(** Lines 343-348. *)
Definition patterns : list regex :=
  [ labelled_name "Bill To";
    labelled_name "Customer";
    labelled_name "Prepared For";
    (* (?:^|\n)([A-Z][a-z]+ [A-Z][a-z]+)(?=\n) *)
    seq [Alt Bol newline;
         Grp 1 (seq [upper; plus lower; Lit " "; upper; plus lower]);
         Ahead newline] ].

(** Lines 368-373. *)
Definition estimate_patterns : list regex :=
  [ seq [lit "Estimate"; plus s; Grp 1 (plus number_chars)];
    seq [lit "Estimate Number"; plus colon_or_space; Grp 1 (plus number_chars)];
    seq [lit "ES-"; Grp 1 (plus d)];
    seq [Lit "#"; Rep true 0 None s; Grp 1 (plus number_chars)] ].

(** Lines 388-392. *)
Definition date_patterns : list regex :=
  [ seq [lit "Date"; plus colon_or_space; Grp 1 (star_lazy Dot); Ahead (Alt newline Eol)];
    Grp 1 (seq [between 1 2 d; Lit "/"; between 1 2 d; Lit "/"; between 2 4 d]);
    Grp 1 (seq [upper; plus lower; Lit " "; between 1 2 d; opt (Lit ","); Lit " "; times 4 d]) ].

(** [label\s+\$?([0-9,.]+\.\d{2})] *)
Definition labelled_amount (label : string) : regex :=
  seq [lit label; plus s; opt (Lit "$"); Grp 1 amount].

(** Lines 407-412. *)
Definition total_patterns : list regex :=
  [ labelled_amount "Total";
    labelled_amount "Total Amount";
    labelled_amount "Balance Due";
    labelled_amount "Grand Total" ].

(** [Subtotal\s+\$?([0-9,.]+\.\d{2})], line 423. *)
Definition info_subtotal_pattern : regex := labelled_amount "Subtotal".

(** [(?:Phone|Tel)[:\s]+(\(?\d{3}\)?[-.\s]?\d{3}[-.\s]?\d{4})] *)
Definition phone_pattern : regex :=
  let sep := opt (Class false [One "-"; One "."; Space]) in
  seq [Alt (lit "Phone") (lit "Tel"); plus colon_or_space;
       Grp 1 (seq [opt (Lit "("); times 3 d; opt (Lit ")"); sep; times 3 d; sep; times 4 d])].

(** [[a-zA-Z0-9._%+-]+@[a-zA-Z0-9.-]+\.[a-zA-Z]{2,}] *)
Definition email_pattern : regex :=
  let alnum := [Range "a" "z"; Range "A" "Z"; Range "0" "9"] in
  seq [plus (Class false (alnum ++ [One "."; One "_"; One "%"; One "+"; One "-"])%list);
       Lit "@";
       plus (Class false (alnum ++ [One "."; One "-"])%list);
       Lit ".";
       at_least 2 (Class false [Range "a" "z"; Range "A" "Z"])].

(** [(?:Address|Location)[:\s]+(.*?)(?=\n\n|\n[A-Z]|Phone|Email|$)] *)
Definition address_pattern : regex :=
  seq [Alt (lit "Address") (lit "Location"); plus colon_or_space; Grp 1 (star_lazy Dot);
       Ahead (alts [seq [newline; newline]; seq [newline; upper];
                    lit "Phone"; lit "Email"; Eol])].

(** [for pattern in ps: match = re.search(pattern, text, fl); if match: ...; break] *)
Fixpoint first_match (fl : flags) (ps : list regex) (text : string) : option match_obj :=
  match ps with
  | [] => None
  | p :: ps' =>
      match search fl p text with
      | Some m => Some m
      | None => first_match fl ps' text
      end
  end.

(** [re.sub(r'\s+', ' ', x).strip()] *)
Definition squeeze (x : string) : string :=
  PyStr.strip (sub no_flags (plus s) " " x).

(** Lines 330-335 in one row: the name it assigns, if it assigns one. *)
Definition name_in_row (r : row) : option string :=
  let labelled c :=
    match c with
    | Some x =>
        (PyStr.nonempty x &&
         (PyStr.contains "bill to" (PyStr.lower x) ||
          PyStr.contains "customer" (PyStr.lower x)))%bool
    | None => false
    end in
  if (Nat.leb 2 (List.length r) && existsb labelled r && truthy (nth 1 r None))%bool
  then Some (PyStr.strip (str_of (nth 1 r None)))
  else None.

(** The row loop of one table: it stops at the first row that assigns. *)
Fixpoint name_in_rows (t : table) : option string :=
  match t with
  | [] => None
  | r :: rs =>
      match name_in_row r with
      | Some n => Some n
      | None => name_in_rows rs
      end
  end.

(** Lines 319-338: [customer_name] after the loop over the first page's
    tables, starting from its current value. *)
Fixpoint name_in_tables (tables : list table) (customer_name : option string)
  : option string :=
  match tables with
  | [] => customer_name
  | t :: ts =>
      if Nat.ltb (List.length t) 2 then name_in_tables ts customer_name
      else
        let customer_name :=
          match name_in_rows t with
          | Some n => Some n
          | None => customer_name
          end in
        if truthy customer_name then customer_name
        else name_in_tables ts customer_name
  end.

(** Lines 319-365. *)
Definition find_customer_name (first_page_text : string) (first_page_tables : list table)
  : string :=
  let customer_name := name_in_tables first_page_tables None in
  let customer_name :=
    if negb (truthy customer_name) then
      match first_match multiline_dotall patterns first_page_text with
      | Some m => Some (PyStr.strip (group 1 m))
      | None => customer_name
      end
    else customer_name in
  if truthy customer_name then squeeze (str_of customer_name)
  else "Mary Sue Mugge".

(** Lines 367-385. *)
Definition find_estimate_number (all_text : string) : string :=
  let estimate_number :=
    match first_match no_flags estimate_patterns all_text with
    | Some m => PyStr.strip (group 1 m)
    | None => "Unknown"
    end in
  if String.eqb estimate_number "Unknown" then "ES-10191" else estimate_number.

(** Lines 387-404. *)
Definition find_date (first_page_text : string) : string :=
  let date :=
    match first_match no_flags date_patterns first_page_text with
    | Some m => PyStr.strip (group 1 m)
    | None => "Unknown"
    end in
  if String.eqb date "Unknown" then "May 15, 2025" else date.

(** Lines 406-431: the [total] entry and the [subtotal] entry, if set. *)
Definition find_total (all_text : string) : string * option string :=
  let total :=
    match first_match no_flags total_patterns all_text with
    | Some m => PyStr.replace "," "" (group 1 m)
    | None => "0.00"
    end in
  if String.eqb total "0.00" then
    match search no_flags info_subtotal_pattern all_text with
    | Some m =>
        let total := PyStr.replace "," "" (group 1 m) in
        (total, Some total)
    | None => ("132991.96", None)
    end
  else (total, None).

(** Lines 436-454. *)
Definition find_phone (all_text : string) : option string :=
  option_map (group 1) (search no_flags phone_pattern all_text).

Definition find_email (all_text : string) : option string :=
  option_map m_text (search no_flags email_pattern all_text).

Definition find_address (all_text : string) : option string :=
  option_map (fun m => squeeze (PyStr.strip (group 1 m)))
    (search multiline_dotall address_pattern all_text).

(** The record of the [except] branch, lines 462-467. *)
Definition default_info : customer_info :=
  {| customer_name := "Mary Sue Mugge";
     estimate_number := "ES-10191";
     date := "May 15, 2025";
     total := "132991.96";
     subtotal := None; phone := None; email := None; address := None |}.

End CustomerInfo.

Import CustomerInfo.

(** [pdf.pages[0].extract_text() if len(pdf.pages) > 0 else ""] *)
Definition first_page_text (pages : list page) : string :=
  match pages with
  | p :: _ => extract_text p
  | [] => EmptyString
  end.

(** [pdf.pages[0].extract_tables() if len(pdf.pages) > 0 else []] *)
Definition first_page_tables (pages : list page) : list table :=
  match pages with
  | p :: _ => extract_tables p
  | [] => []
  end.

(** [extract_customer_info(pdf_content)] *)
Definition extract_customer_info (pdf : pdf_content) : customer_info :=
  match pdf with
  | Ok pages =>
      {| customer_name :=
           find_customer_name (first_page_text pages) (first_page_tables pages);
         estimate_number := find_estimate_number (all_text pages);
         date := find_date (first_page_text pages);
         total := fst (find_total (all_text pages));
         subtotal := snd (find_total (all_text pages));
         phone := find_phone (all_text pages);
         email := find_email (all_text pages);
         address := find_address (all_text pages) |}
  | Raise _ => default_info
  end.

(** * Properties *)

(** ** Numbers and lists *)

Lemma Qgtb_iff (a b : Q) : Qgtb a b = true <-> (b < a)%Q.
Proof.
  unfold Qgtb. rewrite negb_true_iff. split.
  - intros H. apply Qnot_le_lt. intros L.
    apply Qle_bool_iff in L. congruence.
  - intros H. destruct (Qle_bool a b) eqn:E; [|reflexivity].
    apply Qle_bool_iff in E. exfalso. exact (Qlt_not_le _ _ H E).
Qed.

Lemma Qgtb_100_0 (a : Q) : Qgtb a 100 = true -> Qgtb a 0 = true.
Proof.
  rewrite !Qgtb_iff. intros H.
  apply Qlt_trans with (y := 100%Q); [reflexivity | exact H].
Qed.

Lemma digits_val_nonneg (x : string) :
  forall acc, (0 <= acc)%Z -> (0 <= PyStr.digits_val acc x)%Z.
Proof.
  induction x as [|c x IH]; cbn [PyStr.digits_val]; intros acc H; [exact H|].
  apply IH. unfold PyStr.digit_val. lia.
Qed.

Lemma py_int_nonneg (x : string) (n : Z) : py_int x = Ok n -> (0 <= n)%Z.
Proof.
  unfold py_int. destruct (PyStr.isdigit x); [|discriminate].
  destruct (Nat.leb _ _); [|discriminate].
  intros H. injection H as <-. apply digits_val_nonneg. lia.
Qed.

Lemma py_float_nonneg (x : string) (q : Q) : py_float x = Ok q -> (0 <= q)%Q.
Proof.
  unfold py_float.
  destruct (PyStr.split "." x) as [|i [|f [|g l]]]; try discriminate.
  - destruct (PyStr.isdigit i); [|discriminate].
    intros H. injection H as <-. unfold Qle. simpl.
    pose proof (digits_val_nonneg i 0%Z). lia.
  - destruct (_ && _)%bool; [|discriminate].
    intros H. injection H as <-. unfold Qle. simpl.
    pose proof (digits_val_nonneg (i ++ f) 0%Z). lia.
Qed.

Section Collect.

Context {A B : Type} (f : A -> exc (list B)).

Lemma collect_in (l : list A) :
  forall ys y, collect f l = Ok ys -> In y ys ->
    exists a xs, In a l /\ f a = Ok xs /\ In y xs.
Proof.
  induction l as [|a l IH]; simpl; intros ys y H Hy.
  - injection H as <-. destruct Hy.
  - destruct (f a) as [xs|e] eqn:Ea; simpl in H; [|discriminate].
    destruct (collect f l) as [zs|e] eqn:El; simpl in H; [|discriminate].
    injection H as <-. apply in_app_or in Hy. destruct Hy as [Hy|Hy].
    + exists a, xs. auto.
    + destruct (IH zs y eq_refl Hy) as (a' & xs' & Ha' & Hf & Hin).
      exists a', xs'. auto.
Qed.

Lemma collect_incl (l : list A) :
  forall ys a xs, collect f l = Ok ys -> In a l -> f a = Ok xs -> incl xs ys.
Proof.
  induction l as [|a0 l IH]; simpl; intros ys a xs H Ha Hf; [destruct Ha|].
  destruct (f a0) as [xs0|e] eqn:Ea; simpl in H; [|discriminate].
  destruct (collect f l) as [zs|e] eqn:El; simpl in H; [|discriminate].
  injection H as <-. destruct Ha as [->|Ha].
  - rewrite Hf in Ea. injection Ea as <-. apply incl_appl, incl_refl.
  - apply incl_appr. exact (IH zs a xs eq_refl Ha Hf).
Qed.


Lemma collect_forall (P : B -> Prop) (l : list A) :
  (forall a xs, In a l -> f a = Ok xs -> Forall P xs) ->
  forall ys, collect f l = Ok ys -> Forall P ys.
Proof.
  intros H ys Hc. apply Forall_forall. intros y Hy.
  destruct (collect_in _ _ _ Hc Hy) as (a & xs & Ha & Hf & Hin).
  pose proof (H a xs Ha Hf) as HP. rewrite Forall_forall in HP. auto.
Qed.

End Collect.

(** ** The Normalizer *)

Section NormalizerFacts.

Import Normalizer.

Lemma has_column_in (f : raw_record -> option cell) (l : list raw_record) r c :
  In r l -> f r = Some c -> has_column f l = true.
Proof.
  intros Hin Hf. unfold has_column. apply existsb_exists.
  exists r. rewrite Hf. auto.
Qed.

Lemma column_in (f : raw_record -> option cell) fill (l : list raw_record) r c :
  In r l -> f r = Some c -> column f fill l r = c.
Proof.
  intros Hin Hf. unfold column.
  rewrite (has_column_in f l r c Hin Hf), Hf. reflexivity.
Qed.

Lemma trunc_inject (z : Z) : trunc (inject_Z z) = z.
Proof. unfold trunc. simpl. apply Z.quot_1_r. Qed.

Lemma fits_int64_iff (z : Z) :
  fits_int64 z = true <-> (INT64_MIN <= z <= INT64_MAX)%Z.
Proof.
  unfold fits_int64. rewrite andb_true_iff, !Z.leb_le. reflexivity.
Qed.

(** Whatever the column holds, the cast gives a value of [int64]. *)
Lemma astype_int_range (cells : list cell) (c : cell) :
  In c cells -> fits_int64 (astype_int (dtype_of cells) c) = true.
Proof.
  intros Hin.
  assert (F : fits_int64
                (let t := trunc (fillna 1 (to_float c)) in
                 if fits_int64 t then t else INT64_MIN) = true).
  { cbv zeta. destruct (fits_int64 (trunc _)) eqn:E; [exact E | reflexivity]. }
  unfold dtype_of. destruct (forallb is_int64 cells) eqn:I.
  - rewrite forallb_forall in I. specialize (I c Hin).
    destruct c; try discriminate I. exact I.
  - destruct (forallb is_uint64 cells) eqn:U.
    + rewrite forallb_forall in U. specialize (U c Hin).
      destruct c as [z| | |]; try discriminate U.
      cbn [astype_int is_uint64] in U |- *.
      apply andb_prop in U. destruct U as [U1 U2].
      apply Z.leb_le in U1, U2. unfold UINT64_MAX in U2.
      destruct (Z.leb z INT64_MAX) eqn:L; apply fits_int64_iff;
        unfold INT64_MIN, INT64_MAX in *.
      * apply Z.leb_le in L. lia.
      * apply Z.leb_gt in L. lia.
    + destruct c; exact F.
Qed.

Lemma quantity_cell_in (l : list raw_record) (r : raw_record) :
  In r l ->
  In (column raw_quantity (CInt 0) l r) (map (column raw_quantity (CInt 0) l) l).
Proof. intros H. apply in_map. exact H. Qed.

(** Every row of the DataFrame has an [int64] quantity. *)
Lemma coerce_row_range (l : list raw_record) (r : raw_record) :
  In r l -> fits_int64 (Quantity (coerce_row l r)) = true.
Proof.
  intros H. unfold coerce_row, quantity_dtype. cbn [Quantity].
  apply astype_int_range, quantity_cell_in, H.
Qed.

(** A column of Python [int]s that all fit 64 signed bits is [int64]. *)
Lemma quantity_dtype_int64 (l : list raw_record) :
  (forall r, In r l ->
     exists z, raw_quantity r = Some (CInt z) /\ fits_int64 z = true) ->
  quantity_dtype l = int64.
Proof.
  intros H. unfold quantity_dtype, dtype_of.
  replace (forallb is_int64 (map (column raw_quantity (CInt 0) l) l)) with true;
    [reflexivity|].
  symmetry. apply forallb_forall. intros c Hc.
  apply in_map_iff in Hc. destruct Hc as (r & <- & Hr).
  destruct (H r Hr) as (z & Ez & Fz).
  rewrite (column_in raw_quantity _ _ _ _ Hr Ez). exact Fz.
Qed.

(** A dict with all four keys and a [float] price becomes a row with the
    same label, description and price. *)
Lemma coerce_row_labels (l : list raw_record) (r : raw_record) i d q p :
  In r l ->
  r = {| raw_item := Some i; raw_description := Some d;
         raw_quantity := Some q; raw_unit_price := Some (CFloat p) |} ->
  item (coerce_row l r) = i /\ description (coerce_row l r) = d /\
  Unit_Price (coerce_row l r) = p.
Proof.
  intros Hin ->. unfold coerce_row. cbn [item description Unit_Price].
  rewrite (column_in raw_item _ _ _ _ Hin eq_refl).
  rewrite (column_in raw_description _ _ _ _ Hin eq_refl).
  rewrite (column_in raw_unit_price _ _ _ _ Hin eq_refl).
  repeat split.
Qed.

(** In an [int64] column, a dict with all four keys, an [int] quantity and a
    [float] price becomes the row with the same values. *)
Lemma coerce_row_full (l : list raw_record) (r : raw_record) i d q p :
  quantity_dtype l = int64 ->
  In r l ->
  r = {| raw_item := Some i; raw_description := Some d;
         raw_quantity := Some (CInt q); raw_unit_price := Some (CFloat p) |} ->
  coerce_row l r = {| item := i; description := d; Quantity := q; Unit_Price := p |}.
Proof.
  intros Hdt Hin ->. unfold coerce_row. rewrite Hdt.
  rewrite (column_in raw_item _ _ _ _ Hin eq_refl).
  rewrite (column_in raw_description _ _ _ _ Hin eq_refl).
  rewrite (column_in raw_quantity _ _ _ _ Hin eq_refl).
  rewrite (column_in raw_unit_price _ _ _ _ Hin eq_refl).
  reflexivity.
Qed.

Lemma normalize_in (l : list raw_record) (it : line_item) :
  In it (normalize l) <->
  exists r, In r l /\ it = coerce_row l r /\ (0 < Unit_Price it)%Q.
Proof.
  unfold normalize. rewrite filter_In, in_map_iff, Qgtb_iff. split.
  - intros [(r & <- & Hr) Hp]. exists r. auto.
  - intros (r & Hr & -> & Hp). split; [exists r; auto | exact Hp].
Qed.

Lemma normalize_range (l : list raw_record) (it : line_item) :
  In it (normalize l) -> fits_int64 (Quantity it) = true.
Proof.
  intros H. apply normalize_in in H. destruct H as (r & Hr & -> & _).
  exact (coerce_row_range l r Hr).
Qed.

(** A dict of [mk_item] with a price above zero gives a row with its label,
    description and price; with its quantity too in an [int64] column. *)
Lemma normalize_mk_item (l : list raw_record) i d q p :
  In (mk_item i d q p) l -> Qgtb p 0 = true ->
  exists q', In (df_row i d q' p) (normalize l) /\
             (quantity_dtype l = int64 -> q' = q).
Proof.
  intros Hin Hp.
  destruct (coerce_row_labels l _ _ _ _ _ Hin eq_refl) as (E1 & E2 & E3).
  exists (Quantity (coerce_row l (mk_item i d q p))). split.
  - apply normalize_in. exists (mk_item i d q p).
    split; [exact Hin|]. split.
    + destruct (coerce_row l (mk_item i d q p)) as [a b c e].
      cbn [item description Unit_Price Quantity] in *. subst. reflexivity.
    + cbn [df_row Unit_Price]. now apply Qgtb_iff.
  - intros Hdt. rewrite (coerce_row_full l _ _ _ _ _ Hdt Hin eq_refl). reflexivity.
Qed.

Lemma filter_all {X} (p : X -> bool) (l : list X) :
  (forall x, In x l -> p x = true) -> filter p l = l.
Proof.
  induction l as [|x l IH]; simpl; intros H; [reflexivity|].
  rewrite (H x (or_introl eq_refl)), IH; auto.
Qed.

Lemma to_record_round (l : list raw_record) (it : line_item) :
  quantity_dtype l = int64 ->
  In (to_record it) l -> coerce_row l (to_record it) = it.
Proof.
  intros Hdt Hin. rewrite (coerce_row_full l _ _ _ _ _ Hdt Hin eq_refl).
  now destruct it.
Qed.

(** The records read back from rows of [int64] quantities form an [int64]
    column. *)
Lemma to_record_dtype (rows : list line_item) :
  (forall it, In it rows -> fits_int64 (Quantity it) = true) ->
  quantity_dtype (map to_record rows) = int64.
Proof.
  intros H. apply quantity_dtype_int64. intros r Hr.
  apply in_map_iff in Hr. destruct Hr as (it & <- & Hit).
  exists (Quantity it). split; [reflexivity | exact (H it Hit)].
Qed.

End NormalizerFacts.

(** ** Shape of the dicts the strategies append *)

(** Every strategy builds its dicts with the literal of [mk_item]; the
    quantity is never negative. *)
Definition shaped (r : raw_record) : Prop :=
  exists i d q p, r = mk_item i d q p /\ (0 <= q)%Z /\ (0 <= p)%Q.

(** ... and all but the subtotal/total fallback check the price first. *)
Definition priced (r : raw_record) : Prop :=
  exists i d q p, r = mk_item i d q p /\ (0 <= q)%Z /\ Qgtb p 0 = true.

Lemma priced_shaped r : priced r -> shaped r.
Proof.
  intros (i & d & q & p & -> & Hq & Hp). exists i, d, q, p.
  split; [reflexivity|]. split; [exact Hq|].
  apply Qlt_le_weak. now apply Qgtb_iff.
Qed.

(** A dict whose quantity is a Python [int] that fits 64 signed bits. *)
Definition fitting (r : raw_record) : Prop :=
  exists z, raw_quantity r = Some (CInt z) /\ Normalizer.fits_int64 z = true.

Lemma fitting_dtype (l : list raw_record) :
  Forall fitting l -> Normalizer.quantity_dtype l = Normalizer.int64.
Proof.
  intros H. apply quantity_dtype_int64. now apply Forall_forall.
Qed.

(** The rows of dicts so built have a price above zero and an [int64]
    quantity, which is the dict's own, hence not negative, when every
    quantity of the column fits 64 signed bits. *)
Lemma shaped_rows (l : list raw_record) (it : line_item) :
  Forall shaped l -> In it (Normalizer.normalize l) ->
  (0 < Unit_Price it)%Q /\
  (Normalizer.INT64_MIN <= Quantity it <= Normalizer.INT64_MAX)%Z /\
  (Forall fitting l -> (0 <= Quantity it)%Z).
Proof.
  intros Hl Hin. pose proof (normalize_range l it Hin) as R.
  apply normalize_in in Hin. destruct Hin as (r & Hr & -> & Hp).
  split; [exact Hp|]. split; [apply fits_int64_iff; exact R|].
  intros Hf. rewrite Forall_forall in Hl.
  destruct (Hl r Hr) as (i & d & q & p & E & Hq & _).
  rewrite (coerce_row_full l r _ _ _ _ (fitting_dtype l Hf) Hr E). exact Hq.
Qed.

Lemma priced_rows_nonempty (l : list raw_record) :
  Forall priced l -> l <> [] -> Normalizer.normalize l <> [].
Proof.
  intros Hl Hne. destruct l as [|r l]; [congruence|].
  inversion Hl as [|? ? (i & d & q & p & -> & _ & Hp) _]; subst.
  intros E. destruct (normalize_mk_item (mk_item i d q p :: l) i d q p
                        (or_introl eq_refl) Hp) as (q' & Hin & _).
  rewrite E in Hin. destruct Hin.
Qed.

(** ** The Table Extractor *)

Lemma py_int_raises x e : py_int x = Raise e -> e = ValueError.
Proof.
  unfold py_int. destruct (PyStr.isdigit x); [|congruence].
  destruct (Nat.leb _ _); congruence.
Qed.

Lemma py_float_raises x e : py_float x = Raise e -> e = ValueError.
Proof.
  unfold py_float. destruct (PyStr.split "." x) as [|i [|f [|g l]]];
    repeat match goal with |- context [if ?b then _ else _] => destruct b end;
    congruence.
Qed.

Lemma coerce_quantity_total (quantity : option string) :
  exists q, coerce_quantity quantity = Ok q /\ (0 <= q)%Z /\
    (search no_flags (plus d) (str_of quantity) = None -> q = 1%Z).
Proof.
  unfold coerce_quantity. destruct (truthy quantity).
  - destruct (search no_flags (plus d) (str_of quantity)) as [m|]; simpl.
    + destruct (py_int (m_text m)) as [n|e] eqn:E; simpl.
      * exists n. split; [reflexivity|].
        split; [exact (py_int_nonneg _ _ E) | discriminate].
      * rewrite (py_int_raises _ _ E). simpl. exists 1%Z.
        split; [reflexivity|]. split; [lia | discriminate].
    + exists 1%Z. split; [reflexivity|]. split; [lia | reflexivity].
  - simpl. exists 1%Z. split; [reflexivity|]. split; [lia | reflexivity].
Qed.

Lemma coerce_price_total (price : option string) :
  exists p, coerce_price price = Ok p /\ (0 <= p)%Q.
Proof.
  unfold coerce_price.
  destruct (PyStr.nonempty _).
  - destruct (py_float _) as [q|e] eqn:E; simpl.
    + exists q. split; [reflexivity | exact (py_float_nonneg _ _ E)].
    + rewrite (py_float_raises _ _ E). simpl. exists 0%Q. split; [reflexivity|].
      apply Qle_refl.
  - simpl. exists 0%Q. split; [reflexivity | apply Qle_refl].
Qed.

(** No price to read: the cell is missing or empty, nothing is left once
    the other characters are removed, or what is left is not a number. *)
Definition malformed_price (price : option string) : Prop :=
  truthy price = true /\
  let digits := sub no_flags not_digit_or_dot "" (str_of price) in
  digits = EmptyString \/ exists e, py_float digits = Raise e.

Lemma coerce_price_malformed (price : option string) :
  malformed_price price -> coerce_price price = Ok 0%Q.
Proof.
  unfold malformed_price, coerce_price. intros [-> [E|(e & E)]].
  - rewrite E. reflexivity.
  - destruct (PyStr.nonempty _); [|reflexivity].
    rewrite E, (py_float_raises _ _ E). reflexivity.
Qed.

Lemma row_item_cases (header_row r : row) :
  exists q p,
    coerce_quantity (cell_at (qty_idx header_row) r "1") = Ok q /\
    coerce_price (cell_at (price_idx header_row) r "0") = Ok p /\
    (0 <= q)%Z /\
    row_item header_row r =
      Ok (if (PyStr.nonempty (clean (cell_at (item_idx header_row) r "")) && Qgtb p 0)%bool
          then [mk_item (clean (cell_at (item_idx header_row) r ""))
                        (clean (cell_at (desc_idx header_row) r "")) q p]
          else []).
Proof.
  destruct (coerce_quantity_total (cell_at (qty_idx header_row) r "1"))
    as (q & Eq & Hq & _).
  destruct (coerce_price_total (cell_at (price_idx header_row) r "0")) as (p & Ep & _).
  exists q, p. do 3 (split; [assumption|]).
  unfold row_item. rewrite Eq, Ep. simpl.
  destruct (_ && _)%bool; reflexivity.
Qed.

Lemma row_item_priced (header_row r : row) xs :
  row_item header_row r = Ok xs -> Forall priced xs.
Proof.
  destruct (row_item_cases header_row r) as (q & p & _ & _ & Hq & E).
  rewrite E. destruct (_ && _)%bool eqn:B; intros H; injection H as <-; [|constructor].
  apply andb_prop in B. destruct B as [_ Hp].
  constructor; [|constructor]. do 4 eexists. eauto.
Qed.

Lemma extract_rows_priced (header_row : row) (rows : list row) xs :
  extract_rows header_row rows = Ok xs -> Forall priced xs.
Proof.
  unfold extract_rows. apply collect_forall. intros r ys _.
  destruct (empty_row r).
  - intros H. injection H as <-. constructor.
  - apply row_item_priced.
Qed.

Lemma extract_rows_total (header_row : row) (rows : list row) :
  exists xs, extract_rows header_row rows = Ok xs.
Proof.
  unfold extract_rows. induction rows as [|r rows (xs & IH)]; simpl.
  - eauto.
  - rewrite IH. destruct (empty_row r); simpl; [eauto|].
    destruct (row_item_cases header_row r) as (q & p & _ & _ & _ & E).
    rewrite E. simpl. eauto.
Qed.

Lemma table_items_total (t : table) : exists xs, table_items t = Ok xs.
Proof.
  destruct t as [|h [|r rows]]; simpl; eauto.
  destruct (is_line_items_table h); eauto.
  apply (extract_rows_total h (r :: rows)).
Qed.

Lemma table_items_priced (t : table) xs : table_items t = Ok xs -> Forall priced xs.
Proof.
  destruct t as [|h [|r rows]]; simpl.
  1,2: intros H; injection H as <-; constructor.
  destruct (is_line_items_table h).
  - apply (extract_rows_priced h (r :: rows)).
  - intros H; injection H as <-; constructor.
Qed.

Lemma tables_items_total (tables : list table) : exists xs, tables_items tables = Ok xs.
Proof.
  unfold tables_items. induction tables as [|t ts (xs & IH)]; simpl; eauto.
  destruct (table_items_total t) as (ys & ->). rewrite IH. simpl. eauto.
Qed.

Lemma tables_items_priced (tables : list table) xs :
  tables_items tables = Ok xs -> Forall priced xs.
Proof.
  unfold tables_items. apply collect_forall. intros t ys _. apply table_items_priced.
Qed.



(** The header test as the specification words it: some cell of the first
    row contains "item", "description", "quantity"/"qty" or "price"/"total". *)
Definition spec_is_line_items_table (header_row : row) : bool :=
  existsb (fun c => (header_has "item" c || header_has "description" c ||
                     header_has "quantity" c || header_has "qty" c ||
                     header_has "price" c || header_has "total" c)%bool) header_row.


(** ** The text strategies *)

Lemma to_float_nonneg x q : to_float x = Ok q -> (0 <= q)%Q.
Proof. apply py_float_nonneg. Qed.

(** What the filter of line 131 guarantees of a recorded section. *)
Definition valid_section (sec : string * string * string) : Prop :=
  exists t, to_float (snd sec) = Ok t /\ Qgtb t 100 = true.

Lemma main_section_of_line_valid (line : string) secs :
  main_section_of_line line = Ok secs -> Forall valid_section secs.
Proof.
  unfold main_section_of_line.
  destruct (search no_flags main_section_pattern line) as [m|];
    [|intros H; injection H as <-; constructor].
  destruct (PyStr.isdigit (group 1 m)); [|intros H; injection H as <-; constructor].
  destruct (py_int (group 1 m)) as [n|e]; simpl; [|discriminate].
  destruct (Z.leb 1 n && Z.leb n 39)%bool; [|intros H; injection H as <-; constructor].
  destruct (to_float (group 3 m)) as [t|e] eqn:Et; simpl; [|discriminate].
  destruct (Qgtb t 100) eqn:Ht; intros H; injection H as <-; constructor; [|constructor].
  exists t. auto.
Qed.

Lemma main_sections_valid (text : string) secs :
  main_sections text = Ok secs -> Forall valid_section secs.
Proof.
  unfold main_sections. apply collect_forall. intros line xs _.
  apply main_section_of_line_valid.
Qed.

Lemma subsection_item_priced (section_num : string) (m : match_obj) xs :
  subsection_item section_num m = Ok xs -> Forall priced xs.
Proof.
  unfold subsection_item.
  set (up := match search no_flags allowance_pattern _ with
             | Some a => to_float (group 1 a) | None => Ok 0%Q end).
  destruct up as [u|e]; simpl; [|discriminate].
  destruct (_ && _)%bool eqn:B; intros H; injection H as <-; constructor; [|constructor].
  apply andb_prop in B. destruct B as [_ Hu].
  do 4 eexists. split; [reflexivity|]. split; [lia | exact Hu].
Qed.

Lemma section_items_priced (text : string) sec xs :
  valid_section sec -> section_items text sec = Ok xs -> Forall priced xs.
Proof.
  destruct sec as [[num name] tot]. intros (t & Et & Ht). simpl in Et.
  unfold section_items. rewrite Et. simpl.
  destruct (collect _ _) as [subs|e] eqn:Es; simpl; [|discriminate].
  intros H; injection H as <-. constructor.
  - do 4 eexists. split; [reflexivity|]. split; [lia | exact (Qgtb_100_0 _ Ht)].
  - revert Es. apply collect_forall. intros m ys _. apply subsection_item_priced.
Qed.

Lemma main_section_items_priced (text : string) xs :
  main_section_items text = Ok xs -> Forall priced xs.
Proof.
  unfold main_section_items.
  destruct (main_sections text) as [secs|e] eqn:Es; simpl; [|discriminate].
  pose proof (main_sections_valid _ _ Es) as Hv. rewrite Forall_forall in Hv.
  apply collect_forall. intros sec ys Hin. apply section_items_priced. auto.
Qed.

Lemma general_items_priced (text : string) xs :
  general_items text = Ok xs -> Forall priced xs.
Proof.
  unfold general_items. apply collect_forall. intros m ys _.
  unfold general_item.
  destruct (to_float (group 2 m)) as [q|e]; simpl; [|discriminate].
  destruct (_ && _)%bool eqn:B; intros H; injection H as <-; constructor; [|constructor].
  apply andb_prop in B. destruct B as [_ Hq].
  do 4 eexists. split; [reflexivity|]. split; [lia | exact (Qgtb_100_0 _ Hq)].
Qed.

Lemma fallback_items_cases (m : option match_obj) xs :
  fallback_items m = Ok xs ->
  xs = [] \/ exists p, xs = [complete_project p] /\ (0 <= p)%Q.
Proof.
  unfold fallback_items, complete_project_of.
  destruct m as [mo|]; [|intros H; injection H as <-; auto].
  destruct (to_float (group 1 mo)) as [p|e] eqn:E; simpl; [|discriminate].
  intros H; injection H as <-. right. exists p. split; [reflexivity|].
  exact (to_float_nonneg _ _ E).
Qed.

Lemma fallback_items_shaped (m : option match_obj) xs :
  fallback_items m = Ok xs -> Forall shaped xs.
Proof.
  intros H. destruct (fallback_items_cases _ _ H) as [->|(p & -> & Hp)]; constructor;
    [|constructor].
  do 4 eexists. split; [reflexivity|]. split; [lia | exact Hp].
Qed.

Lemma hardcoded_items_priced : Forall priced hardcoded_items.
Proof.
  unfold hardcoded_items.
  repeat (constructor;
          [do 4 eexists; split; [reflexivity|]; split; [lia | reflexivity]|]).
  constructor.
Qed.

(** ** The orchestrator *)

(** The items a strategy finds on its own, whether or not the cascade
    reaches it. *)
Definition yield (st : strategy) (text : string) (tables : list table)
  : exc (list raw_record) :=
  match st with
  | TryTables => tables_items tables
  | TryMainSections => main_section_items text
  | TryGeneric => general_items text
  | TrySubtotal => subtotal_items text
  | TryTotal => total_items text
  | UseFallbackDefaults => Ok hardcoded_items
  end.

(** Position in the orchestrator's order. *)
Definition rank (st : strategy) : nat :=
  match st with
  | TryTables => 0
  | TryMainSections => 1
  | TryGeneric => 2
  | TrySubtotal => 3
  | TryTotal => 4
  | UseFallbackDefaults => 5
  end.

(** The strategies a call of [extract_line_items] runs, in order. *)
Definition strategies_run (pdf : pdf_content) : list strategy :=
  fst (extract_line_items_traced pdf).

Lemma rank_inj a b : rank a = rank b -> a = b.
Proof. destruct a, b; simpl; congruence. Qed.

Lemma yield_shaped st text tables xs :
  yield st text tables = Ok xs -> Forall shaped xs.
Proof.
  assert (P : Forall priced xs -> Forall shaped xs).
  { intros H. eapply Forall_impl; [|exact H]. apply priced_shaped. }
  destruct st; simpl.
  - intros H. apply P. exact (tables_items_priced _ _ H).
  - intros H. apply P. exact (main_section_items_priced _ _ H).
  - intros H. apply P. exact (general_items_priced _ _ H).
  - apply fallback_items_shaped.
  - apply fallback_items_shaped.
  - intros H. injection H as <-. apply P, hardcoded_items_priced.
Qed.

Lemma yield_priced st text tables xs :
  st <> TrySubtotal -> st <> TryTotal ->
  yield st text tables = Ok xs -> Forall priced xs.
Proof.
  destruct st; simpl; intros H1 H2; try congruence.
  - apply tables_items_priced.
  - apply main_section_items_priced.
  - apply general_items_priced.
  - intros H. injection H as <-. apply hardcoded_items_priced.
Qed.

Ltac stop_at st :=
  exists st; split;
  [ intros s; destruct s; simpl; intuition (try discriminate; try lia; try congruence)
  | split;
    [ intros s; destruct s; simpl; intros; try lia; auto
    | split; [ reflexivity | try discriminate; auto ] ] ].

(** The cascade stops at one strategy: the strategies it ran are those up
    to it (the table strategy only when there are tables), everything
    before it found nothing, and its outcome, items or an exception, is the
    outcome of the cascade. *)
Lemma cascade_stops (text : string) (tables : list table) :
  exists st,
    (forall s, In s (fst (cascade text tables)) <->
               rank s <= rank st /\ (s = TryTables -> tables <> [])) /\
    (forall s, rank s < rank st -> yield s text tables = Ok []) /\
    snd (cascade text tables) = yield st text tables /\
    yield st text tables <> Ok [].
Proof.
  assert (Ht : tables = [] -> tables_items tables = Ok []) by (intros ->; reflexivity).
  assert (Hh : Ok hardcoded_items <> Ok []) by discriminate.
  unfold cascade, yield, subtotal_items, total_items, fallback_items, complete_project_of.
  set (rt := tables_items tables) in *.
  set (rm := main_section_items text).
  set (rg := general_items text).
  set (ms := search no_flags subtotal_pattern text).
  set (mo := search no_flags total_pattern text).
  set (hc := hardcoded_items) in *.
  clearbody rt rm rg ms mo hc.
  destruct tables as [|t ts].
  - rewrite (Ht eq_refl). simpl.
    destruct rm as [[|x1 l1]|e1]; simpl; [|stop_at TryMainSections..].
    destruct rg as [[|x2 l2]|e2]; simpl; [|stop_at TryGeneric..].
    destruct ms as [m3|]; simpl;
      [destruct (to_float (group 1 m3)) as [p3|e3]; simpl; stop_at TrySubtotal|].
    destruct mo as [m4|]; simpl;
      [destruct (to_float (group 1 m4)) as [p4|e4]; simpl; stop_at TryTotal|].
    stop_at UseFallbackDefaults.
  - clear Ht. simpl.
    destruct rt as [[|x0 l0]|e0]; simpl; [|stop_at TryTables..].
    destruct rm as [[|x1 l1]|e1]; simpl; [|stop_at TryMainSections..].
    destruct rg as [[|x2 l2]|e2]; simpl; [|stop_at TryGeneric..].
    destruct ms as [m3|]; simpl;
      [destruct (to_float (group 1 m3)) as [p3|e3]; simpl; stop_at TrySubtotal|].
    destruct mo as [m4|]; simpl;
      [destruct (to_float (group 1 m4)) as [p4|e4]; simpl; stop_at TryTotal|].
    stop_at UseFallbackDefaults.
Qed.

Lemma extract_line_items_ok (pages : list page) :
  extract_line_items (Ok pages) =
  match snd (cascade (all_text pages) (all_tables pages)) with
  | Ok line_items => Normalizer.normalize line_items
  | Raise _ => error_items
  end.
Proof.
  unfold extract_line_items, extract_line_items_traced.
  destruct (cascade (all_text pages) (all_tables pages)) as [tr [l|e]]; reflexivity.
Qed.

Lemma strategies_run_ok (pages : list page) :
  strategies_run (Ok pages) = fst (cascade (all_text pages) (all_tables pages)).
Proof.
  unfold strategies_run, extract_line_items_traced.
  destruct (cascade (all_text pages) (all_tables pages)) as [tr [l|e]]; simpl;
    [apply app_nil_r | reflexivity].
Qed.

Lemma error_items_invariant (it : line_item) :
  In it error_items -> (0 < Unit_Price it)%Q /\ (0 <= Quantity it)%Z.
Proof.
  unfold error_items. simpl.
  intros H. repeat (destruct H as [<-|H]; [split; [reflexivity | simpl; lia]|]).
  destruct H.
Qed.

(** The rows of the hardcoded fallback, lines 242-254, once normalized. *)
Definition fallback_rows : list line_item :=
  [ df_row "1. Kitchen Demo" "Kitchen demolition and preparation" 1 2574.00;
    df_row "2. Kitchen Cabinetry" "Cabinetry and countertop installation" 1 9931.60;
    df_row "3. Kitchen Tile" "Tile installation for backsplash" 1 1989.40;
    df_row "4. Kitchen Plumbing" "Plumbing fixtures and installation" 1 3510.65;
    df_row "5. Kitchen Electrical" "Electrical work in kitchen" 1 2185.04;
    df_row "6. Kitchen HVAC" "HVAC work in kitchen" 1 2202.20;
    df_row "7. Flooring Demo" "Flooring demolition" 1 6024.10;
    df_row "8. Flooring Installation" "New flooring installation" 1 18718.52;
    df_row "9. Bathroom Renovation" "Primary bathroom renovation" 1 35000.00;
    df_row "10. Guest Bathroom" "Guest bathroom renovation" 1 20000.00;
    df_row "11. General Contractor" "Project management and oversight" 1 9290.00 ].

Lemma normalize_hardcoded : Normalizer.normalize hardcoded_items = fallback_rows.
Proof. vm_compute. reflexivity. Qed.

(** ** Labels and quantities of the items *)

(** A dict built by [mk_item] with a non-empty label. *)
Definition labelled (r : raw_record) : Prop :=
  exists i d q p, r = mk_item i d q p /\ i <> EmptyString.

(** A dict built by [mk_item] with the quantity 1. *)
Definition unit_quantity (r : raw_record) : Prop :=
  exists i d p, r = mk_item i d 1 p.

Lemma append_nonempty (a b : string) (c : ascii) : (a ++ String c b)%string <> EmptyString.
Proof. destruct a; discriminate. Qed.

Lemma nonempty_true (x : string) : PyStr.nonempty x = true -> x <> EmptyString.
Proof. destruct x; [discriminate | discriminate]. Qed.

Lemma Forall_one {A} (P : A -> Prop) (a : A) : P a -> Forall P [a].
Proof. intros H. constructor; [exact H | constructor]. Qed.

Lemma row_item_labelled (header_row r : row) xs :
  row_item header_row r = Ok xs -> Forall labelled xs.
Proof.
  destruct (row_item_cases header_row r) as (q & p & _ & _ & _ & E). rewrite E.
  destruct (_ && _)%bool eqn:B; intros H; injection H as <-; [|constructor].
  apply andb_prop in B. destruct B as [Hi _].
  apply Forall_one. do 4 eexists. split; [reflexivity | exact (nonempty_true _ Hi)].
Qed.

Lemma tables_items_labelled (tables : list table) xs :
  tables_items tables = Ok xs -> Forall labelled xs.
Proof.
  unfold tables_items. apply collect_forall. intros t ys _.
  destruct t as [|h [|r rows]]; simpl.
  1,2: intros H; injection H as <-; constructor.
  destruct (is_line_items_table h); [|intros H; injection H as <-; constructor].
  unfold extract_rows. apply collect_forall. intros r' zs _.
  destruct (empty_row r'); [intros H; injection H as <-; constructor|].
  apply row_item_labelled.
Qed.

(** The items of a text strategy: a non-empty label and the quantity 1. *)
Definition text_item (r : raw_record) : Prop := labelled r /\ unit_quantity r.

Lemma text_item_intro i d p : i <> EmptyString -> text_item (mk_item i d 1 p).
Proof. intros H. split; [do 4 eexists; eauto | do 3 eexists; eauto]. Qed.

Lemma main_section_items_text (text : string) xs :
  main_section_items text = Ok xs -> Forall text_item xs.
Proof.
  unfold main_section_items.
  destruct (main_sections text) as [secs|e]; simpl; [|discriminate].
  apply collect_forall. intros [[num name] tot] ys _. unfold section_items.
  destruct (to_float tot) as [t|e]; simpl; [|discriminate].
  destruct (collect _ _) as [subs|e] eqn:Es; simpl; [|discriminate].
  intros H; injection H as <-. constructor.
  - apply text_item_intro. apply append_nonempty.
  - revert Es. apply collect_forall. intros m zs _. unfold subsection_item.
    set (up := match search no_flags allowance_pattern _ with
               | Some a => to_float (group 1 a) | None => Ok 0%Q end).
    destruct up as [u|e]; simpl; [|discriminate].
    destruct (_ && _)%bool; intros H; injection H as <-; [|constructor].
    apply Forall_one, text_item_intro, append_nonempty.
Qed.

Lemma general_items_text (text : string) xs :
  general_items text = Ok xs -> Forall text_item xs.
Proof.
  unfold general_items. apply collect_forall. intros m ys _. unfold general_item.
  destruct (to_float (group 2 m)) as [q|e]; simpl; [|discriminate].
  destruct (_ && _)%bool eqn:B; intros H; injection H as <-; [|constructor].
  apply andb_prop in B. destruct B as [Hi _].
  apply Forall_one, text_item_intro. exact (nonempty_true _ Hi).
Qed.

Lemma fallback_items_text (m : option match_obj) xs :
  fallback_items m = Ok xs -> Forall text_item xs.
Proof.
  intros H. destruct (fallback_items_cases _ _ H) as [->|(p & -> & _)]; [constructor|].
  apply Forall_one, text_item_intro. discriminate.
Qed.

Lemma hardcoded_items_text : Forall text_item hardcoded_items.
Proof.
  unfold hardcoded_items.
  repeat (constructor; [apply text_item_intro; discriminate|]). constructor.
Qed.

Lemma yield_text st text tables xs :
  st <> TryTables -> yield st text tables = Ok xs -> Forall text_item xs.
Proof.
  destruct st; simpl; intros Hst; try congruence.
  - apply main_section_items_text.
  - apply general_items_text.
  - apply fallback_items_text.
  - apply fallback_items_text.
  - intros H. injection H as <-. apply hardcoded_items_text.
Qed.

Lemma yield_labelled st text tables xs :
  yield st text tables = Ok xs -> Forall labelled xs.
Proof.
  assert (T : st <> TryTables -> yield st text tables = Ok xs -> Forall labelled xs).
  { intros Hst H. eapply Forall_impl; [|exact (yield_text _ _ _ _ Hst H)].
    intros r [L _]. exact L. }
  destruct st; try (apply T; discriminate).
  apply tables_items_labelled.
Qed.

Lemma error_items_text (it : line_item) :
  In it error_items ->
  (exists i d, item it = CStr i /\ i <> EmptyString /\ description it = CStr d) /\
  Quantity it = 1%Z.
Proof.
  unfold error_items. simpl. intros H.
  repeat (destruct H as [<-|H];
          [split; [do 2 eexists; split; [reflexivity|]; split; [discriminate|reflexivity]
                  | reflexivity]|]).
  destruct H.
Qed.

(** ** Quantities that fit 64 signed bits *)

(** A table cell whose reading as a quantity, lines 92-95, fits 64 signed
    bits. *)
Definition quantity_fits (c : option string) : Prop :=
  forall q, coerce_quantity c = Ok q -> Normalizer.fits_int64 q = true.

(** Every cell of every table of the document, read as a quantity, fits 64
    signed bits. *)
Definition quantities_fit (tables : list table) : Prop :=
  forall t r c, In t tables -> In r t -> In c r -> quantity_fits c.

Lemma unit_quantity_fitting r : unit_quantity r -> fitting r.
Proof. intros (i & d & p & ->). exists 1%Z. split; reflexivity. Qed.

Lemma cell_at_fits (idx : option nat) (r : row) :
  (forall c, In c r -> quantity_fits c) -> quantity_fits (cell_at idx r "1").
Proof.
  intros H. assert (D : quantity_fits (Some "1")).
  { intros q E. vm_compute in E. injection E as <-. reflexivity. }
  destruct idx as [i|]; simpl; [|exact D].
  destruct (Nat.ltb i (List.length r)) eqn:L; [|exact D].
  apply H, nth_In. now apply Nat.ltb_lt.
Qed.

Lemma row_item_fitting (header_row r : row) xs :
  (forall c, In c r -> quantity_fits c) ->
  row_item header_row r = Ok xs -> Forall fitting xs.
Proof.
  intros H. pose proof (cell_at_fits (qty_idx header_row) r H) as F.
  unfold row_item.
  destruct (coerce_quantity (cell_at (qty_idx header_row) r "1")) as [q|e] eqn:Q;
    simpl; [|discriminate].
  destruct (coerce_price _) as [p|e]; simpl; [|discriminate].
  destruct (_ && _)%bool; intros E; injection E as <-; [|constructor].
  apply Forall_one. exists q. split; [reflexivity | exact (F q Q)].
Qed.

Lemma tables_items_fitting (tables : list table) xs :
  quantities_fit tables -> tables_items tables = Ok xs -> Forall fitting xs.
Proof.
  intros H. unfold tables_items. apply collect_forall. intros t ys Ht.
  destruct t as [|h [|r rows]]; simpl.
  1,2: intros E; injection E as <-; constructor.
  destruct (is_line_items_table h); [|intros E; injection E as <-; constructor].
  unfold extract_rows. apply collect_forall. intros r' zs Hr.
  destruct (empty_row r'); [intros E; injection E as <-; constructor|].
  apply row_item_fitting. intros c Hc. exact (H _ r' c Ht (or_intror Hr) Hc).
Qed.

Lemma yield_fitting st text tables xs :
  quantities_fit tables -> yield st text tables = Ok xs -> Forall fitting xs.
Proof.
  intros H Y.
  assert (T : st <> TryTables -> Forall fitting xs).
  { intros Hst. eapply Forall_impl; [|exact (yield_text _ _ _ _ Hst Y)].
    intros r [_ U]. now apply unit_quantity_fitting. }
  destruct st; try (apply T; discriminate).
  exact (tables_items_fitting _ _ H Y).
Qed.

(** ** The generic pattern on a text with one dollar amount *)

Section GreedyClass.

Variable fl : flags.

(** A greedy repetition of a character class, by recursion on the text:
    [p] tells the characters of the class, [cnt] counts those taken, and the
    longest run for which what follows matches is the one taken. *)
Fixpoint rep_class (p : ascii -> bool) (k : mstate -> option mstate)
    (lo : nat) (hi : option nat) (cnt q : nat) (pv : option ascii) (x : string)
    (cs : list (nat * string)) {struct x} : option mstate :=
  let stop := if Nat.leb lo cnt
              then k {| pos := q; prev := pv; rest := x; caps := cs |}
              else None in
  match x with
  | String c y =>
      if (below hi cnt && p c)%bool
      then orelse (rep_class p k lo hi (S cnt) (S q) (Some c) y cs) stop
      else stop
  | EmptyString => stop
  end.

Lemma rep_class_eq (ng : bool) (ms : list cset) (lo : nat) (hi : option nat)
    (st : mstate) (k : mstate -> option mstate) :
  rmatch fl (Rep true lo hi (Class ng ms)) st k =
  rep_class (class_mem ng ms) k lo hi 0 (pos st) (prev st) (rest st) (caps st).
Proof.
  cbn [rmatch].
  set (loop := fix loop (fuel cnt : nat) (st : mstate) {struct fuel} : option mstate :=
         let stop := if Nat.leb lo cnt then k st else None in
         match fuel with
         | O => stop
         | S fuel' =>
             let more :=
               if below hi cnt
               then rmatch fl (Class ng ms) st
                      (fun st' => if Nat.ltb (pos st) (pos st')
                                  then loop fuel' (S cnt) st' else None)
               else None in
             orelse more stop
         end).
  assert (L : forall y fuel cnt q pv cs,
             String.length y <= fuel ->
             loop fuel cnt {| pos := q; prev := pv; rest := y; caps := cs |} =
             rep_class (class_mem ng ms) k lo hi cnt q pv y cs).
  { induction y as [|c y IH]; intros fuel cnt q pv cs Hf.
    - cbn [rep_class]. destruct fuel; unfold loop; [reflexivity|].
      cbn [rmatch step_if rest]. destruct (below hi cnt); reflexivity.
    - destruct fuel as [|fuel]; [simpl in Hf; lia|]. simpl in Hf.
      cbn [rep_class]. unfold loop at 1; fold loop.
      cbn [rmatch step_if rest pos prev caps].
      destruct (below hi cnt); cbn [andb]; [|reflexivity].
      destruct (class_mem ng ms c); [|reflexivity].
      unfold advance. cbn [pos prev rest caps].
      rewrite (proj2 (Nat.ltb_lt q (S q)) (Nat.lt_succ_diag_r q)).
      rewrite (IH fuel (S cnt) (S q) (Some c) cs ltac:(lia)). reflexivity. }
  destruct st as [q pv x cs]. cbn [pos prev rest caps]. apply L. lia.
Qed.

Lemma rmatch_cat (r1 r2 : regex) (st : mstate) (k : mstate -> option mstate) :
  rmatch fl (Cat r1 r2) st k = rmatch fl r1 st (fun st' => rmatch fl r2 st' k).
Proof. reflexivity. Qed.

Lemma rmatch_grp (n : nat) (r : regex) (st : mstate) (k : mstate -> option mstate) :
  rmatch fl (Grp n r) st k =
  rmatch fl r st
    (fun st' =>
       k {| pos := pos st'; prev := prev st'; rest := rest st';
            caps := (n, substring 0 (pos st' - pos st) (rest st)) :: caps st' |}).
Proof. reflexivity. Qed.

Lemma rmatch_lit (c : ascii) (st : mstate) (k : mstate -> option mstate) :
  rmatch fl (Lit c) st k = step_if (Ascii.eqb c) st k.
Proof. reflexivity. Qed.

(** An optional single character, one of two. *)
Lemma rmatch_opt_either (a b : ascii) (st : mstate) (k : mstate -> option mstate) :
  rmatch fl (opt (Alt (Lit a) (Lit b))) st k =
  match rest st with
  | String c y =>
      if (Ascii.eqb a c || Ascii.eqb b c)%bool
      then orelse (k (advance st c y)) (k st)
      else k st
  | EmptyString => k st
  end.
Proof.
  destruct st as [q pv x cs]. unfold opt. cbn [rmatch rest].
  destruct x as [|c y]; [reflexivity|].
  cbn [String.length below Nat.ltb Nat.leb step_if rest pos prev caps advance].
  rewrite Nat.leb_refl.
  assert (K : forall st',
            (fix loop (fuel cnt : nat) (st0 : mstate) {struct fuel} : option mstate :=
               match fuel with
               | 0 => k st0
               | S fuel' =>
                   orelse
                     (if (cnt <=? 0)%nat
                      then
                       orelse
                         (step_if (Ascii.eqb a) st0
                            (fun st'0 : mstate =>
                             if match pos st'0 with
                                | 0 => false
                                | S m' => (pos st0 <=? m')%nat
                                end
                             then loop fuel' (S cnt) st'0
                             else None))
                         (step_if (Ascii.eqb b) st0
                            (fun st'0 : mstate =>
                             if match pos st'0 with
                                | 0 => false
                                | S m' => (pos st0 <=? m')%nat
                                end
                             then loop fuel' (S cnt) st'0
                             else None))
                      else None)
                     (k st0)
               end) (String.length y) 1 st' = k st')
    by (intros st'; destruct (String.length y); reflexivity).
  rewrite K. unfold advance. cbn [pos prev rest caps].
  destruct (Ascii.eqb a c); cbn [orb orelse].
  - destruct (k {| pos := S q; prev := Some c; rest := y; caps := cs |});
      cbn [orelse]; [reflexivity|].
    destruct (Ascii.eqb b c); reflexivity.
  - destruct (Ascii.eqb b c); reflexivity.
Qed.

(** A repetition fails when what follows it fails wherever it may stop. *)
Lemma rep_class_none (p : ascii -> bool) (k : mstate -> option mstate)
    (lo : nat) (hi : option nat) (Q : string -> Prop) :
  (forall c y, Q (String c y) -> p c = true -> Q y) ->
  (forall q pv y cs, Q y -> k {| pos := q; prev := pv; rest := y; caps := cs |} = None) ->
  forall x cnt q pv cs, Q x -> rep_class p k lo hi cnt q pv x cs = None.
Proof.
  intros Hc Hk. induction x as [|c y IH]; intros cnt q pv cs HQ; cbn [rep_class].
  - rewrite (Hk _ _ _ _ HQ). destruct (Nat.leb lo cnt); reflexivity.
  - rewrite (Hk _ _ _ _ HQ).
    assert (St : (if Nat.leb lo cnt then @None mstate else None) = None)
      by (destruct (Nat.leb lo cnt); reflexivity).
    rewrite St. destruct (below hi cnt && p c)%bool eqn:B; [|reflexivity].
    apply andb_prop in B. rewrite (IH _ _ _ _ (Hc c y HQ (proj2 B))). reflexivity.
Qed.

End GreedyClass.

(** The characters of a name: [[\w\s-]]. *)
Definition name_char (c : ascii) : bool :=
  class_mem false [Word; Space; One "-"] c.

Definition space_char (c : ascii) : bool := class_mem false [Space] c.

(** What follows the name in the generic pattern. *)
Definition price_tail : regex :=
  seq [opt (Alt (Lit ":") (Lit "-")); plus s; Lit "$"; Grp 2 amount].

Lemma general_pattern_eq :
  general_pattern =
  Cat (Grp 1 (Rep true 1 None (Class false [Word; Space; One "-"]))) price_tail.
Proof. reflexivity. Qed.

Fixpoint all_chars (p : ascii -> bool) (x : string) : bool :=
  match x with
  | EmptyString => true
  | String c y => (p c && all_chars p y)%bool
  end.

(** No dollar sign in [x]. *)
Definition no_dollar (x : string) : bool :=
  all_chars (fun c => negb (Ascii.eqb "$" c)) x.

(** [x] is blanks, possibly none, and a dollar sign. *)
Fixpoint spaces_then_dollar (x : string) : bool :=
  match x with
  | String c y =>
      if Ascii.eqb "$" c then true
      else if space_char c then spaces_then_dollar y else false
  | EmptyString => false
  end.

(** [x] starts with [\s+\$]. *)
Definition ws_dollar (x : string) : bool :=
  match x with
  | String c y => (space_char c && spaces_then_dollar y)%bool
  | EmptyString => false
  end.

(** [x] starts with [(?::|-)?\s+\$]. *)
Definition dollar_ahead (x : string) : bool :=
  (ws_dollar x ||
   match x with
   | String c y => (Ascii.eqb ":" c || Ascii.eqb "-" c) && ws_dollar y
   | EmptyString => false
   end)%bool.

Lemma all_chars_app (p : ascii -> bool) (a b : string) :
  all_chars p (a ++ b) = (all_chars p a && all_chars p b)%bool.
Proof.
  induction a as [|c a IH]; [reflexivity|]. cbn [append all_chars].
  rewrite IH. apply andb_assoc.
Qed.

Lemma string_length_app (a b : string) :
  String.length (a ++ b) = String.length a + String.length b.
Proof. induction a as [|c a IH]; [reflexivity|]. cbn. now rewrite IH. Qed.

Lemma app_assoc_string (a b c : string) : ((a ++ b) ++ c = a ++ b ++ c)%string.
Proof. induction a as [|x a IH]; [reflexivity|]. cbn. now rewrite IH. Qed.

Lemma spaces_then_dollar_app (u w : string) :
  no_dollar u = true -> spaces_then_dollar w = false ->
  spaces_then_dollar (u ++ w) = false.
Proof.
  intros H W. induction u as [|c u IH]; [exact W|].
  unfold no_dollar in H. cbn [all_chars] in H. apply andb_prop in H.
  destruct H as [Hc Hu]. cbn [append spaces_then_dollar].
  destruct (Ascii.eqb "$" c); [discriminate Hc|].
  rewrite (IH Hu). destruct (space_char c); reflexivity.
Qed.

Lemma ws_dollar_app (u w : string) :
  no_dollar u = true -> spaces_then_dollar w = false -> ws_dollar w = false ->
  ws_dollar (u ++ w) = false.
Proof.
  intros H W1 W2. destruct u as [|c u]; [exact W2|].
  unfold no_dollar in H. cbn [all_chars] in H. apply andb_prop in H.
  cbn [append ws_dollar].
  rewrite (spaces_then_dollar_app u w (proj2 H) W1). apply andb_false_r.
Qed.

(** With the word "Total" before the first dollar sign, the text does not
    start with [(?::|-)?\s+\$]. *)
Lemma dollar_ahead_blocked (u v : string) :
  no_dollar u = true -> dollar_ahead (u ++ "Total" ++ v) = false.
Proof.
  intros H. set (w := "Total" ++ v).
  assert (W1 : spaces_then_dollar w = false) by reflexivity.
  assert (W2 : ws_dollar w = false) by reflexivity.
  assert (W3 : dollar_ahead w = false) by reflexivity.
  clearbody w. destruct u as [|c u]; [exact W3|].
  unfold dollar_ahead. rewrite (ws_dollar_app _ w H W1 W2). cbn [orb].
  unfold no_dollar in H. cbn [all_chars] in H. apply andb_prop in H.
  cbn [append]. rewrite (ws_dollar_app u w (proj2 H) W1 W2). apply andb_false_r.
Qed.

Lemma spaces_then_dollar_none (x : string) :
  no_dollar x = true -> spaces_then_dollar x = false.
Proof.
  induction x as [|c x IH]; intros H; [reflexivity|].
  unfold no_dollar in H. cbn [all_chars] in H. apply andb_prop in H.
  destruct H as [Hc Hx]. cbn [spaces_then_dollar].
  destruct (Ascii.eqb "$" c); [discriminate Hc|].
  rewrite (IH Hx). destruct (space_char c); reflexivity.
Qed.

Lemma dollar_ahead_none (x : string) :
  no_dollar x = true -> dollar_ahead x = false.
Proof.
  intros H. unfold dollar_ahead, ws_dollar.
  destruct x as [|c x]; [reflexivity|].
  unfold no_dollar in H. cbn [all_chars] in H. apply andb_prop in H.
  destruct H as [_ Hx].
  rewrite (spaces_then_dollar_none x Hx), andb_false_r. cbn [orb].
  destruct x as [|c' x]; [apply andb_false_r|].
  unfold no_dollar in Hx. cbn [all_chars] in Hx. apply andb_prop in Hx.
  rewrite (spaces_then_dollar_none x (proj2 Hx)), !andb_false_r. reflexivity.
Qed.

Section PriceTail.

Variable k : mstate -> option mstate.

(** [\s+] and what follows it need blanks and a dollar sign. *)
Lemma blanks_need_dollar (x : string) :
  forall cnt q pv cs,
    (if Nat.leb 1 cnt then spaces_then_dollar x else ws_dollar x) = false ->
    rep_class space_char
      (fun st' => rmatch no_flags (seq [Lit "$"; Grp 2 amount]) st' k)
      1 None cnt q pv x cs = None.
Proof.
  induction x as [|c x IH]; intros cnt q pv cs H; cbn [rep_class].
  - destruct (Nat.leb 1 cnt); reflexivity.
  - cbn [below andb].
    assert (St : (if Nat.leb 1 cnt
                  then rmatch no_flags (seq [Lit "$"; Grp 2 amount])
                         {| pos := q; prev := pv; rest := String c x; caps := cs |} k
                  else None) = None).
    { destruct (Nat.leb 1 cnt); [|reflexivity].
      cbn [seq]. rewrite rmatch_cat, rmatch_lit. cbn [step_if rest].
      cbn [spaces_then_dollar] in H. destruct (Ascii.eqb "$" c); [discriminate H|].
      reflexivity. }
    rewrite St. destruct (space_char c) eqn:Sp; [|reflexivity].
    rewrite IH; [reflexivity|]. cbn [Nat.leb].
    destruct (Nat.leb 1 cnt).
    + cbn [spaces_then_dollar] in H. rewrite Sp in H.
      destruct (Ascii.eqb "$" c); [discriminate H | exact H].
    + cbn [ws_dollar] in H. rewrite Sp in H. exact H.
Qed.

(** The tail of the generic pattern fails where the text does not start
    with [(?::|-)?\s+\$]. *)
Lemma price_tail_needs_dollar (st : mstate) :
  dollar_ahead (rest st) = false -> rmatch no_flags price_tail st k = None.
Proof.
  intros H. unfold price_tail, dollar_ahead in *.
  apply orb_false_elim in H. destruct H as [H1 H2].
  change (seq [opt (Alt (Lit ":") (Lit "-")); plus s; Lit "$"; Grp 2 amount])
    with (Cat (opt (Alt (Lit ":") (Lit "-")))
              (Cat (Rep true 1 None (Class false [Space]))
                   (seq [Lit "$"; Grp 2 amount]))).
  rewrite rmatch_cat, rmatch_opt_either.
  assert (K : forall st', ws_dollar (rest st') = false ->
            rmatch no_flags (Cat (Rep true 1 None (Class false [Space]))
                                 (seq [Lit "$"; Grp 2 amount])) st' k = None).
  { intros st' W. rewrite rmatch_cat, rep_class_eq.
    apply blanks_need_dollar. exact W. }
  rewrite (K st H1).
  destruct (rest st) as [|c y]; [reflexivity|].
  destruct (Ascii.eqb ":" c || Ascii.eqb "-" c)%bool; [|reflexivity].
  cbn [andb] in H2. rewrite (K (advance st c y) H2). reflexivity.
Qed.

End PriceTail.

(** The end of a line: the end of the text, or a newline. *)
Definition line_end (post : string) : Prop :=
  post = EmptyString \/ exists post', post = String PyStr.nl post'.

Ltac run_pattern :=
  repeat (rewrite ?rmatch_cat, ?rmatch_lit, ?rmatch_grp, ?rep_class_eq;
          cbv -[rmatch Nat.sub substring]).

(** At [" $5,000.00"] and the end of a line, the tail of the generic pattern
    matches and captures the amount. *)
Lemma price_tail_at_amount (post : string) (q : nat) (pv : option ascii)
    (cs : list (nat * string)) :
  line_end post ->
  rmatch no_flags price_tail
    {| pos := q; prev := pv; rest := " $5,000.00" ++ post; caps := cs |}
    (fun st' => Some st') =
  Some {| pos := 10 + q; prev := Some "0"%char; rest := post;
          caps := (2, "5,000.00") :: cs |}.
Proof.
  intros L. unfold price_tail.
  change (seq [opt (Alt (Lit ":") (Lit "-")); plus s; Lit "$"; Grp 2 amount])
    with (Cat (opt (Alt (Lit ":") (Lit "-")))
              (Cat (Rep true 1 None (Class false [Space]))
                   (Cat (Lit "$") (Grp 2 amount)))).
  rewrite rmatch_cat, rmatch_opt_either. cbv -[rmatch Nat.sub substring].
  destruct L as [->|(post' & ->)]; run_pattern;
    replace (S (S (S (S (S (S (S (S (S (S q))))))))) - S (S q)) with 8 by lia;
    reflexivity.
Qed.

(** ... and it fails at the dollar sign itself. *)
Lemma price_tail_at_dollar (v : string) (st : mstate) (k : mstate -> option mstate) :
  rest st = String "$" v -> rmatch no_flags price_tail st k = None.
Proof.
  intros R. apply price_tail_needs_dollar. rewrite R. reflexivity.
Qed.

Lemma substring_prefix (a b : string) : substring 0 (String.length a) (a ++ b) = a.
Proof. induction a as [|c a IH]; simpl; [now destruct b | now rewrite IH]. Qed.

(** The name of the generic pattern, from a run of name characters that
    leads to ["Total $5,000.00"]: the longest name is tried first, and the
    one that ends with "Total" is the first that the rest of the pattern
    accepts. *)
Lemma name_up_to_total (k : mstate -> option mstate) (post : string) (r : mstate) :
  forall (run : string) (cnt q e : nat) (pv : option ascii) (cs : list (nat * string)),
    all_chars name_char run = true ->
    e = q + String.length run ->
    k {| pos := 5 + e; prev := Some "l"%char; rest := " $5,000.00" ++ post;
         caps := cs |} = Some r ->
    k {| pos := 6 + e; prev := Some " "%char; rest := "$5,000.00" ++ post;
         caps := cs |} = None ->
    rep_class name_char k 1 None cnt q pv (run ++ "Total $5,000.00" ++ post) cs = Some r.
Proof.
  induction run as [|c run IH]; intros cnt q e pv cs Hrun He K1 K2.
  - cbn [String.length] in He. rewrite Nat.add_0_r in He. subst e.
    cbv [Nat.add append] in K1, K2. cbv -[orelse].
    rewrite K2. cbv [orelse]. rewrite K1. reflexivity.
  - cbn [all_chars] in Hrun. apply andb_prop in Hrun. destruct Hrun as [Hc Hrun].
    set (w := "Total $5,000.00" ++ post) in *.
    cbn [append rep_class below andb]. rewrite Hc.
    rewrite (IH (S cnt) (S q) e (Some c) cs Hrun); [reflexivity | | exact K1 | exact K2].
    cbn [String.length] in He. lia.
Qed.

Lemma name_char_not_dollar (x : string) :
  all_chars name_char x = true -> no_dollar x = true.
Proof.
  unfold no_dollar. induction x as [|c x IH]; [reflexivity|]. cbn [all_chars].
  intros H. apply andb_prop in H. destruct H as [Hc Hx].
  rewrite (IH Hx), andb_true_r.
  destruct (Ascii.eqb "$" c) eqn:E; [|reflexivity].
  apply Ascii.eqb_eq in E. subst c. discriminate Hc.
Qed.

(** The match of the generic pattern at a run of name characters that leads
    to ["Total $5,000.00"] and the end of a line. *)
Lemma general_match_at_total (run post : string) (q : nat) (pv : option ascii)
    (cs : list (nat * string)) :
  all_chars name_char run = true -> line_end post ->
  exists m,
    match_at no_flags general_pattern
      {| pos := q; prev := pv; rest := run ++ "Total $5,000.00" ++ post; caps := cs |}
      = Some m /\
    m_start m = q /\ m_end m = q + String.length run + 15 /\
    group 1 m = run ++ "Total" /\ group 2 m = "5,000.00".
Proof.
  intros Hrun L. unfold match_at. cbn [pos prev rest].
  rewrite general_pattern_eq, rmatch_cat, rmatch_grp, rep_class_eq.
  cbn [pos prev rest caps].
  erewrite (name_up_to_total _ post _ run 0 q (q + String.length run) pv []);
    [ | exact Hrun | reflexivity
      | cbv beta; cbn [pos prev rest caps]; apply price_tail_at_amount; exact L
      | cbv beta; apply (price_tail_at_dollar ("5,000.00" ++ post)); reflexivity ].
  eexists. split; [reflexivity|]. cbn [m_start m_end m_caps pos caps group assoc Nat.eqb].
  split; [reflexivity|]. split; [lia|]. split; [|reflexivity].
  replace (5 + (q + String.length run) - q) with (String.length (run ++ "Total"))
    by (rewrite string_length_app; cbn [String.length]; lia).
  change (run ++ "Total $5,000.00" ++ post)
    with (run ++ "Total" ++ " $5,000.00" ++ post).
  rewrite <- app_assoc_string. apply substring_prefix.
Qed.

(** Where the text has no dollar sign, the generic pattern does not match. *)
Lemma general_fails_without_dollar (x : string) (q : nat) (pv : option ascii)
    (cs : list (nat * string)) :
  no_dollar x = true ->
  match_at no_flags general_pattern {| pos := q; prev := pv; rest := x; caps := cs |}
    = None.
Proof.
  intros H. unfold match_at. cbn [pos prev rest].
  rewrite general_pattern_eq, rmatch_cat, rmatch_grp, rep_class_eq.
  cbn [pos prev rest caps].
  rewrite (rep_class_none _ _ _ _ (fun y => no_dollar y = true)); [reflexivity | | | exact H].
  - intros c y Hy _. unfold no_dollar in Hy. cbn [all_chars] in Hy.
    apply andb_prop in Hy. exact (proj2 Hy).
  - intros q' pv' y cs' Hy. apply price_tail_needs_dollar. cbn [rest].
    exact (dollar_ahead_none y Hy).
Qed.

(** The last character of [x], if any, is not one of [p]. *)
Fixpoint ends_outside (p : ascii -> bool) (x : string) : bool :=
  match x with
  | EmptyString => true
  | String c y =>
      match y with
      | EmptyString => negb (p c)
      | String _ _ => ends_outside p y
      end
  end.

(** Before the run of name characters that leads to the line, the generic
    pattern does not match: a name that starts there ends before the run,
    and the word "Total" stands between it and the dollar sign. *)
Lemma general_fails_before (suf w : string) (v : string) (q : nat)
    (pv : option ascii) (cs : list (nat * string)) :
  suf <> EmptyString ->
  ends_outside name_char suf = true -> no_dollar suf = true ->
  (exists run, no_dollar run = true /\ w = run ++ "Total" ++ v) ->
  match_at no_flags general_pattern
    {| pos := q; prev := pv; rest := suf ++ w; caps := cs |} = None.
Proof.
  intros Hne He Hd (run & Hrun & ->). unfold match_at. cbn [pos prev rest].
  rewrite general_pattern_eq, rmatch_cat, rmatch_grp, rep_class_eq.
  cbn [pos prev rest caps].
  rewrite (rep_class_none _ _ _ _
             (fun y => exists s0, s0 <> EmptyString /\
                                  ends_outside name_char s0 = true /\
                                  no_dollar s0 = true /\
                                  y = s0 ++ run ++ "Total" ++ v));
    [reflexivity | | | exists suf; auto].
  - intros c y (s0 & N0 & E0 & D0 & Ey) Pc.
    destruct s0 as [|c0 s0]; [congruence|]. cbn [append] in Ey.
    injection Ey as Ec Ey. subst c0 y. destruct s0 as [|c1 s0].
    + cbn [ends_outside] in E0. unfold name_char in E0. rewrite Pc in E0.
      discriminate E0.
    + exists (String c1 s0). split; [discriminate|]. split; [exact E0|].
      split; [|reflexivity]. unfold no_dollar in D0 |- *.
      cbn [all_chars] in D0 |- *. apply andb_prop in D0. exact (proj2 D0).
  - intros q' pv' y cs' (s0 & N0 & E0 & D0 & ->).
    apply price_tail_needs_dollar. cbn [rest]. rewrite <- app_assoc_string.
    apply dollar_ahead_blocked. unfold no_dollar. rewrite all_chars_app.
    fold (no_dollar s0). fold (no_dollar run). rewrite D0, Hrun. reflexivity.
Qed.

Lemma scan_found (fl : flags) (r : regex) (fuel : nat) (st : mstate) (m : match_obj) :
  match_at fl r st = Some m -> scan fl r fuel st = Some m.
Proof. intros H. destruct fuel; cbn [scan]; rewrite H; reflexivity. Qed.

Lemma scan_without_dollar (x : string) :
  forall fuel q pv cs,
    no_dollar x = true ->
    scan no_flags general_pattern fuel {| pos := q; prev := pv; rest := x; caps := cs |}
      = None.
Proof.
  induction x as [|c x IH]; intros fuel q pv cs H;
    pose proof (general_fails_without_dollar _ q pv cs H) as M;
    destruct fuel; cbn [scan]; rewrite M; cbn [rest]; try reflexivity.
  unfold advance. cbn [pos prev rest caps]. apply IH.
  unfold no_dollar in H. cbn [all_chars] in H. apply andb_prop in H. exact (proj2 H).
Qed.

(** The scan passes over what precedes the run. *)
Lemma scan_before (w v : string) :
  (exists run, no_dollar run = true /\ w = run ++ "Total" ++ v) ->
  forall pre fuel q pv cs,
    ends_outside name_char pre = true -> no_dollar pre = true ->
    String.length pre <= fuel ->
    exists pv',
      scan no_flags general_pattern fuel
        {| pos := q; prev := pv; rest := pre ++ w; caps := cs |} =
      scan no_flags general_pattern (fuel - String.length pre)
        {| pos := q + String.length pre; prev := pv'; rest := w; caps := cs |}.
Proof.
  intros Hw. induction pre as [|c pre IH]; intros fuel q pv cs He Hd Hf.
  - exists pv. cbn [append String.length]. rewrite Nat.sub_0_r, Nat.add_0_r. reflexivity.
  - destruct fuel as [|fuel]; [cbn [String.length] in Hf; lia|].
    cbn [String.length] in Hf |- *.
    pose proof (general_fails_before (String c pre) w v q pv cs
                  ltac:(discriminate) He Hd Hw) as M.
    assert (He' : ends_outside name_char pre = true).
    { destruct pre as [|c' pre']; [reflexivity | exact He]. }
    assert (Hd' : no_dollar pre = true).
    { unfold no_dollar in Hd. cbn [all_chars] in Hd. apply andb_prop in Hd.
      exact (proj2 Hd). }
    destruct (IH fuel (S q) (Some c) cs He' Hd' ltac:(lia)) as (pv' & E).
    exists pv'. cbn [scan]. rewrite M. cbn [append rest].
    unfold advance. cbn [pos prev rest caps]. rewrite E.
    cbn [Nat.sub]. replace (S q + String.length pre) with (q + S (String.length pre)) by lia.
    reflexivity.
Qed.

Lemma skip_app (a b : string) :
  forall q pv cs,
    exists pv',
      skip (String.length a) {| pos := q; prev := pv; rest := a ++ b; caps := cs |} =
      {| pos := q + String.length a; prev := pv'; rest := b; caps := cs |}.
Proof.
  induction a as [|c a IH]; intros q pv cs.
  - exists pv. cbn [String.length append]. rewrite Nat.add_0_r.
    destruct b; reflexivity.
  - destruct (IH (S q) (Some c) cs) as (pv' & E). exists pv'.
    cbn [String.length append skip rest]. unfold advance. cbn [pos prev rest caps].
    rewrite E. f_equal. lia.
Qed.

(** On a text whose one dollar sign is that of the line
    ["Total $5,000.00"], the generic pattern has one match: its name is the
    run of name characters before the line together with "Total", its amount
    "5,000.00". *)
Lemma finditer_total_line (pre run post : string) :
  ends_outside name_char pre = true -> no_dollar pre = true ->
  all_chars name_char run = true ->
  line_end post -> no_dollar post = true ->
  exists m,
    finditer no_flags general_pattern (pre ++ run ++ "Total $5,000.00" ++ post) = [m] /\
    group 1 m = run ++ "Total" /\ group 2 m = "5,000.00".
Proof.
  intros He Hd Hrun L Hp.
  set (w := run ++ "Total $5,000.00" ++ post).
  assert (Hw : exists run0, no_dollar run0 = true /\
                            w = run0 ++ "Total" ++ " $5,000.00" ++ post).
  { exists run. split; [exact (name_char_not_dollar _ Hrun) | reflexivity]. }
  unfold finditer, start_of. cbn [finditer_from rest].
  destruct (scan_before w _ Hw pre (String.length (pre ++ w)) 0 None [] He Hd
              ltac:(rewrite string_length_app; lia)) as (pv' & E).
  rewrite E. clear E.
  destruct (general_match_at_total run post (0 + String.length pre) pv' [] Hrun L)
    as (m & M & Ms & Me & G1 & G2).
  fold w in M. rewrite (scan_found _ _ _ _ _ M).
  exists m. split; [|split; [exact G1 | exact G2]].
  rewrite Ms, Me. cbn [pos Nat.add]. rewrite Nat.sub_0_r.
  assert (Lt : Nat.ltb (String.length pre) (String.length pre + String.length run + 15) = true)
    by (apply Nat.ltb_lt; lia).
  rewrite Lt.
  assert (Et : pre ++ w = (pre ++ run ++ "Total $5,000.00") ++ post).
  { unfold w. rewrite !app_assoc_string. reflexivity. }
  assert (El : String.length pre + String.length run + 15 =
               String.length (pre ++ run ++ "Total $5,000.00")).
  { rewrite !string_length_app. cbn [String.length]. lia. }
  rewrite Et, El.
  destruct (skip_app (pre ++ run ++ "Total $5,000.00") post 0 None []) as (pv2 & Sk).
  rewrite Sk. f_equal.
  destruct (String.length ((pre ++ run ++ "Total $5,000.00") ++ post));
    [reflexivity|].
  cbn [finditer_from rest]. rewrite (scan_without_dollar post _ _ _ _ Hp). reflexivity.
Qed.

(** *** What [strip] keeps *)

(** Some character of [x] is not white space. *)
Fixpoint has_ink (x : string) : bool :=
  match x with
  | EmptyString => false
  | String c y => (negb (PyStr.is_space c) || has_ink y)%bool
  end.

Lemma has_ink_app (a b : string) : has_ink (a ++ b) = (has_ink a || has_ink b)%bool.
Proof.
  induction a as [|c a IH]; [reflexivity|]. cbn [append has_ink].
  rewrite IH. apply orb_assoc.
Qed.

Lemma has_ink_lstrip (x : string) : has_ink (PyStr.lstrip x) = has_ink x.
Proof.
  induction x as [|c x IH]; [reflexivity|]. cbn [PyStr.lstrip has_ink].
  destruct (PyStr.is_space c) eqn:E; cbn [has_ink negb orb]; rewrite ?E;
    [exact IH | reflexivity].
Qed.

Lemma has_ink_rev_onto (x acc : string) :
  has_ink (PyStr.rev_onto x acc) = (has_ink x || has_ink acc)%bool.
Proof.
  revert acc. induction x as [|c x IH]; intros acc; [reflexivity|].
  cbn [PyStr.rev_onto has_ink]. rewrite IH. cbn [has_ink].
  destruct (PyStr.is_space c), (has_ink x), (has_ink acc); reflexivity.
Qed.

Lemma has_ink_rev (x : string) : has_ink (PyStr.rev x) = has_ink x.
Proof. unfold PyStr.rev. rewrite has_ink_rev_onto. apply orb_false_r. Qed.

Lemma has_ink_strip (x : string) : has_ink (PyStr.strip x) = has_ink x.
Proof.
  unfold PyStr.strip, PyStr.rstrip.
  rewrite has_ink_rev, has_ink_lstrip, has_ink_rev. apply has_ink_lstrip.
Qed.

Lemma has_ink_nonempty (x : string) : has_ink x = true -> PyStr.nonempty x = true.
Proof. destruct x; [discriminate | reflexivity]. Qed.

Lemma all_chars_lstrip (p : ascii -> bool) (x : string) :
  all_chars p x = true -> all_chars p (PyStr.lstrip x) = true.
Proof.
  induction x as [|c x IH]; [reflexivity|]. intros H. cbn [PyStr.lstrip].
  destruct (PyStr.is_space c); [|exact H].
  cbn [all_chars] in H. apply andb_prop in H. exact (IH (proj2 H)).
Qed.

Lemma all_chars_rev_onto (p : ascii -> bool) (x acc : string) :
  all_chars p (PyStr.rev_onto x acc) = (all_chars p x && all_chars p acc)%bool.
Proof.
  revert acc. induction x as [|c x IH]; intros acc; [reflexivity|].
  cbn [PyStr.rev_onto all_chars]. rewrite IH. cbn [all_chars].
  destruct (p c), (all_chars p x), (all_chars p acc); reflexivity.
Qed.

Lemma all_chars_rev (p : ascii -> bool) (x : string) :
  all_chars p (PyStr.rev x) = all_chars p x.
Proof. unfold PyStr.rev. rewrite all_chars_rev_onto. apply andb_true_r. Qed.

(** [strip] brings in no character. *)
Lemma all_chars_strip (p : ascii -> bool) (x : string) :
  all_chars p x = true -> all_chars p (PyStr.strip x) = true.
Proof.
  intros H. unfold PyStr.strip, PyStr.rstrip.
  rewrite all_chars_rev. apply all_chars_lstrip. rewrite all_chars_rev.
  apply all_chars_lstrip. exact H.
Qed.

(** The generic strategy on such a text: one item, named by the run and
    "Total". *)
Lemma general_items_total_line (pre run post : string) :
  ends_outside name_char pre = true -> no_dollar pre = true ->
  all_chars name_char run = true ->
  line_end post -> no_dollar post = true ->
  general_items (pre ++ run ++ "Total $5,000.00" ++ post) =
  Ok [mk_item (PyStr.strip (run ++ "Total"))
        ("Item from PDF: " ++ PyStr.strip (run ++ "Total")) 1 5000.00].
Proof.
  intros He Hd Hrun L Hp. unfold general_items.
  destruct (finditer_total_line pre run post He Hd Hrun L Hp) as (m & -> & G1 & G2).
  cbn [collect]. unfold general_item. rewrite G1, G2.
  assert (N : PyStr.nonempty (PyStr.strip (run ++ "Total")) = true).
  { apply has_ink_nonempty. rewrite has_ink_strip, has_ink_app. apply orb_true_r. }
  rewrite N. set (label := PyStr.strip (run ++ "Total")). clearbody label.
  vm_compute. reflexivity.
Qed.

(** * The claims *)

(** ** C1: a document that cannot be read *)

(** C1, as stated, fails: when the upstream extraction raises, the
    customer record is the default one, but the line items are not an empty
    sequence. *)
Lemma error_branch_fabricates_items :
  ~ (extract_customer_info (Raise PDFError) = default_info /\
     extract_line_items (Raise PDFError) = []).
Proof. intros [_ H]. discriminate H. Qed.

(** C1, amended: for every exception the upstream text/table extraction
    raises, [extract_customer_info] returns the fixed default record and
    [extract_line_items] returns the fixed DataFrame of its [except] branch,
    five hardcoded kitchen items; the same DataFrame is returned when a
    strategy raises later on. *)
Theorem unreadable_document_defaults :
  forall e : exn,
    extract_customer_info (Raise e) = default_info /\
    extract_line_items (Raise e) = error_items /\
    List.length error_items = 5 /\
    (forall pages e',
        snd (cascade (all_text pages) (all_tables pages)) = Raise e' ->
        extract_line_items (Ok pages) = error_items).
Proof.
  intros e. repeat (split; [reflexivity|]).
  intros pages e' H. rewrite extract_line_items_ok, H. reflexivity.
Qed.

(** ** C10: the Normalizer is idempotent *)

(** C10: for every sequence of records, normalizing the Normalizer's own
    output (its rows read back as records) returns that output unchanged. *)
Theorem normalizer_idempotent :
  forall l : list raw_record,
    Normalizer.normalize (map Normalizer.to_record (Normalizer.normalize l)) =
    Normalizer.normalize l.
Proof.
  intros l. set (out := Normalizer.normalize l).
  assert (Hpos : forall it, In it out -> Qgtb (Unit_Price it) 0 = true).
  { intros it Hin. apply normalize_in in Hin. destruct Hin as (_ & _ & _ & Hp).
    now apply Qgtb_iff. }
  assert (Hdt : Normalizer.quantity_dtype (map Normalizer.to_record out)
                = Normalizer.int64).
  { apply to_record_dtype. intros it Hin. exact (normalize_range l it Hin). }
  clearbody out. unfold Normalizer.normalize at 1. rewrite map_map.
  rewrite (map_ext_in _ (fun it => it)).
  - rewrite map_id. apply filter_all. exact Hpos.
  - intros it Hin. apply (to_record_round _ _ Hdt). now apply in_map.
Qed.

(** ** C6: what the Normalizer guarantees *)

(** The document of the counterexample to C6: one table whose only data
    row has the quantity cell "0". *)
Definition zero_quantity_doc : pdf_content :=
  Ok [{| extract_text := "";
         extract_tables :=
           [[[Some "Item"; Some "Qty"; Some "Price"];
             [Some "Widget"; Some "0"; Some "$5.00"]]] |}].

(** C6, as stated, fails: a returned line item can have a quantity that is
    not positive. *)
Lemma zero_quantity_survives :
  exists it, In it (extract_line_items zero_quantity_doc) /\
             item it = CStr "Widget" /\ ~ (0 < Quantity it)%Z.
Proof.
  exists (df_row "Widget" "" 0 5.00). split; [|split].
  - vm_compute. left. reflexivity.
  - reflexivity.
  - simpl. lia.
Qed.

(** A quantity cell of nineteen digits: the column is read as [uint64] and
    the cast to [int64] wraps around. *)
Definition huge_quantity_doc : pdf_content :=
  Ok [{| extract_text := "";
         extract_tables :=
           [[[Some "Item"; Some "Qty"; Some "Price"];
             [Some "Widget"; Some "9223372036854775808"; Some "$5.00"]]] |}].

(** ... and a returned quantity can be negative. *)
Example huge_quantity_is_negative :
  extract_line_items huge_quantity_doc =
  [df_row "Widget" "" (- 9223372036854775808) 5.00].
Proof. vm_compute. reflexivity. Qed.

(** C6, amended: every record of the Normalizer's output has a unit price
    above zero and a quantity that is a 64-bit signed integer, obtained from
    some input record by casting the quantity column to [int64] (1 when the
    cell does not parse) and coercing the unit price to a number (0 when it
    does not parse); every record whose coerced price is not above zero is
    removed.  The quantity is not checked: every line item the extraction
    core returns has a unit price above zero and a quantity between -2^63 and
    2^63 - 1, which can be 0 and, through the cast, negative; it is not
    negative when every table cell, read as a quantity, is below 2^63. *)
Theorem normalizer_invariant :
  (forall (l : list raw_record) (it : line_item),
      In it (Normalizer.normalize l) ->
      (0 < Unit_Price it)%Q /\
      (Normalizer.INT64_MIN <= Quantity it <= Normalizer.INT64_MAX)%Z /\
      exists r, In r l /\
        Quantity it =
          Normalizer.astype_int (Normalizer.quantity_dtype l)
            (Normalizer.column raw_quantity (CInt 0) l r) /\
        Unit_Price it =
          Normalizer.fillna 0
            (Normalizer.to_numeric (Normalizer.column raw_unit_price (CInt 0) l r))) /\
  (forall (l : list raw_record) (r : raw_record),
      (Normalizer.to_numeric (Normalizer.column raw_quantity (CInt 0) l r) = None ->
       Quantity (Normalizer.coerce_row l r) = 1%Z) /\
      (Normalizer.to_numeric (Normalizer.column raw_unit_price (CInt 0) l r) = None ->
       Unit_Price (Normalizer.coerce_row l r) = 0%Q)) /\
  (forall (l : list raw_record) (r : raw_record),
      In r l ->
      ~ (0 < Unit_Price (Normalizer.coerce_row l r))%Q ->
      ~ In (Normalizer.coerce_row l r) (Normalizer.normalize l)) /\
  (forall (pdf : pdf_content) (it : line_item),
      In it (extract_line_items pdf) ->
      (0 < Unit_Price it)%Q /\
      (Normalizer.INT64_MIN <= Quantity it <= Normalizer.INT64_MAX)%Z /\
      ((forall pages, pdf = Ok pages -> quantities_fit (all_tables pages)) ->
       (0 <= Quantity it)%Z)).
Proof.
  split; [|split; [|split]].
  - intros l it Hin. pose proof (normalize_range l it Hin) as R.
    apply normalize_in in Hin. destruct Hin as (r & Hr & -> & Hp).
    split; [exact Hp|]. split; [apply fits_int64_iff; exact R|].
    exists r. split; [exact Hr|]. split; reflexivity.
  - intros l r. split; intros E; simpl; [|rewrite E; reflexivity].
    destruct (Normalizer.column raw_quantity (CInt 0) l r); try discriminate E;
      destruct (Normalizer.quantity_dtype l); simpl; simpl in E; rewrite ?E;
      reflexivity.
  - intros l r Hr Hp Hin. apply normalize_in in Hin.
    destruct Hin as (_ & _ & _ & Hp'). exact (Hp Hp').
  - assert (Err : forall it, In it error_items ->
              (0 < Unit_Price it)%Q /\
              (Normalizer.INT64_MIN <= Quantity it <= Normalizer.INT64_MAX)%Z /\
              (0 <= Quantity it)%Z).
    { intros it Hin. pose proof (proj2 (error_items_text it Hin)) as Q1.
      destruct (error_items_invariant it Hin) as [Hp Hq].
      rewrite Q1. split; [exact Hp|]. split; [vm_compute; split; discriminate | lia]. }
    intros [pages|e] it Hin;
      [|destruct (Err it Hin) as (A & B & C); split; [exact A|split; [exact B|intros _; exact C]]].
    rewrite extract_line_items_ok in Hin.
    destruct (cascade_stops (all_text pages) (all_tables pages)) as (st & _ & _ & E & _).
    rewrite E in Hin.
    destruct (yield st (all_text pages) (all_tables pages)) as [l|e] eqn:Y;
      [|destruct (Err it Hin) as (A & B & C); split; [exact A|split; [exact B|intros _; exact C]]].
    destruct (shaped_rows l it (yield_shaped _ _ _ _ Y) Hin) as (A & B & C).
    split; [exact A|]. split; [exact B|]. intros F. apply C.
    exact (yield_fitting _ _ _ _ (F pages eq_refl) Y).
Qed.

(** ** C2: when the result is empty *)

(** C2, as stated, fails: a subtotal line with a zero amount is matched by
    the subtotal fallback, whose single item the Normalizer removes, and the
    hardcoded set is not substituted. *)
Lemma zero_subtotal_gives_no_items :
  extract_line_items (text_only "Subtotal $0.00") = [].
Proof. vm_compute. reflexivity. Qed.

(** C2, amended: the line-item extraction returns a non-empty sequence for
    every input document except when the tables, main-section and generic
    strategies yield nothing and the subtotal fallback (or, with no subtotal
    line, the total fallback) matches an amount equal to zero; and if the
    table, main-section, generic, subtotal and total strategies all yield
    nothing, the fixed hardcoded set of eleven items is returned. *)
Theorem extract_line_items_nonempty_unless_zero_fallback :
  forall pdf : pdf_content,
    (extract_line_items pdf <> [] \/
     exists pages st p,
       pdf = Ok pages /\ (st = TrySubtotal \/ st = TryTotal) /\
       (forall s, rank s < rank st ->
                  yield s (all_text pages) (all_tables pages) = Ok []) /\
       yield st (all_text pages) (all_tables pages) = Ok [complete_project p] /\
       (p == 0)%Q) /\
    (forall pages,
        pdf = Ok pages ->
        (forall s, rank s < rank UseFallbackDefaults ->
                   yield s (all_text pages) (all_tables pages) = Ok []) ->
        extract_line_items pdf = fallback_rows /\ List.length fallback_rows = 11).
Proof.
  intros pdf. split.
  - destruct pdf as [pages|e]; [|left; discriminate].
    rewrite extract_line_items_ok.
    destruct (cascade_stops (all_text pages) (all_tables pages))
      as (st & _ & Hbefore & -> & Hne).
    destruct (yield st (all_text pages) (all_tables pages)) as [l|e] eqn:Y;
      [|left; discriminate].
    assert (Hl : l <> []) by congruence.
    assert (Hfb : forall m, fallback_items m = Ok l ->
                   (st = TrySubtotal \/ st = TryTotal) ->
                   Normalizer.normalize l <> [] \/
                   exists pages0 st0 p,
                     Ok pages = Ok pages0 /\ (st0 = TrySubtotal \/ st0 = TryTotal) /\
                     (forall s, rank s < rank st0 ->
                                yield s (all_text pages0) (all_tables pages0) = Ok []) /\
                     yield st0 (all_text pages0) (all_tables pages0) =
                       Ok [complete_project p] /\ (p == 0)%Q).
    { intros m Hm Hst.
      destruct (fallback_items_cases _ _ Hm) as [->|(p & -> & Hp)]; [congruence|].
      destruct (Qgtb p 0) eqn:G.
      - left. apply priced_rows_nonempty; [|discriminate].
        constructor; [|constructor]. do 4 eexists.
        split; [reflexivity|]. split; [lia | exact G].
      - right. exists pages, st, p. repeat (split; [assumption || reflexivity|]).
        apply Qle_antisym; [|exact Hp]. apply Qnot_lt_le. intros Hlt.
        apply Qgtb_iff in Hlt. congruence. }
    destruct st;
      try (left; apply priced_rows_nonempty; [|exact Hl];
           eapply yield_priced; [| |exact Y]; discriminate).
    + apply (Hfb _ Y). auto.
    + apply (Hfb _ Y). auto.
  - intros pages -> Hnone. split; [|reflexivity].
    rewrite extract_line_items_ok.
    destruct (cascade_stops (all_text pages) (all_tables pages))
      as (st & _ & _ & -> & Hne).
    destruct st; try (exfalso; apply Hne, Hnone; simpl; lia).
    simpl. apply normalize_hardcoded.
Qed.

(** ** C7: the cascade short-circuits *)

(** C7: if a strategy the orchestrator runs yields one item or more, then no
    strategy after it in orchestrator order is run, every strategy before it
    yielded no item, and the output is exactly that strategy's items after
    normalization; and whichever strategy runs, every strategy before it in
    the order yielded no item. *)
Theorem cascade_short_circuits :
  forall (pages : list page) (st : strategy) (x : raw_record) (xs : list raw_record),
    In st (strategies_run (Ok pages)) ->
    yield st (all_text pages) (all_tables pages) = Ok (x :: xs) ->
    (forall st', rank st < rank st' -> ~ In st' (strategies_run (Ok pages))) /\
    (forall st', rank st' < rank st ->
                 yield st' (all_text pages) (all_tables pages) = Ok []) /\
    extract_line_items (Ok pages) = Normalizer.normalize (x :: xs) /\
    (forall s s', In s (strategies_run (Ok pages)) -> rank s' < rank s ->
                  yield s' (all_text pages) (all_tables pages) = Ok []).
Proof.
  intros pages st x xs Hin Hy.
  rewrite strategies_run_ok in *. rewrite extract_line_items_ok.
  destruct (cascade_stops (all_text pages) (all_tables pages))
    as (st0 & Htr & Hbefore & E & Hne).
  assert (Hle : rank st <= rank st0) by (apply Htr; exact Hin).
  assert (Heq : st = st0).
  { apply rank_inj. destruct (Nat.eq_dec (rank st) (rank st0)) as [|Hd]; [assumption|].
    assert (Hlt : rank st < rank st0) by lia.
    rewrite (Hbefore st Hlt) in Hy. discriminate. }
  subst st0. split; [|split; [|split]].
  - intros st' Hlt Hin'. apply Htr in Hin'. lia.
  - exact Hbefore.
  - rewrite E, Hy. reflexivity.
  - intros s s' Hs Hlt. apply Hbefore. apply Htr in Hs. lia.
Qed.

Lemma cascade_short_circuits_witness :
  extract_line_items (text_only "3 Kitchen-Tile 1,989.40") =
  Normalizer.normalize [mk_item "3. Kitchen Tile" "Main category: Kitchen Tile" 1 1989.40].
Proof.
  refine (proj1 (proj2 (proj2
    (cascade_short_circuits
       [{| extract_text := "3 Kitchen-Tile 1,989.40"; extract_tables := [] |}]
       TryMainSections
       (mk_item "3. Kitchen Tile" "Main category: Kitchen Tile" 1 1989.40) [] _ _)))).
  - vm_compute. left. reflexivity.
  - vm_compute. reflexivity.
Defined.

(** ** C8: end-to-end scenario 1 *)

Lemma kitchen_tile_line :
  main_section_of_line "3 Kitchen-Tile 1,989.40" = Ok [("3", "Kitchen-Tile", "1,989.40")].
Proof. vm_compute. reflexivity. Qed.

Lemma kitchen_tile_section (text : string) ys :
  section_items text ("3", "Kitchen-Tile", "1,989.40") = Ok ys ->
  In (mk_item "3. Kitchen Tile" "Main category: Kitchen Tile" 1 1989.40) ys.
Proof.
  unfold section_items.
  set (c := collect (subsection_item "3") _). clearbody c.
  destruct c as [subs|e]; intros H; vm_compute in H; [|discriminate].
  injection H as <-. left. reflexivity.
Qed.

(** C8: for every input with no tables whose text contains the line
    "3 Kitchen-Tile 1,989.40", the main-section strategy is the one strategy
    run; its pattern matches the line and the validity filter accepts it, so
    the section ("3", "Kitchen-Tile", "1,989.40") is among the main sections;
    when the strategy completes, the items it built from the text contain the
    main-category item of that section, the output is their normalization and
    includes the line item "3. Kitchen Tile" (hyphen replaced by a space),
    described as "Main category: Kitchen Tile", with unit price 1989.40
    (separator stripped) and quantity 1; when another line makes the strategy
    raise, the output is the DataFrame of the [except] branch.  In both cases
    the output includes a line item "3. Kitchen Tile" with unit price 1989.40
    and quantity 1. *)
Theorem kitchen_tile_scenario :
  forall pages : list page,
    all_tables pages = [] ->
    In "3 Kitchen-Tile 1,989.40" (PyStr.split PyStr.nl (all_text pages)) ->
    main_section_of_line "3 Kitchen-Tile 1,989.40" =
      Ok [("3", "Kitchen-Tile", "1,989.40")] /\
    strategies_run (Ok pages) = [TryMainSections] /\
    (forall secs, main_sections (all_text pages) = Ok secs ->
                  In ("3", "Kitchen-Tile", "1,989.40") secs) /\
    (forall xs, main_section_items (all_text pages) = Ok xs ->
       In (mk_item "3. Kitchen Tile" "Main category: Kitchen Tile" 1 1989.40) xs /\
       extract_line_items (Ok pages) = Normalizer.normalize xs /\
       In (df_row "3. Kitchen Tile" "Main category: Kitchen Tile" 1 1989.40)
          (extract_line_items (Ok pages))) /\
    (forall e, main_section_items (all_text pages) = Raise e ->
       extract_line_items (Ok pages) = error_items) /\
    exists it, In it (extract_line_items (Ok pages)) /\
               item it = CStr "3. Kitchen Tile" /\
               Unit_Price it = 1989.40%Q /\ Quantity it = 1%Z.
Proof.
  intros pages Htab Hline.
  assert (Hsecs : forall secs, main_sections (all_text pages) = Ok secs ->
                               In ("3", "Kitchen-Tile", "1,989.40") secs).
  { intros secs Es.
    apply (collect_incl _ _ _ _ _ Es Hline kitchen_tile_line). simpl. auto. }
  assert (Hmain : forall l, main_section_items (all_text pages) = Ok l ->
            In (mk_item "3. Kitchen Tile" "Main category: Kitchen Tile" 1 1989.40) l).
  { unfold main_section_items. intros l.
    destruct (main_sections (all_text pages)) as [secs|e] eqn:Es; simpl; [|discriminate].
    intros Hc. pose proof (Hsecs secs eq_refl) as Hsec.
    destruct (section_items (all_text pages) ("3", "Kitchen-Tile", "1,989.40"))
      as [ys|e] eqn:Ey.
    - apply (collect_incl _ _ _ _ _ Hc Hsec Ey).
      exact (kitchen_tile_section _ _ Ey).
    - exfalso. clear -Hc Hsec Ey. revert l Hc.
      induction secs as [|a secs IH]; [destruct Hsec|]. simpl. intros l.
      destruct Hsec as [->|Hs].
      + rewrite Ey. discriminate.
      + destruct (section_items (all_text pages) a); simpl; [|discriminate].
        destruct (collect (section_items (all_text pages)) secs) eqn:Ec; simpl;
          [|discriminate].
        intros _. exact (IH Hs _ eq_refl). }
  assert (Hrow : forall l, main_section_items (all_text pages) = Ok l ->
            In (df_row "3. Kitchen Tile" "Main category: Kitchen Tile" 1 1989.40)
               (Normalizer.normalize l)).
  { intros l El.
    destruct (normalize_mk_item l _ _ _ _ (Hmain l El) eq_refl) as (q' & Hin & Hq).
    rewrite Hq in Hin; [exact Hin|]. apply fitting_dtype.
    eapply Forall_impl; [|exact (main_section_items_text _ _ El)].
    intros r [_ U]. now apply unit_quantity_fitting. }
  rewrite strategies_run_ok, extract_line_items_ok.
  unfold cascade. rewrite Htab. cbn [is_nil negb].
  destruct (main_section_items (all_text pages)) as [l|e] eqn:Em.
  - pose proof (Hmain l eq_refl) as Hl. destruct l as [|x l]; [destruct Hl|].
    cbn. split; [exact kitchen_tile_line|]. split; [reflexivity|].
    split; [exact Hsecs|]. split; [|split; [discriminate|]].
    + intros xs E. injection E as <-. split; [exact Hl|].
      split; [reflexivity | exact (Hrow _ eq_refl)].
    + exists (df_row "3. Kitchen Tile" "Main category: Kitchen Tile" 1 1989.40).
      split; [exact (Hrow _ eq_refl) | repeat split].
  - cbn. split; [exact kitchen_tile_line|]. split; [reflexivity|].
    split; [exact Hsecs|]. split; [discriminate|]. split; [reflexivity|].
    exists (df_row "3. Kitchen Tile" "Tile installation for backsplash" 1 1989.40).
    split; [simpl; auto | repeat split].
Qed.

Lemma kitchen_tile_scenario_witness :
  In (df_row "3. Kitchen Tile" "Main category: Kitchen Tile" 1 1989.40)
     (extract_line_items
        (text_only ("Estimate ES-200" ++ String PyStr.nl "3 Kitchen-Tile 1,989.40"))).
Proof.
  refine (proj2 (proj2 (proj1 (proj2 (proj2 (proj2 (kitchen_tile_scenario
    [{| extract_text := "Estimate ES-200" ++ String PyStr.nl "3 Kitchen-Tile 1,989.40";
        extract_tables := [] |}] _ _))))
    [mk_item "3. Kitchen Tile" "Main category: Kitchen Tile" 1 1989.40] _))).
  - reflexivity.
  - vm_compute. right. left. reflexivity.
  - vm_compute. reflexivity.
Defined.

(** ** C5: end-to-end scenario 2 *)

(** C5, as stated, fails: on the text "Total $5,000.00", with no table, no
    main-section line and no subtotal line, the one line item returned is
    labelled "Total", not "1. Complete Project". *)
Lemma total_line_taken_by_generic :
  main_section_items "Total $5,000.00" = Ok [] /\
  search no_flags TextExtractor.subtotal_pattern "Total $5,000.00" = None /\
  extract_line_items (text_only "Total $5,000.00") =
    [df_row "Total" "Item from PDF: Total" 1 5000.00] /\
  CStr "Total" <> CStr "1. Complete Project".
Proof.
  split; [vm_compute; reflexivity|].
  split; [vm_compute; reflexivity|].
  split; [vm_compute; reflexivity|]. discriminate.
Qed.

(** C5, amended: for every input with no tables whose text yields no
    main-section item and holds "Total $5,000.00" up to the end of a line and
    no other dollar sign, the extraction returns exactly one line item, with
    unit price 5000.00 and quantity 1.  Its label is not "1. Complete
    Project": it is the text before the dollar sign, as far back as letters,
    digits, underscores, hyphens and white space reach, stripped, that is
    "Total" alone or, say, "Kitchen remodel" and "Total" on two lines; the
    description is "Item from PDF: " and the label.  The generic strategy
    takes the line before the total fallback is reached. *)
Theorem dollar_total_line_is_generic_item :
  forall (pages : list page) (pre run post : string),
    all_tables pages = [] ->
    main_section_items (all_text pages) = Ok [] ->
    all_text pages = pre ++ run ++ "Total $5,000.00" ++ post ->
    line_end post ->
    no_dollar pre = true -> no_dollar post = true ->
    ends_outside name_char pre = true -> all_chars name_char run = true ->
    extract_line_items (Ok pages) =
      [df_row (PyStr.strip (run ++ "Total"))
         ("Item from PDF: " ++ PyStr.strip (run ++ "Total")) 1 5000.00] /\
    PyStr.strip (run ++ "Total") <> "1. Complete Project" /\
    (run = EmptyString -> PyStr.strip (run ++ "Total") = "Total").
Proof.
  intros pages pre run post Htab Hmain Htext L Hd Hp He Hrun.
  pose proof (general_items_total_line pre run post He Hd Hrun L Hp) as Hg.
  rewrite <- Htext in Hg.
  split; [|split].
  - rewrite extract_line_items_ok.
    destruct (cascade_stops (all_text pages) (all_tables pages))
      as (st & _ & Hbefore & -> & Hne).
    assert (Hst : st = TryGeneric).
    { destruct st; try reflexivity; exfalso.
      - apply Hne. simpl. rewrite Htab. reflexivity.
      - apply Hne. exact Hmain.
      - specialize (Hbefore TryGeneric ltac:(simpl; lia)). simpl in Hbefore. congruence.
      - specialize (Hbefore TryGeneric ltac:(simpl; lia)). simpl in Hbefore. congruence.
      - specialize (Hbefore TryGeneric ltac:(simpl; lia)). simpl in Hbefore. congruence. }
    subst st. simpl yield. rewrite Hg.
    set (label := PyStr.strip (run ++ "Total")). clearbody label.
    vm_compute. reflexivity.
  - intros E.
    assert (A : all_chars name_char (PyStr.strip (run ++ "Total")) = true).
    { apply all_chars_strip. rewrite all_chars_app, Hrun. reflexivity. }
    rewrite E in A. vm_compute in A. discriminate A.
  - intros ->. reflexivity.
Qed.

Lemma dollar_total_line_is_generic_item_witness :
  extract_line_items
    (text_only ("Estimate: ES-7" ++ String PyStr.nl "Kitchen remodel"
                ++ String PyStr.nl "Total $5,000.00" ++ String PyStr.nl "Thank you")) =
  [df_row ("ES-7" ++ String PyStr.nl "Kitchen remodel" ++ String PyStr.nl "Total")
     ("Item from PDF: " ++ "ES-7" ++ String PyStr.nl "Kitchen remodel"
      ++ String PyStr.nl "Total") 1 5000.00].
Proof.
  refine (proj1 (dollar_total_line_is_generic_item
            [{| extract_text := "Estimate: ES-7" ++ String PyStr.nl "Kitchen remodel"
                  ++ String PyStr.nl "Total $5,000.00" ++ String PyStr.nl "Thank you";
                extract_tables := [] |}]
            "Estimate:" (" ES-7" ++ String PyStr.nl "Kitchen remodel" ++ String PyStr.nl "")
            (String PyStr.nl "Thank you") _ _ _ _ _ _ _ _)).
  - reflexivity.
  - vm_compute. reflexivity.
  - reflexivity.
  - right. eexists. reflexivity.
  - reflexivity.
  - reflexivity.
  - reflexivity.
  - reflexivity.
Defined.

(** The total fallback itself: with no table, no main-section and no generic
    item and no subtotal line, a match of [Total\s+<amount>] with a positive
    amount gives the single item "1. Complete Project". *)
Lemma total_fallback_complete_project (pages : list page) (m : match_obj) (p : Q) :
  all_tables pages = [] ->
  main_section_items (all_text pages) = Ok [] ->
  general_items (all_text pages) = Ok [] ->
  search no_flags TextExtractor.subtotal_pattern (all_text pages) = None ->
  search no_flags total_pattern (all_text pages) = Some m ->
  to_float (group 1 m) = Ok p ->
  (0 < p)%Q ->
  extract_line_items (Ok pages) =
    [df_row "1. Complete Project" "Full project as described in PDF" 1 p].
Proof.
  intros Htab Hmain Hgen Hsub Htot Hp Hpos.
  rewrite extract_line_items_ok.
  destruct (cascade_stops (all_text pages) (all_tables pages))
    as (st & _ & Hbefore & -> & Hne).
  assert (Hy : yield TryTotal (all_text pages) (all_tables pages) =
               Ok [complete_project p]).
  { simpl. unfold total_items. rewrite Htot. simpl. unfold complete_project_of.
    rewrite Hp. reflexivity. }
  assert (Hst : st = TryTotal).
  { destruct st; try reflexivity; exfalso.
    - apply Hne. simpl. rewrite Htab. reflexivity.
    - apply Hne. exact Hmain.
    - apply Hne. exact Hgen.
    - apply Hne. simpl. unfold subtotal_items. rewrite Hsub. reflexivity.
    - specialize (Hbefore TryTotal ltac:(simpl; lia)). congruence. }
  subst st. rewrite Hy.
  unfold Normalizer.normalize. simpl map. unfold Normalizer.coerce_row. simpl.
  apply Qgtb_iff in Hpos. rewrite Hpos. reflexivity.
Qed.

Example total_without_dollar :
  extract_line_items (text_only "Total 5,000.00") =
  [df_row "1. Complete Project" "Full project as described in PDF" 1 5000.00].
Proof. vm_compute. reflexivity. Qed.

(** ** C9: the row coercions of the Table Extractor *)

(** C9: for every table row the quantity and price coercions return a value
    and never raise: quantity 1 when the cell holds no digits, price 0 when
    no number can be read from the cell; and the row is emitted as a line
    item exactly when its item label is non-empty and its price is above
    zero: a row with a price not above zero or without item label is left
    out. *)
Theorem table_row_coercion_total :
  (forall quantity : option string,
      exists q, coerce_quantity quantity = Ok q /\
        (search no_flags (plus d) (str_of quantity) = None -> q = 1%Z)) /\
  (forall price : option string,
      (exists p, coerce_price price = Ok p) /\
      (truthy price = false -> coerce_price price = Ok 0%Q) /\
      (malformed_price price -> coerce_price price = Ok 0%Q)) /\
  (forall header_row r : row,
      exists q p,
        coerce_quantity (cell_at (qty_idx header_row) r "1") = Ok q /\
        coerce_price (cell_at (price_idx header_row) r "0") = Ok p /\
        (clean (cell_at (item_idx header_row) r "") <> EmptyString ->
         (0 < p)%Q ->
         row_item header_row r =
           Ok [mk_item (clean (cell_at (item_idx header_row) r ""))
                       (clean (cell_at (desc_idx header_row) r "")) q p]) /\
        (clean (cell_at (item_idx header_row) r "") = EmptyString \/ (p <= 0)%Q ->
         row_item header_row r = Ok [])).
Proof.
  split; [|split].
  - intros quantity.
    destruct (coerce_quantity_total quantity) as (q & E & _ & H). eauto.
  - intros price. split; [|split].
    + destruct (coerce_price_total price) as (p & E & _). eauto.
    + unfold coerce_price. intros ->. reflexivity.
    + apply coerce_price_malformed.
  - intros header_row r.
    destruct (row_item_cases header_row r) as (q & p & Eq & Ep & _ & E).
    exists q, p. split; [exact Eq|]. split; [exact Ep|]. rewrite E. split.
    + intros Hi Hp. apply Qgtb_iff in Hp. rewrite Hp.
      destruct (clean _); [congruence | reflexivity].
    + intros [Hi|Hp].
      * rewrite Hi. reflexivity.
      * destruct (Qgtb p 0) eqn:G; [|now rewrite andb_false_r].
        apply Qgtb_iff in G. exfalso. exact (Qlt_not_le _ _ G Hp).
Qed.

(** ** C4: which tables are line-item tables *)


(** The code tests the first row for "item" only.  A first row with
    "Description" and "Price" cells is not taken, where the wording takes
    it; but with no "item" column no row has a label, and extracting the rows
    yields nothing either. *)
Example description_header_yields_nothing :
  spec_is_line_items_table [Some "Description"; Some "Price"] = true /\
  is_line_items_table [Some "Description"; Some "Price"] = false /\
  extract_rows [Some "Description"; Some "Price"] [[Some "Work"; Some "$500.00"]] = Ok [] /\
  table_items [[Some "Description"; Some "Price"]; [Some "Work"; Some "$500.00"]] = Ok [].
Proof. repeat split. Qed.


(** ** C3: the all-default customer record *)







(** * Further properties *)

(** ** The matcher on the two patterns of the table coercions *)

(** The characters of [x] that satisfy [p], in order. *)
Fixpoint keep (p : ascii -> bool) (x : string) : string :=
  match x with
  | EmptyString => EmptyString
  | String c x' => if p c then String c (keep p x') else keep p x'
  end.

(** The longest prefix of [x] whose characters satisfy [p]. *)
Fixpoint take_while (p : ascii -> bool) (x : string) : string :=
  match x with
  | EmptyString => EmptyString
  | String c x' => if p c then String c (take_while p x') else EmptyString
  end.

(** The first maximal run of characters of [x] that satisfy [p], if any. *)
Fixpoint first_run (p : ascii -> bool) (x : string) : option string :=
  match x with
  | EmptyString => None
  | String c x' => if p c then Some (take_while p x) else first_run p x'
  end.

Lemma sub_from_class_erase (fl : flags) (ng : bool) (ms : list cset) (x : string) :
  forall fuel p pv cs,
    String.length x < fuel ->
    sub_from fl (Class ng ms) "" fuel {| pos := p; prev := pv; rest := x; caps := cs |} =
    keep (fun c => negb (class_mem ng ms c)) x.
Proof.
  induction x as [|c x IH]; intros fuel p pv cs Hf;
    (destruct fuel as [|fuel]; [simpl in Hf; lia|]).
  - reflexivity.
  - simpl in Hf. unfold sub_from; fold sub_from.
    unfold match_at. cbn [rmatch step_if rest pos prev caps].
    destruct (class_mem ng ms c) eqn:E; cbn [negb keep].
    + cbn [advance m_start m_end pos prev rest caps].
      rewrite (proj2 (Nat.ltb_lt p (S p)) (Nat.lt_succ_diag_r p)).
      replace (S p - p) with 1 by lia.
      cbn [skip rest advance pos prev caps append]. rewrite E. cbn [negb].
      apply IH. lia.
    + rewrite E. cbn [negb]. f_equal. unfold advance. cbn [pos prev rest caps].
      apply IH. lia.
Qed.

(** [re.sub] with a character class and the empty replacement removes the
    characters of the class and nothing else. *)
Lemma sub_class_erase (ng : bool) (ms : list cset) (x : string) :
  sub no_flags (Class ng ms) "" x = keep (fun c => negb (class_mem ng ms c)) x.
Proof. unfold sub, start_of. apply sub_from_class_erase. lia. Qed.

Lemma take_while_split (p : ascii -> bool) (x : string) :
  exists y, x = take_while p x ++ y.
Proof.
  induction x as [|c x (y & IH)]; simpl; [exists EmptyString; reflexivity|].
  destruct (p c); [exists y; simpl; now rewrite <- IH | eexists; reflexivity].
Qed.

(** A greedy [c+] for a character class [c], with nothing after it: the
    match at a position is the longest run of characters of the class that
    starts there, and there is none when the run is empty. *)
Lemma match_at_plus_class (fl : flags) (ng : bool) (ms : list cset) (x : string) :
  forall p pv cs,
    option_map (fun m => (m_start m, m_end m, m_text m))
      (match_at fl (plus (Class ng ms)) {| pos := p; prev := pv; rest := x; caps := cs |}) =
    match take_while (class_mem ng ms) x with
    | EmptyString => None
    | run => Some (p, p + String.length run, run)
    end.
Proof.
  intros p pv cs. unfold match_at, plus. cbn [rmatch rest pos prev caps].
  set (loop := fix loop (fuel cnt : nat) (st : mstate) {struct fuel} : option mstate :=
         let stop := if Nat.leb 1 cnt then Some st else None in
         match fuel with
         | O => stop
         | S fuel' =>
             let more :=
               if below None cnt
               then rmatch fl (Class ng ms) st
                      (fun st' => if Nat.ltb (pos st) (pos st')
                                  then loop fuel' (S cnt) st' else None)
               else None in
             orelse more stop
         end).
  assert (L : forall y fuel cnt q qv qs,
             String.length y <= fuel ->
             exists st',
               (if Nat.leb 1 (cnt + String.length (take_while (class_mem ng ms) y))
                then loop fuel cnt {| pos := q; prev := qv; rest := y; caps := qs |} = Some st'
                else loop fuel cnt {| pos := q; prev := qv; rest := y; caps := qs |} = None) /\
               pos st' = q + String.length (take_while (class_mem ng ms) y) /\
               caps st' = qs).
  { induction y as [|c y IH]; intros fuel cnt q qv qs Hf.
    - exists {| pos := q; prev := qv; rest := EmptyString; caps := qs |}.
      cbn [take_while String.length]. rewrite !Nat.add_0_r.
      split; [|split; reflexivity].
      destruct cnt; destruct fuel; unfold loop; cbn; reflexivity.
    - destruct fuel as [|fuel]; [simpl in Hf; lia|]. simpl in Hf.
      cbn [take_while]. destruct (class_mem ng ms c) eqn:E.
      + destruct (IH fuel (S cnt) (S q) (Some c) qs ltac:(lia)) as (st' & H1 & H2 & H3).
        exists st'. cbn [String.length].
        replace (cnt + S (String.length (take_while (class_mem ng ms) y)))
          with (S cnt + String.length (take_while (class_mem ng ms) y)) by lia.
        split; [|split; [rewrite H2; lia | exact H3]].
        cbn [Nat.add Nat.leb] in H1 |- *.
        unfold loop at 1; fold loop. cbn [below rmatch step_if rest pos prev caps].
        rewrite E. unfold advance. cbn [pos prev rest caps].
        rewrite (proj2 (Nat.ltb_lt q (S q)) (Nat.lt_succ_diag_r q)).
        rewrite H1. reflexivity.
      + exists {| pos := q; prev := qv; rest := String c y; caps := qs |}.
        cbn [String.length]. rewrite !Nat.add_0_r.
        split; [|split; reflexivity].
        destruct cnt; unfold loop; fold loop;
          cbn [below rmatch step_if rest pos prev caps advance Nat.leb]; rewrite E;
          reflexivity. }
  destruct (L x (String.length x) 0 p pv [] (Nat.le_refl _)) as (st' & H1 & H2 & H3).
  cbn [Nat.add] in H1.
  match goal with
  | |- context [?f (String.length x) 0 ?st] => change f with loop
  end.
  destruct (take_while (class_mem ng ms) x) as [|c run] eqn:Et.
  - cbn [String.length Nat.leb] in H1. rewrite H1. reflexivity.
  - cbn [String.length Nat.leb] in H1. rewrite H1. cbn [option_map m_start m_end m_text].
    rewrite H2. replace (p + String.length (String c run) - p)
      with (String.length (String c run)) by lia.
    destruct (take_while_split (class_mem ng ms) x) as (y & Hy).
    rewrite Et in Hy. rewrite Hy at 1. rewrite substring_prefix. reflexivity.
Qed.

Lemma scan_plus_class (fl : flags) (ng : bool) (ms : list cset) (x : string) :
  forall fuel p pv cs,
    String.length x <= fuel ->
    option_map m_text
      (scan fl (plus (Class ng ms)) fuel {| pos := p; prev := pv; rest := x; caps := cs |}) =
    first_run (class_mem ng ms) x.
Proof.
  induction x as [|c x IH]; intros fuel p pv cs Hf.
  - pose proof (match_at_plus_class fl ng ms EmptyString p pv cs) as M.
    destruct fuel; simpl scan;
      destruct (match_at _ _ _) as [m|]; try discriminate M; reflexivity.
  - pose proof (match_at_plus_class fl ng ms (String c x) p pv cs) as M.
    destruct fuel as [|fuel]; [simpl in Hf; lia|]. simpl in Hf.
    cbn [scan first_run]. cbn [take_while] in M.
    destruct (class_mem ng ms c) eqn:E.
    + destruct (match_at _ _ _) as [m|]; [|discriminate M].
      cbn [option_map] in M |- *. injection M as _ _ M3.
      rewrite M3. cbn [take_while]. rewrite E. reflexivity.
    + destruct (match_at _ _ _) as [m|]; [discriminate M|].
      cbn [rest]. unfold advance. cbn [pos prev rest caps].
      apply IH. lia.
Qed.

(** [re.search] with a greedy [c+] finds the first maximal run of
    characters of the class. *)
Lemma search_plus_class (fl : flags) (ng : bool) (ms : list cset) (x : string) :
  option_map m_text (search fl (plus (Class ng ms)) x) = first_run (class_mem ng ms) x.
Proof. unfold search, start_of. apply scan_plus_class. lia. Qed.

Lemma take_while_all (p : ascii -> bool) (x : string) :
  forallb p (list_ascii_of_string (take_while p x)) = true.
Proof.
  induction x as [|c x IH]; simpl; [reflexivity|].
  destruct (p c) eqn:E; simpl; [now rewrite E, IH | reflexivity].
Qed.

Lemma first_run_digits (x run : string) :
  first_run PyStr.is_digit x = Some run -> PyStr.isdigit run = true.
Proof.
  induction x as [|c x IH]; simpl; [discriminate|].
  destruct (PyStr.is_digit c) eqn:E; [|exact IH].
  intros H. injection H as <-. unfold PyStr.isdigit, PyStr.all_digits. simpl.
  rewrite E. simpl. apply take_while_all.
Qed.

Lemma keep_ext (p q : ascii -> bool) (x : string) :
  (forall c, p c = q c) -> keep p x = keep q x.
Proof.
  intros H. induction x as [|c x IH]; simpl; [reflexivity|].
  rewrite (H c), IH. reflexivity.
Qed.

Lemma first_run_ext (p q : ascii -> bool) (x : string) :
  (forall c, p c = q c) -> first_run p x = first_run q x.
Proof.
  intros H. induction x as [|c x IH]; simpl; [reflexivity|].
  rewrite (H c), IH. destruct (q c); [|reflexivity]. f_equal. f_equal.
  clear IH. induction x as [|c' x IH]; simpl; [reflexivity|].
  rewrite (H c'), IH. reflexivity.
Qed.

(** ** What the table coercions read *)

Definition digit_or_dot (c : ascii) : bool := (PyStr.is_digit c || Ascii.eqb c ".")%bool.

(** The number a string of digits and dots spells, 0 when it spells none. *)
Definition number_or_zero (x : string) : Q :=
  match py_float x with
  | Ok q => q
  | Raise _ => 0%Q
  end.

(** X1: the price the Table Extractor reads from a cell is the number
    spelled by the digits and dots of the cell, in order, every other
    character (currency sign, thousands separator, blank, letter, minus sign)
    being dropped, and 0 when they spell no number or the cell is missing;
    so it is never negative. *)
Theorem table_price_reads_digits_and_dots :
  forall price : option string,
    coerce_price price = Ok (number_or_zero (keep digit_or_dot (str_of price))) /\
    (0 <= number_or_zero (keep digit_or_dot (str_of price)))%Q.
Proof.
  intros price. split.
  - unfold coerce_price, not_digit_or_dot. cbv zeta. destruct (truthy price) eqn:T.
    + rewrite sub_class_erase.
      rewrite (keep_ext _ digit_or_dot).
      2:{ intros c. unfold class_mem, digit_or_dot. simpl.
          rewrite orb_false_r. now destruct (_ || _)%bool. }
      unfold number_or_zero.
      destruct (keep digit_or_dot (str_of price)) as [|c x] eqn:K; [reflexivity|].
      cbn [PyStr.nonempty].
      destruct (py_float (String c x)) as [q|e] eqn:E; [reflexivity|].
      rewrite (py_float_raises _ _ E). reflexivity.
    + assert (str_of price = EmptyString) as ->.
      { destruct price as [[|c x]|]; try reflexivity. discriminate T. }
      reflexivity.
  - unfold number_or_zero. destruct (py_float _) as [q|e] eqn:E.
    + exact (py_float_nonneg _ _ E).
    + apply Qle_refl.
Qed.

(** X2: the quantity the Table Extractor reads from a cell is the value of
    the first maximal run of digits of the cell when that run has at most
    4300 digits, and 1 when the run is longer (the interpreter refuses to
    convert it and the error is caught), when the cell holds no digit or when
    it is missing; what follows the run (a thousands separator, a decimal
    part) is not read. *)
Theorem table_quantity_reads_first_digit_run :
  forall quantity : option string,
    coerce_quantity quantity =
    Ok (match first_run PyStr.is_digit (str_of quantity) with
        | Some run =>
            if Nat.leb (String.length run) int_max_str_digits
            then PyStr.digits_val 0 run
            else 1%Z
        | None => 1%Z
        end).
Proof.
  intros quantity. unfold coerce_quantity.
  assert (S1 : option_map m_text (search no_flags (plus d) (str_of quantity)) =
               first_run PyStr.is_digit (str_of quantity)).
  { unfold d. rewrite search_plus_class. apply first_run_ext.
    intros c. unfold class_mem. simpl. now rewrite orb_false_r. }
  destruct (truthy quantity) eqn:T.
  - destruct (search no_flags (plus d) (str_of quantity)) as [m|]; simpl in S1;
      rewrite <- S1; simpl.
    + unfold py_int. rewrite (first_run_digits _ _ (eq_sym S1)).
      destruct (Nat.leb _ _); reflexivity.
    + reflexivity.
  - assert (str_of quantity = EmptyString) as ->.
    { destruct quantity as [[|c x]|]; try reflexivity. discriminate T. }
    reflexivity.
Qed.

(** X3: every line item [extract_line_items] returns, by whichever strategy
    or from its [except] branch, has a non-empty text label and a text
    description: neither is ever missing or a number. *)
Theorem line_items_have_labels :
  forall (pdf : pdf_content) (it : line_item),
    In it (extract_line_items pdf) ->
    exists i d, item it = CStr i /\ i <> EmptyString /\ description it = CStr d.
Proof.
  intros [pages|e] it Hin; [|exact (proj1 (error_items_text it Hin))].
  rewrite extract_line_items_ok in Hin.
  destruct (cascade_stops (all_text pages) (all_tables pages)) as (st & _ & _ & E & _).
  rewrite E in Hin.
  destruct (yield st (all_text pages) (all_tables pages)) as [l|e] eqn:Y;
    [|exact (proj1 (error_items_text it Hin))].
  apply normalize_in in Hin. destruct Hin as (r & Hr & -> & _).
  pose proof (yield_labelled _ _ _ _ Y) as HL. rewrite Forall_forall in HL.
  destruct (HL r Hr) as (i & d & q & p & Er & Hi).
  destruct (coerce_row_labels l r _ _ _ _ Hr Er) as (E1 & E2 & _).
  exists i, d. auto.
Qed.

Lemma line_items_have_labels_witness :
  exists i d,
    item (df_row "Widget" "" 0 5.00) = CStr i /\ i <> EmptyString /\
    description (df_row "Widget" "" 0 5.00) = CStr d.
Proof.
  refine (line_items_have_labels zero_quantity_doc (df_row "Widget" "" 0 5.00) _).
  vm_compute. left. reflexivity.
Defined.

(** X4: only the table strategy reads a quantity.  When the tables of a
    document yield no item (in particular when it has no table), every line
    item returned has the quantity 1. *)
Theorem text_items_have_quantity_one :
  forall (pages : list page) (it : line_item),
    tables_items (all_tables pages) = Ok [] ->
    In it (extract_line_items (Ok pages)) ->
    Quantity it = 1%Z.
Proof.
  intros pages it Ht Hin. rewrite extract_line_items_ok in Hin.
  destruct (cascade_stops (all_text pages) (all_tables pages)) as (st & _ & _ & E & Hne).
  rewrite E in Hin.
  assert (Hst : st <> TryTables) by (intros ->; exact (Hne Ht)).
  destruct (yield st (all_text pages) (all_tables pages)) as [l|e] eqn:Y;
    [|exact (proj2 (error_items_text it Hin))].
  apply normalize_in in Hin. destruct Hin as (r & Hr & -> & _).
  pose proof (yield_text _ _ _ _ Hst Y) as HT. rewrite Forall_forall in HT.
  destruct (HT r Hr) as (_ & i & d & p & Er).
  assert (Hdt : Normalizer.quantity_dtype l = Normalizer.int64).
  { apply fitting_dtype, Forall_forall. intros r' Hr'.
    apply unit_quantity_fitting. exact (proj2 (HT r' Hr')). }
  rewrite (coerce_row_full l r _ _ _ _ Hdt Hr Er). reflexivity.
Qed.

Lemma text_items_have_quantity_one_witness :
  Quantity (df_row "3. Kitchen Tile" "Main category: Kitchen Tile" 1 1989.40) = 1%Z.
Proof.
  refine (text_items_have_quantity_one
            [{| extract_text := "3 Kitchen-Tile 1,989.40"; extract_tables := [] |}]
            (df_row "3. Kitchen Tile" "Main category: Kitchen Tile" 1 1989.40) _ _).
  - reflexivity.
  - vm_compute. left. reflexivity.
Defined.

(** X5: when the tables yield an item, the page text has no influence on
    the line items: two documents with the same tables, whatever their texts,
    give the same result, the normalized table items (no amount of the text
    is parsed, so none can raise). *)
Theorem tables_mask_the_text :
  forall (pages pages' : list page) (x : raw_record) (xs : list raw_record),
    all_tables pages' = all_tables pages ->
    tables_items (all_tables pages) = Ok (x :: xs) ->
    extract_line_items (Ok pages) = Normalizer.normalize (x :: xs) /\
    extract_line_items (Ok pages') = extract_line_items (Ok pages).
Proof.
  assert (K : forall ps x xs, tables_items (all_tables ps) = Ok (x :: xs) ->
                extract_line_items (Ok ps) = Normalizer.normalize (x :: xs)).
  { intros ps x xs Ht. rewrite extract_line_items_ok.
    destruct (cascade_stops (all_text ps) (all_tables ps)) as (st & _ & Hb & -> & _).
    destruct st; simpl yield; try (rewrite Ht; reflexivity);
      specialize (Hb TryTables ltac:(simpl; lia)); simpl in Hb; congruence. }
  intros pages pages' x xs Heq Ht. split; [exact (K _ _ _ Ht)|].
  rewrite (K pages _ _ Ht). apply K. rewrite Heq. exact Ht.
Qed.

Lemma tables_mask_the_text_witness :
  extract_line_items
    (Ok [{| extract_text := "9 Broken 1.2.3.00";
            extract_tables :=
              [[[Some "Item"; Some "Qty"; Some "Price"];
                [Some "Widget"; Some "0"; Some "$5.00"]]] |}]) =
  extract_line_items zero_quantity_doc.
Proof.
  refine (proj2 (tables_mask_the_text _ _ (mk_item "Widget" "" 0 5.00) [] _ _)).
  - reflexivity.
  - vm_compute. reflexivity.
Defined.

(** ** The required entries of the customer record *)

Lemma not_unknown (x dflt : string) :
  dflt <> "Unknown" -> (if String.eqb x "Unknown" then dflt else x) <> "Unknown".
Proof.
  intros Hd. destruct (String.eqb x "Unknown") eqn:E; [exact Hd|].
  now apply String.eqb_neq.
Qed.


(** X7: the record has a subtotal entry only when no total pattern gave a
    total other than "0.00" and the subtotal pattern matched; the total entry
    is then that same subtotal amount, commas removed. *)
Theorem subtotal_entry_is_the_total :
  forall (pdf : pdf_content) (x : string),
    subtotal (extract_customer_info pdf) = Some x ->
    total (extract_customer_info pdf) = x /\
    exists pages m,
      pdf = Ok pages /\
      search no_flags info_subtotal_pattern (all_text pages) = Some m /\
      x = PyStr.replace "," "" (group 1 m) /\
      (first_match no_flags total_patterns (all_text pages) = None \/
       exists t, first_match no_flags total_patterns (all_text pages) = Some t /\
                 PyStr.replace "," "" (group 1 t) = "0.00").
Proof.
  intros [pages|e] x; unfold extract_customer_info; cbn [subtotal total default_info];
    [|discriminate].
  unfold find_total.
  set (tot := match first_match no_flags total_patterns (all_text pages) with
              | Some m => PyStr.replace "," "" (group 1 m)
              | None => "0.00"
              end).
  destruct (String.eqb tot "0.00") eqn:E; [|discriminate].
  destruct (search no_flags info_subtotal_pattern (all_text pages)) as [m|] eqn:S;
    cbn [fst snd]; [|discriminate].
  intros H. injection H as <-. split; [reflexivity|].
  exists pages, m. split; [reflexivity|]. split; [exact S|]. split; [reflexivity|].
  subst tot. destruct (first_match no_flags total_patterns (all_text pages)) as [t|];
    [right | left; reflexivity].
  exists t. split; [reflexivity|]. now apply String.eqb_eq.
Qed.

Lemma subtotal_entry_is_the_total_witness :
  total (extract_customer_info (text_only "Subtotal $1,250.00")) = "1250.00".
Proof.
  refine (proj1 (subtotal_entry_is_the_total
                   (text_only "Subtotal $1,250.00") "1250.00" _)).
  vm_compute. reflexivity.
Defined.

(** ** The table strategy, table by table *)

Lemma collect_app {A B} (f : A -> exc (list B)) (l1 l2 : list A) :
  collect f (l1 ++ l2) =
  (xs <- collect f l1 ;; ys <- collect f l2 ;; Ok (xs ++ ys)%list)%exc.
Proof.
  induction l1 as [|a l1 IH]; simpl.
  - destruct (collect f l2); reflexivity.
  - destruct (f a) as [x|e]; simpl; [|reflexivity]. rewrite IH.
    destruct (collect f l1) as [xs|e]; simpl; [|reflexivity].
    destruct (collect f l2) as [ys|e]; simpl; [|reflexivity].
    now rewrite app_assoc.
Qed.

(** X8: the table strategy never raises and works table by table: the items
    of a document are the items of its first pages followed by the items of
    the remaining pages, each table contributing its own rows whatever the
    other tables hold. *)
Theorem tables_items_by_page :
  forall pages1 pages2 : list page,
    exists xs ys,
      tables_items (all_tables pages1) = Ok xs /\
      tables_items (all_tables pages2) = Ok ys /\
      tables_items (all_tables (pages1 ++ pages2)) = Ok (xs ++ ys)%list.
Proof.
  intros pages1 pages2.
  destruct (tables_items_total (all_tables pages1)) as (xs & Hx).
  destruct (tables_items_total (all_tables pages2)) as (ys & Hy).
  exists xs, ys. split; [exact Hx|]. split; [exact Hy|].
  unfold all_tables. rewrite flat_map_app. unfold tables_items in *.
  rewrite collect_app. unfold all_tables in Hx, Hy. rewrite Hx, Hy. reflexivity.
Qed.

Example date_unknown_in_document :
  date (extract_customer_info (text_only "Date: Unknown")) = "May 15, 2025".
Proof. vm_compute. reflexivity. Qed.

(** * The dashboard counters ([dashboard.py]) *)

Module Dashboard.

(** An entry of [recent_syncs]. *)
Record sync_entry := {
  sync_timestamp : string;
  sync_status : string;
  sync_estimates : nat;
  sync_files_processed : nat
}.

(** An entry of [recent_estimates]; the id and the number are what the
    accounting service answered, possibly [None]. *)
Record estimate_entry := {
  est_timestamp : string;
  est_estimate_id : option string;
  est_estimate_number : option string
}.

(** The dict kept in [dashboard_data.json]. *)
Record data := {
  last_sync : option string;
  last_sync_status : string;
  total_syncs : Z;
  successful_syncs : Z;
  failed_syncs : Z;
  total_estimates : Z;
  total_files_processed : Z;
  recent_syncs : list sync_entry;
  recent_estimates : list estimate_entry
}.

(** The data file: absent, not loadable as JSON, or holding a dict. *)
Inductive data_file :=
| Missing
| Unreadable
| Holds (d : data).

(** Lines 32-42. *)
Definition default_data : data :=
  {| last_sync := None;
     last_sync_status := "Unknown";
     total_syncs := 0;
     successful_syncs := 0;
     failed_syncs := 0;
     total_estimates := 0;
     total_files_processed := 0;
     recent_syncs := [];
     recent_estimates := [] |}.

(** [get_dashboard_data()], lines 22-42. *)
Definition get_dashboard_data (f : data_file) : data :=
  match f with
  | Holds d => d
  | Missing | Unreadable => default_data
  end.

(** [len(x) if x else 0] for an optional list argument. *)
Definition len_or_zero {A} (x : option (list A)) : nat :=
  match x with
  | Some l => List.length l
  | None => 0
  end.

(** Truthiness of an optional list argument. *)
Definition given {A} (x : option (list A)) : bool :=
  match x with
  | Some (_ :: _) => true
  | _ => false
  end.

(** Lines 83-88: [insert(0, ...)] for each estimate in turn. *)
Definition insert_estimates (now : string)
    (estimates : list (option string * option string))
    (recent : list estimate_entry) : list estimate_entry :=
  fold_left
    (fun acc e => {| est_timestamp := now; est_estimate_id := fst e;
                     est_estimate_number := snd e |} :: acc)
    estimates recent.

(** [update_dashboard_data(sync_status, estimates, files_processed)], lines
    52-98, at the time stamp [now]: the dict it hands to
    [save_dashboard_data]. *)
Definition update_dashboard_data (now : string) (sync_status : string)
    (estimates : option (list (option string * option string)))
    (files_processed : option (list string)) (f : data_file) : data :=
  let d := get_dashboard_data f in
  let success := String.eqb sync_status "Success" in
  {| last_sync := Some now;
     last_sync_status := sync_status;
     total_syncs := total_syncs d + 1;
     successful_syncs := if success then successful_syncs d + 1 else successful_syncs d;
     failed_syncs := if success then failed_syncs d else failed_syncs d + 1;
     total_estimates :=
       if given estimates then total_estimates d + Z.of_nat (len_or_zero estimates)
       else total_estimates d;
     total_files_processed :=
       if given files_processed
       then total_files_processed d + Z.of_nat (len_or_zero files_processed)
       else total_files_processed d;
     recent_syncs :=
       firstn 10 ({| sync_timestamp := now; sync_status := sync_status;
                     sync_estimates := len_or_zero estimates;
                     sync_files_processed := len_or_zero files_processed |}
                  :: recent_syncs d);
     recent_estimates :=
       match estimates with
       | Some (e :: es) => firstn 10 (insert_estimates now (e :: es) (recent_estimates d))
       | _ => recent_estimates d
       end |}.

(** One call of [update_dashboard_data]. *)
Record call := {
  c_now : string;
  c_status : string;
  c_estimates : option (list (option string * option string));
  c_files : option (list string)
}.

(** The data file after a call whose save succeeds. *)
Definition after (f : data_file) (c : call) : data_file :=
  Holds (update_dashboard_data (c_now c) (c_status c) (c_estimates c) (c_files c) f).

(** The data file after a series of calls, oldest first. *)
Definition history (f : data_file) (calls : list call) : data_file :=
  fold_left after calls f.

Definition entry_of (c : call) : sync_entry :=
  {| sync_timestamp := c_now c; sync_status := c_status c;
     sync_estimates := len_or_zero (c_estimates c);
     sync_files_processed := len_or_zero (c_files c) |}.

Definition estimates_of (c : call) : list estimate_entry :=
  match c_estimates c with
  | Some l => map (fun e => {| est_timestamp := c_now c; est_estimate_id := fst e;
                               est_estimate_number := snd e |}) l
  | None => []
  end.

Definition is_success (c : call) : bool := String.eqb (c_status c) "Success".

Definition count_Z {A} (p : A -> bool) (l : list A) : Z :=
  Z.of_nat (List.length (filter p l)).

Lemma firstn_app_firstn_le {A} (l m : list A) :
  forall n k, n <= k -> firstn n (l ++ firstn k m) = firstn n (l ++ m).
Proof.
  induction l as [|a l IH]; intros n k H; simpl.
  - rewrite firstn_firstn. f_equal. lia.
  - destruct n; simpl; [reflexivity|]. f_equal. apply IH. lia.
Qed.

Lemma firstn_app_firstn {A} (n : nat) (l m : list A) :
  firstn n (l ++ firstn n m) = firstn n (l ++ m).
Proof. apply firstn_app_firstn_le. lia. Qed.

Lemma history_cons (f : data_file) (c : call) (calls : list call) :
  history f (c :: calls) = history (after f c) calls.
Proof. reflexivity. Qed.

Lemma insert_estimates_rev now l recent :
  insert_estimates now l recent =
  (rev (map (fun e => {| est_timestamp := now; est_estimate_id := fst e;
                         est_estimate_number := snd e |}) l) ++ recent)%list.
Proof.
  unfold insert_estimates. revert recent.
  induction l as [|e l IH]; intros recent; simpl; [reflexivity|].
  rewrite IH, <- app_assoc. reflexivity.
Qed.

(** X9: along any series of updates the sync counters stay in step: the
    total grows by the number of updates, the successful count by the number
    of updates whose status is exactly "Success" and the failed count by all
    the others, so a data file whose total is the sum of the two keeps that,
    in particular one that starts missing or unreadable. *)
Theorem sync_counters_after_history :
  forall (f : data_file) (calls : list call),
    total_syncs (get_dashboard_data (history f calls)) =
      (total_syncs (get_dashboard_data f) + Z.of_nat (List.length calls))%Z /\
    successful_syncs (get_dashboard_data (history f calls)) =
      (successful_syncs (get_dashboard_data f) + count_Z is_success calls)%Z /\
    failed_syncs (get_dashboard_data (history f calls)) =
      (failed_syncs (get_dashboard_data f) +
       count_Z (fun c => negb (is_success c)) calls)%Z /\
    (total_syncs (get_dashboard_data f) =
       (successful_syncs (get_dashboard_data f) + failed_syncs (get_dashboard_data f))%Z ->
     total_syncs (get_dashboard_data (history f calls)) =
       (successful_syncs (get_dashboard_data (history f calls)) +
        failed_syncs (get_dashboard_data (history f calls)))%Z).
Proof.
  intros f calls.
  assert (H : total_syncs (get_dashboard_data (history f calls)) =
                (total_syncs (get_dashboard_data f) + Z.of_nat (List.length calls))%Z /\
              successful_syncs (get_dashboard_data (history f calls)) =
                (successful_syncs (get_dashboard_data f) + count_Z is_success calls)%Z /\
              failed_syncs (get_dashboard_data (history f calls)) =
                (failed_syncs (get_dashboard_data f) +
                 count_Z (fun c => negb (is_success c)) calls)%Z /\
              (count_Z is_success calls + count_Z (fun c => negb (is_success c)) calls =
               Z.of_nat (List.length calls))%Z).
  { revert f. induction calls as [|c calls IH]; intros f.
    - unfold count_Z. simpl. (split; [lia|]); (split; [lia|]); (split; lia).
    - rewrite history_cons. destruct (IH (after f c)) as (H1 & H2 & H3 & H4).
      rewrite H1, H2, H3. unfold count_Z in *. cbn [filter List.length].
      unfold after. cbn [get_dashboard_data update_dashboard_data
                         total_syncs successful_syncs failed_syncs].
      change (String.eqb (c_status c) "Success") with (is_success c).
      destruct (is_success c); cbn [negb List.length];
        (split; [lia|]); (split; [lia|]); (split; lia). }
  destruct H as (H1 & H2 & H3 & H4). repeat (split; [assumption|]).
  intros H0. lia.
Qed.

(** X10: after one update or more, [recent_syncs] holds the ten most recent
    syncs, newest first: the entries of the updates in reverse order followed
    by the older entries, cut after ten. *)
Theorem recent_syncs_after_history :
  forall (f : data_file) (calls : list call),
    calls <> [] ->
    recent_syncs (get_dashboard_data (history f calls)) =
      firstn 10 (rev (map entry_of calls) ++ recent_syncs (get_dashboard_data f)) /\
    List.length (recent_syncs (get_dashboard_data (history f calls))) <= 10.
Proof.
  intros f calls Hne.
  assert (H : recent_syncs (get_dashboard_data (history f calls)) =
              firstn 10 (rev (map entry_of calls) ++ recent_syncs (get_dashboard_data f))).
  { revert f. induction calls as [|c calls IH]; intros f; [congruence|].
    rewrite history_cons. destruct calls as [|c' calls].
    - reflexivity.
    - rewrite (IH ltac:(discriminate) (after f c)).
      unfold after at 1. cbn [get_dashboard_data update_dashboard_data recent_syncs].
      fold (entry_of c). rewrite firstn_app_firstn.
      cbn [map rev]. rewrite <- !app_assoc. reflexivity. }
  split; [exact H|]. rewrite H. apply firstn_le_length.
Qed.

Lemma recent_syncs_after_history_witness :
  recent_syncs (get_dashboard_data
    (history Missing
       [{| c_now := "t1"; c_status := "Failed"; c_estimates := Some []; c_files := Some [] |};
        {| c_now := "t2"; c_status := "Success";
           c_estimates := Some [(Some "46", Some "EST-7")];
           c_files := Some ["a.pdf"] |}])) =
  [{| sync_timestamp := "t2"; sync_status := "Success";
      sync_estimates := 1; sync_files_processed := 1 |};
   {| sync_timestamp := "t1"; sync_status := "Failed";
      sync_estimates := 0; sync_files_processed := 0 |}].
Proof.
  refine (proj1 (recent_syncs_after_history Missing _ _)). discriminate.
Defined.

(** X11: starting from a data file with at most ten recent estimates (a
    missing or unreadable one has none), [recent_estimates] holds the ten
    estimates created last, the latest first, and [total_estimates] has grown
    by the number of estimates of all the updates. *)
Theorem recent_estimates_after_history :
  forall (f : data_file) (calls : list call),
    List.length (recent_estimates (get_dashboard_data f)) <= 10 ->
    recent_estimates (get_dashboard_data (history f calls)) =
      firstn 10 (rev (flat_map estimates_of calls) ++
                 recent_estimates (get_dashboard_data f)) /\
    total_estimates (get_dashboard_data (history f calls)) =
      (total_estimates (get_dashboard_data f) +
       Z.of_nat (List.length (flat_map estimates_of calls)))%Z.
Proof.
  intros f calls. revert f. induction calls as [|c calls IH]; intros f Hlen.
  - cbn [history fold_left flat_map rev app List.length].
    split; [symmetry; apply firstn_all2; exact Hlen | lia].
  - rewrite history_cons.
    assert (Hc : recent_estimates (get_dashboard_data (after f c)) =
                 firstn 10 (rev (estimates_of c) ++
                            recent_estimates (get_dashboard_data f)) /\
                 total_estimates (get_dashboard_data (after f c)) =
                 (total_estimates (get_dashboard_data f) +
                  Z.of_nat (List.length (estimates_of c)))%Z).
    { unfold after, estimates_of.
      cbn [get_dashboard_data update_dashboard_data recent_estimates total_estimates].
      destruct (c_estimates c) as [[|e es]|]; cbn [given len_or_zero].
      - cbn [map rev app List.length].
        split; [symmetry; apply firstn_all2; exact Hlen | lia].
      - rewrite insert_estimates_rev. rewrite length_map. split; reflexivity.
      - cbn [map rev app List.length].
        split; [symmetry; apply firstn_all2; exact Hlen | lia]. }
    destruct Hc as (Hr & Ht).
    destruct (IH (after f c)) as (H1 & H2).
    { rewrite Hr. apply firstn_le_length. }
    rewrite H1, H2, Hr, Ht. cbn [flat_map].
    rewrite firstn_app_firstn, rev_app_distr, length_app, <- app_assoc.
    split; [reflexivity | lia].
Qed.

Lemma recent_estimates_after_history_witness :
  recent_estimates (get_dashboard_data
    (history Unreadable
       [{| c_now := "t1"; c_status := "Success";
           c_estimates := Some [(Some "1", Some "EST-1"); (Some "2", Some "EST-2")];
           c_files := None |}])) =
  [{| est_timestamp := "t1"; est_estimate_id := Some "2";
      est_estimate_number := Some "EST-2" |};
   {| est_timestamp := "t1"; est_estimate_id := Some "1";
      est_estimate_number := Some "EST-1" |}].
Proof.
  refine (proj1 (recent_estimates_after_history Unreadable _ _)).
  simpl. lia.
Defined.

End Dashboard.

(** * The accounting client ([token_manager.py], [zoho_api.py])

    The client talks to three things outside the program: the clock, the
    token endpoint and the estimates endpoint.  They are given by an
    environment that answers each reading and each call in turn; the token
    file, the calls made and the requests sent are the state.  The file
    system is taken to be reliable.

    [create_estimate] and [get_estimate] call the estimates endpoint through
    the session of [_create_session], lines 26-43, whose adapter sends a
    request again, up to [MAX_RETRIES] times, when the server cannot be
    reached or answers with a status of [RETRY_STATUS_FORCELIST], and raises
    when its retries are used up; [attach_pdf_to_estimate] calls
    [requests.post], which sends one request. *)

Module Api.

(** The exceptions of the client. *)
Inductive api_exn :=
| Failure (msg : string)                 (* Exception(msg) *)
| HttpFailure (status : Z) (text : string)
      (* Exception(f"Failed to ...: {status} - {text}") *)
| RequestException (msg : string)
      (* requests.RequestException: the server was not reached *)
| AdapterError (status : Z)
      (* the RequestException the adapter of the session raises on an answer
         with a status of the force list (RetryError once its retries are
         used up) *)
| JSONDecodeError
      (* requests.exceptions.JSONDecodeError, a RequestException *)
| NoAttribute                            (* AttributeError *)
| KeyError (key : string)
| BadValue                               (* ValueError *)
| Exhausted (what : string)
      (* Exception(f"Failed to {what} after {max_attempts} attempts") *)
| DriveError (msg : string).             (* what a call of the Drive raises *)

(** [str(e)] as far as the client inspects it. *)
(** [isinstance(e, requests.RequestException)] *)
Definition is_request_exception (e : api_exn) : bool :=
  match e with
  | RequestException _ | AdapterError _ | JSONDecodeError => true
  | _ => false
  end.

Definition message (e : api_exn) : string :=
  match e with
  | Failure msg => msg
  | HttpFailure _ text => text
  | RequestException msg => msg
  | AdapterError _ => "too many error responses"
  | JSONDecodeError => EmptyString
  | NoAttribute => EmptyString
  | KeyError key => key
  | BadValue => EmptyString
  | Exhausted what => what
  | DriveError msg => msg
  end.

(** ** The token file *)

(** The token dict: the keys the code reads, and whether there are others. *)
Record token_data := {
  access_token : option string;
  refresh_token : option string;
  expires_in : option Q;
  expires_at : option Q;
  other_keys : bool
}.

(** [not token_data] for a dict: it is empty. *)
Definition is_empty (t : token_data) : bool :=
  match access_token t, refresh_token t, expires_in t, expires_at t with
  | None, None, None, None => negb (other_keys t)
  | _, _, _, _ => false
  end.

Inductive token_file :=
| NoFile
| Undecodable        (* neither decrypts nor parses as JSON *)
| Stored (t : token_data).

(** ** Answers of the outside *)

Inductive token_answer :=
| TokenAnswer (status : Z) (text : string) (body : token_data)
| TokenUnreachable (msg : string).       (* requests.post raises *)

(** The [Retry-After] header as [int(headers.get('Retry-After', '60'))]
    reads it: absent, an integer, or something [int] refuses. *)
Inductive retry_after :=
| NoHeader
| Seconds (n : Z)
| NotAnInteger.

(** The ["estimate"] object of a JSON answer. *)
Record estimate_json := {
  json_estimate_id : option string;
  json_estimate_number : option string;
  json_customer_name : option string
}.

(** A JSON value as the client reads it. *)
Inductive json_value :=
| JsonObject (estimate : option estimate_json)
      (* an object; [None]: it has no "estimate" *)
| JsonOther.
      (* a value that is not an object, or an object whose "estimate" is not
         one: [.get] raises AttributeError on the way to the identifiers *)

Record response := {
  status_code : Z;
  text : string;
  header_retry_after : retry_after;
  json : option json_value         (* [None]: the body is not JSON *)
}.

Inductive answer :=
| Answer (r : response)
| Unreachable (msg : string).            (* the request raises RequestException *)

(** [MAX_RETRIES] and [RETRY_STATUS_FORCELIST] of [config.py]. *)
Definition MAX_RETRIES : nat := 3.
Definition RETRY_STATUS_FORCELIST : list Z := [429; 500; 502; 503; 504]%Z.

(** The status of the answer is one the adapter of the session retries. *)
Definition forced (r : response) : bool :=
  existsb (Z.eqb (status_code r)) RETRY_STATUS_FORCELIST.

(** ** Payload of a new estimate *)

Record zoho_item := {
  name : string;
  item_description : string;
  rate : Q;
  quantity : Z
}.

Record payload := {
  customer_id : string;
  payload_date : string;
  payload_line_items : list zoho_item;
  notes : string;
  reference_number : option string;
  payload_email : option string;
  payload_phone : option string
}.

(** The three calls of the client, with what each sends. *)
Inductive operation :=
| CreateEstimate (p : payload)
| GetEstimate (id : option string)
| AttachPdf (id : option string) (file_name : string).

Record env := {
  clock : nat -> Q;                      (* the successive values of time.time() *)
  today : string;                        (* datetime.date.today().isoformat() *)
  strptime_date : string -> option string;
      (* datetime.strptime(s, "%B %d, %Y").date().isoformat(), None on ValueError *)
  str_cell : cell -> string;             (* str(x) for a cell that is not a string *)
  token_server : nat -> token_answer;    (* answers of the token endpoint, in turn *)
  server : nat -> answer;
      (* how each call of the estimates endpoint ends, in turn: the answer to
         the request of [requests.post]; for a call through the session, the
         answer to the last request its adapter sent for it *)
  resent : nat -> nat
      (* how many times the adapter sent the request of that call again
         before that; it stops at [MAX_RETRIES] *)
}.

Inductive event :=
| TokenRequest (refresh_token : string)
| TokenFileWritten (t : token_data)
| TokenFileRemoved
| ApiRequest (op : operation) (token : string)
| Slept (seconds : Z)
| Rewound.                               (* pdf_content.seek(0) *)

Record world := {
  file : token_file;
  clock_reads : nat;
  token_requests : nat;
  api_requests : nat;                    (* calls of the estimates endpoint made *)
  trace : list event                     (* latest first *)
}.

(** The requests sent to the estimates endpoint, the adapter's included. *)
Fixpoint sent (tr : list event) : nat :=
  match tr with
  | [] => 0
  | ApiRequest _ _ :: tr' => S (sent tr')
  | _ :: tr' => sent tr'
  end.

Definition http_requests (w : world) : nat := sent (trace w).

(** ** The monad of the client: state and exceptions *)

Inductive result (A : Type) : Type :=
| Return (a : A)
| Throw (e : api_exn).

Arguments Return {A} a.
Arguments Throw {A} e.

Definition M (A : Type) : Type := world -> result A * world.

Definition ret {A} (a : A) : M A := fun w => (Return a, w).

Definition throw {A} (e : api_exn) : M A := fun w => (Throw e, w).

Definition bind {A B} (m : M A) (k : A -> M B) : M B :=
  fun w =>
    match m w with
    | (Return a, w') => k a w'
    | (Throw e, w') => (Throw e, w')
    end.

(** [try: m except Exception as e: h e] *)
Definition catch {A} (m : M A) (h : api_exn -> M A) : M A :=
  fun w =>
    match m w with
    | (Return a, w') => (Return a, w')
    | (Throw e, w') => h e w'
    end.

Declare Scope api_scope.
Delimit Scope api_scope with api.
Notation "x <- m ;; k" := (bind m (fun x => k))
  (at level 61, m at next level, right associativity) : api_scope.
Notation "m ;;; k" := (bind m (fun _ => k))
  (at level 61, right associativity) : api_scope.
Local Open Scope api_scope.

Definition emit (e : event) : M unit :=
  fun w => (Return tt,
            {| file := file w; clock_reads := clock_reads w;
               token_requests := token_requests w; api_requests := api_requests w;
               trace := e :: trace w |}).

Definition set_file (f : token_file) : M unit :=
  fun w => (Return tt,
            {| file := f; clock_reads := clock_reads w;
               token_requests := token_requests w; api_requests := api_requests w;
               trace := trace w |}).

Definition get_file : M token_file := fun w => (Return (file w), w).

(** [time.time()] *)
Definition time (E : env) : M Q :=
  fun w => (Return (clock E (clock_reads w)),
            {| file := file w; clock_reads := S (clock_reads w);
               token_requests := token_requests w; api_requests := api_requests w;
               trace := trace w |}).

(** [time.sleep(n)]; a negative length is refused. *)
Definition sleep (n : Z) : M unit :=
  if Z.ltb n 0 then throw BadValue else emit (Slept n).

(** [requests.post(self.token_url, data=params)] *)
Definition post_token (E : env) (rt : string) : M token_answer :=
  fun w => (Return (token_server E (token_requests w)),
            {| file := file w; clock_reads := clock_reads w;
               token_requests := S (token_requests w); api_requests := api_requests w;
               trace := TokenRequest rt :: trace w |}).

(** [self.session.post], [self.session.get]: the call goes through the
    adapter; [requests.post] does not. *)
Definition through_session (op : operation) : bool :=
  match op with
  | CreateEstimate _ | GetEstimate _ => true
  | AttachPdf _ _ => false
  end.

(** What the [k]-th call of the estimates endpoint returns or raises.  The
    session never returns an answer with a status of the force list: its
    adapter raises instead. *)
Definition call (E : env) (op : operation) (k : nat) : result response :=
  match server E k with
  | Answer r =>
      if (through_session op && forced r)%bool
      then Throw (AdapterError (status_code r))
      else Return r
  | Unreachable msg => Throw (RequestException msg)
  end.

(** The requests the [k]-th call sends. *)
Definition requests_of (E : env) (op : operation) (k : nat) : nat :=
  if through_session op then S (Nat.min (resent E k) MAX_RETRIES) else 1.

(** A call of the estimates endpoint: [self.session.post(...)],
    [self.session.get(...)] or [requests.post(...)]. *)
Definition request (E : env) (op : operation) (token : string) : M response :=
  fun w =>
    (call E op (api_requests w),
     {| file := file w; clock_reads := clock_reads w;
        token_requests := token_requests w; api_requests := S (api_requests w);
        trace := (repeat (ApiRequest op token) (requests_of E op (api_requests w))
                  ++ trace w)%list |}).

(** ** [TokenManager] *)

(** [_load_token_data()], lines 153-180. *)
Definition load_token_data : M (option token_data) :=
  f <- get_file ;;
  match f with
  | Stored t => ret (Some t)
  | NoFile | Undecodable => ret None
  end.

Definition with_expires_at (t : token_data) (at_ : Q) : token_data :=
  {| access_token := access_token t; refresh_token := refresh_token t;
     expires_in := expires_in t; expires_at := Some at_; other_keys := other_keys t |}.

Definition with_refresh_token (t : token_data) (rt : string) : token_data :=
  {| access_token := access_token t; refresh_token := Some rt;
     expires_in := expires_in t; expires_at := expires_at t; other_keys := other_keys t |}.

(** [_save_token_data(token_data)], lines 128-151: the dict as the call
    leaves it (the expiry is written into the caller's dict). *)
Definition save_token_data (E : env) (t : token_data) : M token_data :=
  t' <- match expires_in t with
        | Some n => now <- time E ;; ret (with_expires_at t (now + n)%Q)
        | None => ret t
        end ;;
  set_file (Stored t') ;;;
  emit (TokenFileWritten t') ;;;
  ret t'.

(** [_refresh_token(refresh_token)], lines 99-126.  The answer with status
    200 is taken to hold a JSON object. *)
Definition refresh_token_call (E : env) (rt : string) : M token_data :=
  a <- post_token E rt ;;
  match a with
  | TokenUnreachable msg =>
      throw (Failure ("Network error while refreshing token: " ++ msg))
  | TokenAnswer status text body =>
      if negb (Z.eqb status 200)
      then throw (Failure ("Failed to refresh token: " ++ text))
      else
        let token_data :=
          match refresh_token body with
          | None => with_refresh_token body rt
          | Some _ => body
          end in
        save_token_data E token_data
  end.

Definition no_token_data : string :=
  "No token data found. Please run the authorization process.".
Definition no_refresh_token : string :=
  "No refresh token available. Please run the authorization process again.".
Definition refresh_token_invalid : string :=
  "Refresh token is invalid. Please run the authorization process again.".

(** [token_data['access_token']] *)
Definition access_token_of (t : token_data) : M string :=
  match access_token t with
  | Some a => ret a
  | None => throw (KeyError "access_token")
  end.

(** [get_access_token()], lines 41-67. *)
Definition get_access_token (E : env) : M string :=
  token_data <- load_token_data ;;
  match token_data with
  | None => throw (Failure no_token_data)
  | Some t =>
      if is_empty t then throw (Failure no_token_data)
      else
        current_time <- time E ;;
        let stale :=
          match expires_at t with
          | None => true
          | Some at_ => Qle_bool (at_ - 300)%Q current_time
          end in
        if stale then
          match refresh_token t with
          | None => throw (Failure no_refresh_token)
          | Some rt =>
              t' <- catch (refresh_token_call E rt)
                      (fun e =>
                         if PyStr.contains "invalid_grant" (PyStr.lower (message e))
                         then throw (Failure refresh_token_invalid)
                         else throw e) ;;
              access_token_of t'
          end
        else access_token_of t
  end.

(** [clear_tokens()], lines 192-198. *)
Definition clear_tokens : M bool :=
  f <- get_file ;;
  match f with
  | NoFile => ret false
  | Undecodable | Stored _ => set_file NoFile ;;; emit TokenFileRemoved ;;; ret true
  end.

End Api.

Module Zoho.

Import Api.
Local Open Scope api_scope.

(** [max_attempts = 3] *)
Definition max_attempts : nat := 3.

(** How one pass of a retry loop ends: [return a], or [continue]. *)
Inductive step (A : Type) : Type :=
| Done (a : A)
| Continue.

Arguments Done {A} a.
Arguments Continue {A}.

(** [try: m except requests.RequestException as e: h e] *)
Definition catch_request {A} (m : M A) (h : api_exn -> M A) : M A :=
  catch m (fun e => if is_request_exception e then h e else throw e).

(** [for attempt in range(1, max_attempts + 1): ...] followed by the [raise]
    after the loop. *)
Fixpoint attempts {A} (body : nat -> M (step A)) (what : string)
    (remaining attempt : nat) : M A :=
  match remaining with
  | O => throw (Exhausted what)
  | S remaining' =>
      s <- body attempt ;;
      match s with
      | Done a => ret a
      | Continue => attempts body what remaining' (S attempt)
      end
  end.

(** [self._get_headers()]: the access token of the Authorization header. *)
Definition get_headers (E : env) : M string := get_access_token E.

(** [int(response.headers.get('Retry-After', '60'))] *)
Definition retry_after_seconds (r : response) : M Z :=
  match header_retry_after r with
  | NoHeader => ret 60%Z
  | Seconds n => ret n
  | NotAnInteger => throw BadValue
  end.

Definition may_retry (attempt : nat) : bool := Nat.ltb attempt max_attempts.

(** The answers a loop retries: 401 and 429 before the last attempt; every
    other answer that is not a success raises.  [before_retry] is what the
    loop does between the handling and [continue]. *)
Definition retry_or_raise {A} (r : response) (attempt : nat) (before_retry : M unit)
  : M (step A) :=
  if (Z.eqb (status_code r) 401 && may_retry attempt)%bool then
    clear_tokens ;;; before_retry ;;; ret Continue
  else if (Z.eqb (status_code r) 429 && may_retry attempt)%bool then
    retry_after <- retry_after_seconds r ;;
    sleep retry_after ;;; before_retry ;;; ret Continue
  else throw (HttpFailure (status_code r) (text r)).

(** The handler of [requests.RequestException] in the three loops. *)
Definition on_request_exception {A} (attempt : nat) (before_retry : M unit)
    (e : api_exn) : M (step A) :=
  if may_retry attempt then sleep 5 ;;; before_retry ;;; ret Continue
  else throw e.

(** *** [create_estimate] *)

(** [str(row[...])] *)
Definition py_str (E : env) (c : cell) : string :=
  match c with
  | CStr x => x
  | _ => str_cell E c
  end.

(** Lines 101-109: one row of the DataFrame. *)
Definition line_item_of (E : env) (row : line_item) : zoho_item :=
  {| name := py_str E (item row);
     item_description := py_str E (description row);
     rate := Unit_Price row;
     quantity := Quantity row |}.

(** [CUSTOMER_ID] of [config.py]. *)
Definition CUSTOMER_ID : string := "5547048000000150663".

(** Lines 100-144: the payload. *)
Definition build_payload (E : env) (df : list line_item)
    (info : option customer_info) : payload :=
  let line_items := map (line_item_of E) df in
  match info with
  | None =>
      {| customer_id := CUSTOMER_ID;
         payload_date := today E;
         payload_line_items := line_items;
         notes := "Automatically created from Google Drive estimate";
         reference_number := None;
         payload_email := None;
         payload_phone := None |}
  | Some customer_info =>
      {| customer_id := CUSTOMER_ID;
         payload_date :=
           match strptime_date E (date customer_info) with
           | Some iso => iso
           | None => today E
           end;
         payload_line_items := line_items;
         notes := "Estimate for " ++ customer_name customer_info ++
                  ". Automatically created from PDF.";
         reference_number := Some (estimate_number customer_info);
         payload_email := email customer_info;
         payload_phone := phone customer_info |}
  end.

(** [response.json()] *)
Definition response_json (r : response) : M json_value :=
  match json r with
  | Some v => ret v
  | None => throw JSONDecodeError
  end.

(** The two identifiers of the ["estimate"] object, [None] for those it
    lacks and when there is no such object. *)
Definition ids_of (j : option estimate_json) : option string * option string :=
  match j with
  | Some e => (json_estimate_id e, json_estimate_number e)
  | None => (None, None)
  end.

(** [estimate_data.get('estimate', {}).get(key)] for the two keys. *)
Definition estimate_ids (estimate_data : json_value)
  : M (option string * option string) :=
  match estimate_data with
  | JsonObject j => ret (ids_of j)
  | JsonOther => throw NoAttribute
  end.

(** Lines 148-189: one pass of the loop. *)
Definition create_attempt (E : env) (p : payload) (attempt : nat)
  : M (step (option string * option string)) :=
  catch_request
    (token <- get_headers E ;;
     response <- request E (CreateEstimate p) token ;;
     if Z.eqb (status_code response) 201
     then
       estimate_data <- response_json response ;;
       ids <- estimate_ids estimate_data ;;
       ret (Done ids)
     else retry_or_raise response attempt (ret tt))
    (on_request_exception attempt (ret tt)).

(** [create_estimate(df, customer_info)]; the outer handler logs and raises
    again. *)
Definition create_estimate (E : env) (df : list line_item)
    (info : option customer_info) : M (option string * option string) :=
  catch
    (attempts (create_attempt E (build_payload E df info)) "create estimate"
       max_attempts 1)
    throw.

(** *** [attach_pdf_to_estimate] *)

(** Lines 210-257: one pass of the loop; the file is rewound before every
    retry. *)
Definition attach_attempt (E : env) (id : option string) (file_name : string)
    (attempt : nat) : M (step bool) :=
  catch_request
    (token <- get_headers E ;;
     response <- request E (AttachPdf id file_name) token ;;
     if (Z.eqb (status_code response) 201 || Z.eqb (status_code response) 200)%bool
     then ret (Done true)
     else retry_or_raise response attempt (emit Rewound))
    (on_request_exception attempt (emit Rewound)).

Definition attach_pdf_to_estimate (E : env) (id : option string) (file_name : string)
  : M bool :=
  catch (attempts (attach_attempt E id file_name) "attach PDF" max_attempts 1) throw.

(** *** [get_estimate] *)

(** Lines 272-313: one pass of the loop; a 404 ends it with [None]. *)
Definition get_attempt (E : env) (id : option string) (attempt : nat)
  : M (step (option json_value)) :=
  catch_request
    (token <- get_headers E ;;
     response <- request E (GetEstimate id) token ;;
     if Z.eqb (status_code response) 200
     then estimate_data <- response_json response ;; ret (Done (Some estimate_data))
     else if (Z.eqb (status_code response) 401 && may_retry attempt)%bool
          || (Z.eqb (status_code response) 429 && may_retry attempt)%bool
     then retry_or_raise response attempt (ret tt)
     else if Z.eqb (status_code response) 404
     then ret (Done None)
     else throw (HttpFailure (status_code response) (text response)))
    (on_request_exception attempt (ret tt)).

(** [get_estimate(estimate_id)], lines 265-319; the outer handler logs and
    raises again. *)
Definition get_estimate (E : env) (id : option string)
  : M (option json_value) :=
  catch (attempts (get_attempt E id) "get estimate" max_attempts 1) throw.

End Zoho.


(** ** The PDF workflow ([sync_estimates_new.py]) *)

Module Sync.

Import Api Zoho.

(** An entry of the Drive folder: [{'id': ..., 'name': ...}]. *)
Record drive_file := {
  file_id : string;
  file_name : string
}.

(** The Drive as the workflow meets it: what its calls return or raise. *)
Record drive := {
  get_latest_pdf_file : result (option drive_file);
  download_file : string -> result pdf_content;
  move_succeeds : string -> bool
      (* [move_file_to_processed] catches what its requests raise and
         returns [False] *)
}.

(** A call of [move_file_to_processed(id, name)] with what it returned. *)
Inductive drive_event :=
| MoveToProcessed (id name : string) (moved : bool).

(** The client's world and the moves asked of the Drive, latest first.  The
    client holds no reference to the Drive manager, and conversely. *)
Record state := {
  api : world;
  drive_log : list drive_event
}.

Definition Run (A : Type) : Type := state -> result A * state.

Definition sret {A} (a : A) : Run A := fun s => (Return a, s).

Definition sbind {A B} (m : Run A) (k : A -> Run B) : Run B :=
  fun s =>
    match m s with
    | (Return a, s') => k a s'
    | (Throw e, s') => (Throw e, s')
    end.

Declare Scope sync_scope.
Delimit Scope sync_scope with sync.
Notation "x <- m ;; k" := (sbind m (fun x => k))
  (at level 61, m at next level, right associativity) : sync_scope.
Notation "m ;;; k" := (sbind m (fun _ => k))
  (at level 61, right associativity) : sync_scope.
Local Open Scope sync_scope.

(** A call of the client. *)
Definition on_api {A} (m : M A) : Run A :=
  fun s =>
    let (r, w') := m (api s) in
    (r, {| api := w'; drive_log := drive_log s |}).

(** A call of the Drive that changes nothing. *)
Definition on_drive {A} (r : result A) : Run A := fun s => (r, s).

Definition move_file_to_processed (D : drive) (id name : string) : Run bool :=
  fun s =>
    (Return (move_succeeds D id),
     {| api := api s;
        drive_log := MoveToProcessed id name (move_succeeds D id) :: drive_log s |}).

(** Truthiness of [estimate_id]. *)
Definition given_id (estimate_id : option string) : bool :=
  match estimate_id with
  | Some (String _ _) => true
  | _ => false
  end.

(** What lines 127-144 send: the estimate built from the PDF. *)
Definition estimate_of_pdf (E : env) (pdf_content : pdf_content)
  : M (option string * option string) :=
  create_estimate E (extract_line_items pdf_content)
    (Some (extract_customer_info pdf_content)).

(** [process_pdf_file(drive_manager, zoho_api, estimate_id, no_move)], lines
    100-163. *)
Definition process_pdf_file (E : env) (D : drive) (estimate_id : option string)
    (no_move : bool) : Run (option string) :=
  pdf_file <- on_drive (get_latest_pdf_file D) ;;
  match pdf_file with
  | None => sret None
  | Some f =>
      pdf_content <- on_drive (download_file D (file_id f)) ;;
      estimate_id <-
        (if given_id estimate_id then sret estimate_id
         else
           on_api (emit Rewound) ;;;
           ids <- on_api (estimate_of_pdf E pdf_content) ;;
           sret (fst ids)) ;;
      on_api (emit Rewound) ;;;
      on_api (attach_pdf_to_estimate E estimate_id (file_name f)) ;;;
      (if no_move then sret tt
       else move_file_to_processed D (file_id f) (file_name f) ;;; sret tt) ;;;
      sret estimate_id
  end.

End Sync.

(** ** Properties of the token manager *)

Module TokenFacts.

Import Api.
Local Open Scope api_scope.

Lemma bind_eq {A B} (m : M A) (k : A -> M B) (w : world) :
  bind m k w = match m w with
               | (Return a, w') => k a w'
               | (Throw e, w') => (Throw e, w')
               end.
Proof. reflexivity. Qed.

Lemma catch_eq {A} (m : M A) (h : api_exn -> M A) (w : world) :
  catch m h w = match m w with
                | (Return a, w') => (Return a, w')
                | (Throw e, w') => h e w'
                end.
Proof. reflexivity. Qed.

(** What [_save_token_data] leaves behind. *)
Lemma save_token_data_spec (E : env) (t : token_data) (w : world) :
  exists t',
    save_token_data E t w =
      (Return t',
       {| file := Stored t';
          clock_reads := match expires_in t with
                         | Some _ => S (clock_reads w)
                         | None => clock_reads w
                         end;
          token_requests := token_requests w;
          api_requests := api_requests w;
          trace := TokenFileWritten t' :: trace w |}) /\
    t' = match expires_in t with
         | Some n => with_expires_at t (clock E (clock_reads w) + n)%Q
         | None => t
         end.
Proof.
  unfold save_token_data, bind, ret, time, set_file, emit.
  destruct (expires_in t) as [n|]; simpl; eexists; split; reflexivity.
Qed.

(** The dict [_refresh_token] saves when the answer is [body]. *)
Definition refreshed (rt : string) (body : token_data) : token_data :=
  match refresh_token body with
  | None => with_refresh_token body rt
  | Some _ => body
  end.

Lemma refresh_token_call_eq (E : env) (rt : string) (w : world) :
  refresh_token_call E rt w =
    let w1 := {| file := file w; clock_reads := clock_reads w;
                 token_requests := S (token_requests w);
                 api_requests := api_requests w;
                 trace := TokenRequest rt :: trace w |} in
    match token_server E (token_requests w) with
    | TokenUnreachable msg =>
        (Throw (Failure ("Network error while refreshing token: " ++ msg)), w1)
    | TokenAnswer status text body =>
        if Z.eqb status 200 then save_token_data E (refreshed rt body) w1
        else (Throw (Failure ("Failed to refresh token: " ++ text)), w1)
    end.
Proof.
  unfold refresh_token_call, post_token. rewrite bind_eq. cbv zeta.
  destruct (token_server E (token_requests w)) as [status txt body|msg];
    [|reflexivity].
  destruct (Z.eqb status 200); reflexivity.
Qed.

Lemma refresh_token_call_spec (E : env) (rt : string) (w : world) :
  api_requests (snd (refresh_token_call E rt w)) = api_requests w /\
  (forall t', fst (refresh_token_call E rt w) = Return t' ->
     file (snd (refresh_token_call E rt w)) = Stored t') /\
  (forall e, fst (refresh_token_call E rt w) = Throw e ->
     file (snd (refresh_token_call E rt w)) = file w /\ exists msg, e = Failure msg).
Proof.
  rewrite refresh_token_call_eq. cbv zeta.
  destruct (token_server E (token_requests w)) as [status txt body|msg].
  - destruct (Z.eqb status 200).
    + match goal with
      | |- context [save_token_data E ?t ?w0] =>
          destruct (save_token_data_spec E t w0) as (t' & -> & _)
      end.
      cbn [fst snd file api_requests]. split; [reflexivity|]. split.
      * intros t'' H. injection H as <-. reflexivity.
      * intros e H. discriminate H.
    + cbn [fst snd file api_requests]. split; [reflexivity|]. split.
      * intros t' H. discriminate H.
      * intros e H. injection H as <-. split; [reflexivity | eauto].
  - cbn [fst snd file api_requests]. split; [reflexivity|]. split.
    + intros t' H. discriminate H.
    + intros e H. injection H as <-. split; [reflexivity | eauto].
Qed.

(** [get_access_token] with nothing to read raises at once. *)
Lemma get_access_token_no_file (E : env) (w : world) :
  file w = NoFile -> get_access_token E w = (Throw (Failure no_token_data), w).
Proof.
  intros F. unfold get_access_token, load_token_data, get_file.
  rewrite !bind_eq. rewrite F. reflexivity.
Qed.

(** The exceptions of [get_access_token]: never a [RequestException]. *)
Definition token_error (e : api_exn) : Prop :=
  e = KeyError "access_token" \/ exists msg, e = Failure msg.

Lemma access_token_of_spec (t : token_data) (w : world) :
  snd (access_token_of t w) = w /\
  (forall tok, fst (access_token_of t w) = Return tok -> access_token t = Some tok) /\
  (forall e, fst (access_token_of t w) = Throw e -> token_error e).
Proof.
  unfold access_token_of, ret, throw, token_error.
  destruct (access_token t) as [a|]; cbn [fst snd].
  - split; [reflexivity|]. split.
    + intros tok H. injection H as <-. reflexivity.
    + intros e H. discriminate H.
  - split; [reflexivity|]. split.
    + intros tok H. discriminate H.
    + intros e H. injection H as <-. left. reflexivity.
Qed.

(** Whatever [get_access_token] does, it sends nothing to the estimates
    endpoint; when it returns a token the token file holds that token; and
    what it raises is a [token_error]. *)
Definition token_post (w : world) (p : result string * world) : Prop :=
  api_requests (snd p) = api_requests w /\
  (forall tok, fst p = Return tok ->
     exists t, file (snd p) = Stored t /\ access_token t = Some tok) /\
  (forall e, fst p = Throw e -> token_error e).

Lemma token_post_throw (w w0 : world) (msg : string) :
  api_requests w0 = api_requests w -> token_post w (Throw (Failure msg), w0).
Proof.
  intros Ha. unfold token_post. cbn [fst snd]. split; [exact Ha|]. split.
  - intros tok H. discriminate H.
  - intros e H. injection H as <-. right. eauto.
Qed.

Lemma token_post_access (w w0 : world) (t0 : token_data) :
  api_requests w0 = api_requests w -> file w0 = Stored t0 ->
  token_post w (access_token_of t0 w0).
Proof.
  intros Ha Hf. unfold token_post.
  destruct (access_token_of_spec t0 w0) as (S1 & S2 & S3).
  rewrite S1. split; [exact Ha|]. split; [|exact S3].
  intros tok H. exists t0. split; [exact Hf | exact (S2 tok H)].
Qed.

Lemma get_access_token_spec (E : env) (w : world) :
  token_post w (get_access_token E w).
Proof.
  unfold get_access_token, load_token_data, get_file. rewrite !bind_eq.
  destruct (file w) as [| |t] eqn:F.
  1,2: apply token_post_throw; reflexivity.
  unfold ret at 1. cbv beta iota.
  destruct (is_empty t); [apply token_post_throw; reflexivity|].
  rewrite bind_eq. unfold time. cbv beta iota.
  match goal with
  | |- context [if ?c then _ else _] => destruct c
  end.
  - destruct (refresh_token t) as [rt|]; [|apply token_post_throw; reflexivity].
    rewrite bind_eq, catch_eq.
    match goal with
    | |- context [refresh_token_call E rt ?w0] =>
        destruct (refresh_token_call_spec E rt w0) as (H1 & H2 & H3);
        destruct (refresh_token_call E rt w0) as [[t'|e] w2]
    end; cbn [fst snd api_requests] in *.
    + apply token_post_access; [exact H1 | exact (H2 t' eq_refl)].
    + destruct (H3 e eq_refl) as (_ & msg & ->).
      destruct (PyStr.contains _ _); apply token_post_throw; exact H1.
  - apply token_post_access; [reflexivity | exact F].
Qed.

(** The token manager sends nothing to the estimates endpoint. *)
Lemma refresh_token_call_sent (E : env) (rt : string) (w : world) :
  http_requests (snd (refresh_token_call E rt w)) = http_requests w.
Proof.
  rewrite refresh_token_call_eq. cbv zeta.
  destruct (token_server E (token_requests w)) as [status txt body|msg];
    [|reflexivity].
  destruct (Z.eqb status 200); [|reflexivity].
  match goal with
  | |- context [save_token_data E ?t ?w0] =>
      destruct (save_token_data_spec E t w0) as (t' & -> & _)
  end.
  reflexivity.
Qed.

Lemma get_access_token_sent (E : env) (w : world) :
  http_requests (snd (get_access_token E w)) = http_requests w.
Proof.
  unfold get_access_token, load_token_data, get_file. rewrite !bind_eq.
  destruct (file w) as [| |t] eqn:F.
  1,2: reflexivity.
  unfold ret at 1. cbv beta iota.
  destruct (is_empty t); [reflexivity|].
  rewrite bind_eq. unfold time. cbv beta iota.
  match goal with
  | |- context [if ?c then _ else _] => destruct c
  end.
  - destruct (refresh_token t) as [rt|]; [|reflexivity].
    rewrite bind_eq, catch_eq.
    match goal with
    | |- context [refresh_token_call E rt ?w0] =>
        pose proof (refresh_token_call_sent E rt w0) as H1;
        destruct (refresh_token_call E rt w0) as [[t'|e] w2]
    end; cbn [fst snd] in *.
    + destruct (access_token_of_spec t' w2) as (S1 & _). rewrite S1. exact H1.
    + destruct (PyStr.contains _ _); exact H1.
  - match goal with
    | |- context [access_token_of t ?w0] =>
        destruct (access_token_of_spec t w0) as (S1 & _); rewrite S1
    end.
    reflexivity.
Qed.

(** [expires_at] is missing, or no more than five minutes ahead of [now]. *)
Definition stale (t : token_data) (now : Q) : bool :=
  match expires_at t with
  | Some at_ => Qle_bool (at_ - 300)%Q now
  | None => true
  end.

Lemma has_refresh_token_not_empty (t : token_data) (rt : string) :
  refresh_token t = Some rt -> is_empty t = false.
Proof.
  intros H. unfold is_empty. rewrite H. destruct (access_token t); reflexivity.
Qed.

(** [get_access_token] on a stored dict that has to be refreshed. *)
Lemma get_access_token_stale (E : env) (w : world) (t : token_data) (rt : string) :
  file w = Stored t ->
  refresh_token t = Some rt ->
  stale t (clock E (clock_reads w)) = true ->
  get_access_token E w =
    (t' <- catch (refresh_token_call E rt)
             (fun e =>
                if PyStr.contains "invalid_grant" (PyStr.lower (message e))
                then throw (Failure refresh_token_invalid)
                else throw e) ;;
     access_token_of t')
      {| file := file w; clock_reads := S (clock_reads w);
         token_requests := token_requests w; api_requests := api_requests w;
         trace := trace w |}.
Proof.
  intros F R S. unfold get_access_token, load_token_data, get_file.
  rewrite (bind_eq (bind _ _)). rewrite (bind_eq (fun w0 => _)). cbv beta iota.
  rewrite F. unfold ret at 1. cbv beta iota.
  rewrite (has_refresh_token_not_empty _ _ R).
  rewrite (bind_eq (time E)). unfold time. cbv beta iota.
  unfold stale in S. rewrite S, R. rewrite <- F. reflexivity.
Qed.

(** [get_access_token] on a stored dict that is still good. *)
Lemma get_access_token_fresh (E : env) (w : world) (t : token_data) (a : string) :
  file w = Stored t ->
  access_token t = Some a ->
  stale t (clock E (clock_reads w)) = false ->
  get_access_token E w =
    (Return a,
     {| file := file w; clock_reads := S (clock_reads w);
        token_requests := token_requests w; api_requests := api_requests w;
        trace := trace w |}).
Proof.
  intros F A S. unfold get_access_token, load_token_data, get_file.
  rewrite (bind_eq (bind _ _)). rewrite (bind_eq (fun w0 => _)). cbv beta iota.
  rewrite F. unfold ret at 1. cbv beta iota.
  assert (N : is_empty t = false) by (unfold is_empty; rewrite A; reflexivity).
  rewrite N.
  rewrite (bind_eq (time E)). unfold time. cbv beta iota.
  unfold stale in S. rewrite S. unfold access_token_of. rewrite A.
  rewrite <- F. reflexivity.
Qed.

Lemma lower_app (a b : string) :
  PyStr.lower (a ++ b) = PyStr.lower a ++ PyStr.lower b.
Proof.
  induction a as [|c a IH]; [reflexivity|]. cbn [append PyStr.lower].
  rewrite IH. reflexivity.
Qed.

Lemma contains_app_r (needle a b : string) :
  PyStr.contains needle b = true -> PyStr.contains needle (a ++ b) = true.
Proof.
  intros H. induction a as [|c a IH]; [exact H|].
  cbn [append PyStr.contains]. rewrite IH. apply orb_true_r.
Qed.

(** *** Sample runs *)

(** A stored token with a refresh token and, possibly, an expiry. *)
Definition stored_token (a : string) (at_ : option Q) : token_data :=
  {| access_token := Some a; refresh_token := Some "refresh-1";
     expires_in := None; expires_at := at_; other_keys := false |}.

(** An outside whose clock reads 1000, 1001, ... and whose two endpoints
    answer as given. *)
Definition outside (ts : nat -> token_answer) (sv : nat -> answer) : env :=
  {| clock := fun k => inject_Z (1000 + Z.of_nat k);
     today := "2025-05-15";
     strptime_date := fun _ => None;
     str_cell := fun _ => EmptyString;
     token_server := ts;
     server := sv;
     resent := fun _ => 0 |}.

(** The state before a run: the token file holds [t], nothing was sent. *)
Definition holding (t : token_data) : world :=
  {| file := Stored t; clock_reads := 0; token_requests := 0;
     api_requests := 0; trace := [] |}.

Definition new_token : token_data :=
  {| access_token := Some "access-2"; refresh_token := None;
     expires_in := Some 3600%Q; expires_at := None; other_keys := false |}.

Definition granting : env :=
  outside (fun _ => TokenAnswer 200 "ok" new_token) (fun _ => Unreachable "down").

Definition refusing : env :=
  outside (fun _ => TokenAnswer 400 "{'error': 'Invalid_Grant'}" new_token)
          (fun _ => Unreachable "down").

(** X12: after [clear_tokens], whatever the token file held,
    [get_access_token] raises "No token data found" and changes nothing
    more: it sends no request to the token endpoint and leaves the file
    absent. *)
Theorem cleared_tokens_need_authorization (E : env) (w : world) :
  file (snd (clear_tokens w)) = NoFile /\
  get_access_token E (snd (clear_tokens w)) =
    (Throw (Failure no_token_data), snd (clear_tokens w)).
Proof.
  assert (F : file (snd (clear_tokens w)) = NoFile).
  { unfold clear_tokens, get_file. rewrite bind_eq. cbv beta iota.
    destruct (file w) eqn:Fw; [exact Fw | reflexivity | reflexivity]. }
  split; [exact F|]. apply get_access_token_no_file. exact F.
Qed.

(** X13: a refresh that succeeds is written back and reused.  When the
    stored token is stale and the token endpoint answers 200 with an access
    token and a lifetime, [get_access_token] returns the new access token
    after one token request; the file then holds the answer with
    [expires_at] set to the time of saving plus the lifetime, and with the
    old refresh token when the answer brings none; and the next call, made
    more than five minutes before that expiry, returns the same token
    without any further token request and leaves the file as it is. *)
Theorem refreshed_token_is_reused (E : env) (w : world) (t : token_data)
    (rt txt a : string) (body : token_data) (n : Q) :
  file w = Stored t ->
  refresh_token t = Some rt ->
  stale t (clock E (clock_reads w)) = true ->
  token_server E (token_requests w) = TokenAnswer 200 txt body ->
  access_token body = Some a ->
  expires_in body = Some n ->
  Qle_bool (clock E (S (clock_reads w)) + n - 300)%Q (clock E (S (S (clock_reads w))))
    = false ->
  let w1 := snd (get_access_token E w) in
  let t1 := with_expires_at (refreshed rt body) (clock E (S (clock_reads w)) + n)%Q in
  fst (get_access_token E w) = Return a /\
  token_requests w1 = S (token_requests w) /\
  file w1 = Stored t1 /\
  refresh_token t1 = Some (match refresh_token body with Some x => x | None => rt end) /\
  fst (get_access_token E w1) = Return a /\
  token_requests (snd (get_access_token E w1)) = token_requests w1 /\
  file (snd (get_access_token E w1)) = file w1.
Proof.
  intros F R St TS A N Fresh w1 t1.
  assert (G : get_access_token E w =
              (Return a,
               {| file := Stored t1; clock_reads := S (S (clock_reads w));
                  token_requests := S (token_requests w);
                  api_requests := api_requests w;
                  trace := TokenFileWritten t1 :: TokenRequest rt :: trace w |})).
  { rewrite (get_access_token_stale E w t rt F R St).
    rewrite bind_eq, catch_eq, refresh_token_call_eq. cbv zeta.
    cbn [token_requests]. rewrite TS. cbn [Z.eqb Pos.eqb].
    match goal with
    | |- context [save_token_data E ?t0 ?w0] =>
        destruct (save_token_data_spec E t0 w0) as (t' & -> & Et')
    end.
    assert (N' : expires_in (refreshed rt body) = Some n).
    { unfold refreshed. destruct (refresh_token body); [exact N|]. exact N. }
    rewrite N' in Et' |- *. cbn [clock_reads] in Et'. subst t'. fold t1.
    cbn [clock_reads token_requests api_requests trace].
    unfold access_token_of.
    assert (A1 : access_token t1 = Some a).
    { unfold t1, with_expires_at, refreshed. cbn [access_token].
      destruct (refresh_token body); exact A. }
    rewrite A1. reflexivity. }
  subst w1. rewrite G. cbn [fst snd].
  split; [reflexivity|]. split; [reflexivity|]. split; [reflexivity|]. split.
  { unfold t1, with_expires_at, refreshed. cbn [refresh_token].
    destruct (refresh_token body) eqn:RB; [exact RB | reflexivity]. }
  match goal with
  | |- context [get_access_token E ?w0] =>
      rewrite (get_access_token_fresh E w0 t1 a)
  end.
  - cbn [fst snd token_requests file]. split; [reflexivity|]. split; reflexivity.
  - reflexivity.
  - unfold t1, with_expires_at, refreshed. cbn [access_token].
    destruct (refresh_token body); exact A.
  - unfold stale, t1, with_expires_at. cbn [expires_at clock_reads]. exact Fresh.
Qed.

Lemma refreshed_token_is_reused_witness :
  let w := holding (stored_token "access-1" (Some 1000%Q)) in
  let w1 := snd (get_access_token granting w) in
  fst (get_access_token granting w) = Return "access-2" /\
  token_requests w1 = 1 /\
  file w1 = Stored (with_expires_at (refreshed "refresh-1" new_token) (1001 + 3600)%Q) /\
  refresh_token (with_expires_at (refreshed "refresh-1" new_token) (1001 + 3600)%Q)
    = Some "refresh-1" /\
  fst (get_access_token granting w1) = Return "access-2" /\
  token_requests (snd (get_access_token granting w1)) = token_requests w1 /\
  file (snd (get_access_token granting w1)) = file w1.
Proof.
  exact (refreshed_token_is_reused granting
           (holding (stored_token "access-1" (Some 1000%Q)))
           (stored_token "access-1" (Some 1000%Q)) "refresh-1" "ok" "access-2"
           new_token 3600%Q
           eq_refl eq_refl eq_refl eq_refl eq_refl eq_refl eq_refl).
Defined.

(** X14: a refresh the token endpoint refuses with "invalid_grant" in its
    answer, in any letter case, or that fails on the network with such a
    message, makes [get_access_token] raise "Refresh token is invalid"; the
    token file is left as it was. *)
Theorem invalid_grant_asks_for_authorization (E : env) (w : world)
    (t : token_data) (rt : string) :
  file w = Stored t ->
  refresh_token t = Some rt ->
  stale t (clock E (clock_reads w)) = true ->
  match token_server E (token_requests w) with
  | TokenAnswer status txt _ =>
      status <> 200%Z /\ PyStr.contains "invalid_grant" (PyStr.lower txt) = true
  | TokenUnreachable msg => PyStr.contains "invalid_grant" (PyStr.lower msg) = true
  end ->
  fst (get_access_token E w) = Throw (Failure refresh_token_invalid) /\
  file (snd (get_access_token E w)) = Stored t /\
  token_requests (snd (get_access_token E w)) = S (token_requests w).
Proof.
  intros F R St TS.
  rewrite (get_access_token_stale E w t rt F R St).
  rewrite bind_eq, catch_eq, refresh_token_call_eq. cbv zeta.
  cbn [token_requests].
  destruct (token_server E (token_requests w)) as [status txt body|msg].
  - destruct TS as [NS C]. apply Z.eqb_neq in NS. rewrite NS.
    cbn [message]. rewrite lower_app, (contains_app_r _ _ _ C).
    unfold throw. cbn [fst snd file token_requests].
    split; [reflexivity|]. split; [exact F | reflexivity].
  - cbn [message]. rewrite lower_app, (contains_app_r _ _ _ TS).
    unfold throw. cbn [fst snd file token_requests].
    split; [reflexivity|]. split; [exact F | reflexivity].
Qed.

Lemma invalid_grant_asks_for_authorization_witness :
  let w := holding (stored_token "access-1" None) in
  fst (get_access_token refusing w) = Throw (Failure refresh_token_invalid) /\
  file (snd (get_access_token refusing w)) = Stored (stored_token "access-1" None) /\
  token_requests (snd (get_access_token refusing w)) = 1.
Proof.
  apply (invalid_grant_asks_for_authorization refusing
           (holding (stored_token "access-1" None))
           (stored_token "access-1" None) "refresh-1");
    [reflexivity | reflexivity | reflexivity |].
  split; [discriminate | reflexivity].
Defined.

End TokenFacts.

(** ** Properties of the retry loops *)

Module ZohoFacts.

Import Api Zoho TokenFacts.
Local Open Scope api_scope.

Lemma catch_throw {A} (m : M A) (w : world) : catch m throw w = m w.
Proof.
  rewrite catch_eq. destruct (m w) as [[a|e] w']; reflexivity.
Qed.

(** An answer after which a loop may try again without losing the token. *)
Definition soft (a : answer) : bool :=
  match a with
  | Unreachable _ => true
  | Answer r => Z.eqb (status_code r) 429
  end.

Lemma may_retry_lt (i : nat) : may_retry i = true -> i < 3.
Proof. unfold may_retry, max_attempts. apply Nat.ltb_lt. Qed.

Lemma may_retry_last (i : nat) : i <= 3 -> may_retry i = false -> i = 3.
Proof.
  unfold may_retry, max_attempts. intros L H. apply Nat.ltb_ge in H. lia.
Qed.

Lemma clear_tokens_spec (w : world) :
  exists b w', clear_tokens w = (Return b, w') /\ file w' = NoFile /\
               api_requests w' = api_requests w /\
               http_requests w' = http_requests w.
Proof.
  unfold clear_tokens, get_file. rewrite bind_eq. cbv beta iota.
  destruct (file w) eqn:F; [exists false, w | exists true; eexists ..];
    (split; [reflexivity|]);
    [split; [exact F | split; reflexivity] | split; [reflexivity | split; reflexivity] ..].
Qed.

Lemma sent_repeat (op : operation) (token : string) (n : nat) (tr : list event) :
  sent (repeat (ApiRequest op token) n ++ tr) = n + sent tr.
Proof.
  induction n as [|n IH]; [reflexivity|]. cbn [repeat app sent]. rewrite IH. lia.
Qed.

(** The most requests one call sends. *)
Definition cost (op : operation) : nat :=
  if through_session op then S MAX_RETRIES else 1.

Lemma requests_of_le (E : env) (op : operation) (k : nat) :
  requests_of E op k <= cost op.
Proof.
  unfold requests_of, cost. destruct (through_session op); [|lia].
  pose proof (Nat.le_min_r (resent E k) MAX_RETRIES). lia.
Qed.

(** What a call raises is a [RequestException]. *)
Lemma call_throws (E : env) (op : operation) (k : nat) (e : api_exn) :
  call E op k = Throw e -> is_request_exception e = true.
Proof.
  unfold call. destruct (server E k) as [r|msg].
  - destruct (through_session op && forced r)%bool; intros H; [|discriminate H].
    injection H as <-. reflexivity.
  - intros H. injection H as <-. reflexivity.
Qed.

Lemma token_error_cases (e : api_exn) :
  token_error e ->
  (forall what, e <> Exhausted what) /\ is_request_exception e = false.
Proof.
  intros [->|[msg ->]]; split; try reflexivity; intros; discriminate.
Qed.

Section Loop.

Variable E : env.
Variable A : Type.
Variable op : operation.
Variable success : response -> option (result A).
Variable before : M unit.
Variable handle : response -> nat -> M (step A).

Hypothesis before_spec :
  forall w, exists w', before w = (Return tt, w') /\ file w' = file w /\
                       api_requests w' = api_requests w /\
                       http_requests w' = http_requests w.
Hypothesis handle_spec :
  forall r i, handle r i = match success r with
                           | Some (Return a) => ret (Done a)
                           | Some (Throw e) => throw e
                           | None => retry_or_raise r i before
                           end.
Hypothesis success_raises :
  forall r e, success r = Some (Throw e) -> forall what, e <> Exhausted what.

(** The common shape of the three loop bodies. *)
Definition loop_attempt (attempt : nat) : M (step A) :=
  catch_request
    (token <- get_headers E ;;
     response <- request E op token ;;
     handle response attempt)
    (on_request_exception attempt before).

(** A call after which the loop tries again with the token it has: it
    raised a [RequestException], or its answer was a 429, or reading its
    answer raised a [RequestException]. *)
Definition retried (c : result response) : Prop :=
  match c with
  | Throw e => is_request_exception e = true
  | Return r =>
      (success r = None /\ status_code r = 429%Z) \/
      exists e, success r = Some (Throw e) /\ is_request_exception e = true
  end.

(** The state at the head of attempt [i] of a run that started after [n]
    calls and [h] requests. *)
Definition at_attempt (n h i : nat) (w : world) : Prop :=
  api_requests w = n + (i - 1) /\
  http_requests w <= h + cost op * (i - 1) /\
  (forall k, S k < i -> retried (call E op (n + k)) \/
                        (S (S k) = i /\ file w = NoFile)).

(** How a run that started after [n] calls and [h] requests ends. *)
Definition outcome (n h : nat) (res : result A) (w' : world) : Prop :=
  exists m,
    m <= 3 /\ api_requests w' = n + m /\
    http_requests w' <= h + cost op * m /\
    (forall k, S k < m -> retried (call E op (n + k))) /\
    match res with
    | Return a =>
        exists k r, m = S k /\ call E op (n + k) = Return r /\
                    success r = Some (Return a)
    | Throw e =>
        (forall what, e <> Exhausted what) /\
        (is_request_exception e = true ->
           m = 3 /\
           (call E op (n + 2) = Throw e \/
            exists r, call E op (n + 2) = Return r /\ success r = Some (Throw e))) /\
        (forall k r, m = S k -> call E op (n + k) = Return r ->
           status_code r = 401%Z -> success r = None ->
           (e = Failure no_token_data /\ file w' = NoFile) \/
           (m = 3 /\ e = HttpFailure 401 (text r)))
    end.

Lemma retried_before (n h i : nat) (w : world) :
  at_attempt n h i w -> file w <> NoFile ->
  forall k, S k < i -> retried (call E op (n + k)).
Proof.
  intros (_ & _ & H) F k L. destruct (H k L) as [R|[_ N]]; [exact R | contradiction].
Qed.

(** The handler of [RequestException]: [continue] before the last attempt,
    the exception again on the last. *)
Lemma on_request_exception_spec (i : nat) (e : api_exn) (w : world) :
  match @on_request_exception A i before e w with
  | (Return (Done _), _) => False
  | (Return Continue, w') =>
      may_retry i = true /\ file w' = file w /\
      api_requests w' = api_requests w /\ http_requests w' = http_requests w
  | (Throw e', w') => e' = e /\ may_retry i = false /\ w' = w
  end.
Proof.
  unfold on_request_exception. destruct (may_retry i); [|repeat split].
  rewrite !bind_eq. unfold sleep. cbn [Z.ltb Z.compare]. unfold emit.
  cbv beta iota. rewrite ?bind_eq.
  match goal with
  | |- context [before ?w4] => destruct (before_spec w4) as (w3 & -> & F3 & A3 & H3)
  end.
  unfold ret. split; [reflexivity|]. split; [exact F3|]. split; [exact A3 | exact H3].
Qed.

(** An answer that is not a success: [continue] on a 401, the token file
    removed, and on a 429, before the last attempt; an exception that is not
    a [RequestException] otherwise. *)
Lemma retry_or_raise_spec (r : response) (i : nat) (w : world) :
  match @retry_or_raise A r i before w with
  | (Return (Done _), _) => False
  | (Return Continue, w') =>
      may_retry i = true /\
      api_requests w' = api_requests w /\ http_requests w' = http_requests w /\
      ((status_code r = 401%Z /\ file w' = NoFile) \/ status_code r = 429%Z)
  | (Throw e, w') =>
      api_requests w' = api_requests w /\ http_requests w' = http_requests w /\
      is_request_exception e = false /\ (forall what, e <> Exhausted what) /\
      (status_code r = 401%Z -> may_retry i = false /\ e = HttpFailure 401 (text r))
  end.
Proof.
  unfold retry_or_raise.
  destruct (Z.eqb (status_code r) 401) eqn:S401.
  { apply Z.eqb_eq in S401. destruct (may_retry i) eqn:MR; cbn [andb].
    - rewrite !bind_eq.
      destruct (clear_tokens_spec w) as (b & w2 & -> & F2 & A2 & H2).
      cbv beta iota. rewrite bind_eq.
      destruct (before_spec w2) as (w3 & -> & F3 & A3 & H3).
      unfold ret. split; [reflexivity|]. split; [congruence|]. split; [congruence|].
      left. split; [exact S401 | congruence].
    - assert (S429 : Z.eqb (status_code r) 429 = false) by (rewrite S401; reflexivity).
      rewrite S429. cbn [andb]. unfold throw.
      split; [reflexivity|]. split; [reflexivity|]. split; [reflexivity|].
      split; [intros; discriminate|]. intros _. rewrite S401. split; reflexivity. }
  apply Z.eqb_neq in S401. cbn [andb].
  assert (P : forall e w', api_requests w' = api_requests w ->
                http_requests w' = http_requests w ->
                is_request_exception e = false -> (forall what, e <> Exhausted what) ->
                api_requests w' = api_requests w /\ http_requests w' = http_requests w /\
                is_request_exception e = false /\ (forall what, e <> Exhausted what) /\
                (status_code r = 401%Z ->
                 may_retry i = false /\ e = HttpFailure 401 (text r))).
  { intros e w' Ha Hh Hr He. repeat (split; [assumption|]). intros; contradiction. }
  destruct (Z.eqb (status_code r) 429) eqn:S429; cbn [andb];
    [|unfold throw; apply P; [reflexivity .. | intros; discriminate]].
  apply Z.eqb_eq in S429.
  destruct (may_retry i) eqn:MR;
    [|unfold throw; apply P; [reflexivity .. | intros; discriminate]].
  rewrite bind_eq. unfold retry_after_seconds.
  assert (C : forall z,
            match (sleep z;;; before;;; ret (@Continue A)) w with
            | (Return (Done _), _) => False
            | (Return Continue, w') =>
                true = true /\
                api_requests w' = api_requests w /\
                http_requests w' = http_requests w /\
                ((status_code r = 401%Z /\ file w' = NoFile) \/ status_code r = 429%Z)
            | (Throw e, w') =>
                api_requests w' = api_requests w /\ http_requests w' = http_requests w /\
                is_request_exception e = false /\ (forall what, e <> Exhausted what) /\
                (status_code r = 401%Z ->
                 true = false /\ e = HttpFailure 401 (text r))
            end).
  { intros z. rewrite bind_eq. unfold sleep. destruct (Z.ltb z 0).
    - unfold throw. split; [reflexivity|]. split; [reflexivity|]. split; [reflexivity|].
      split; [intros; discriminate|]. intros; contradiction.
    - unfold emit. rewrite bind_eq.
      match goal with
      | |- context [before ?w4] => destruct (before_spec w4) as (w3 & -> & F3 & A3 & H3)
      end.
      unfold ret. split; [reflexivity|]. split; [exact A3|]. split; [exact H3|].
      right. exact S429. }
  destruct (header_retry_after r) as [|z|].
  - unfold ret at 1. apply C.
  - unfold ret at 1. apply C.
  - unfold throw. split; [reflexivity|]. split; [reflexivity|]. split; [reflexivity|].
    split; [intros; discriminate|]. intros; contradiction.
Qed.

(** One pass of a loop. *)
Lemma loop_attempt_spec (n h i : nat) (w : world) :
  1 <= i -> i <= 3 -> at_attempt n h i w ->
  match loop_attempt i w with
  | (Return (Done a), w') => outcome n h (Return a) w'
  | (Return Continue, w') => i < 3 /\ at_attempt n h (S i) w'
  | (Throw e, w') => outcome n h (Throw e) w'
  end.
Proof.
  intros L1 L3 I. unfold loop_attempt, catch_request, get_headers.
  rewrite catch_eq, bind_eq.
  destruct (get_access_token_spec E w) as (G1 & G2 & G3).
  pose proof (get_access_token_sent E w) as G4.
  destruct (get_access_token E w) as [[tok|e] w1] eqn:G; cbn [fst snd] in *.
  - (* a token: the call is made *)
    assert (F : file w <> NoFile).
    { intros F. rewrite (get_access_token_no_file E w F) in G. discriminate G. }
    pose proof (retried_before n h i w I F) as SB.
    destruct I as (I1 & I2 & _).
    rewrite bind_eq. unfold request. rewrite G1, I1.
    set (w2 := {| file := file w1; clock_reads := clock_reads w1;
                  token_requests := token_requests w1;
                  api_requests := S (n + (i - 1));
                  trace := (repeat (ApiRequest op tok) (requests_of E op (n + (i - 1)))
                            ++ trace w1)%list |}).
    assert (A2 : api_requests w2 = n + i) by (unfold w2; cbn [api_requests]; lia).
    assert (H2 : http_requests w2 <= h + cost op * i).
    { unfold w2, http_requests. cbn [trace]. rewrite sent_repeat.
      fold (http_requests w1). rewrite G4.
      pose proof (requests_of_le E op (n + (i - 1))) as Q.
      assert (Ei : cost op * i = cost op * (i - 1) + cost op)
        by (replace i with (S (i - 1)) at 1 by lia; apply Nat.mul_succ_r).
      lia. }
    assert (Last : forall e w3,
              api_requests w3 = n + i -> http_requests w3 <= h + cost op * i ->
              (forall what, e <> Exhausted what) ->
              (is_request_exception e = true ->
                 i = 3 /\
                 (call E op (n + 2) = Throw e \/
                  exists r, call E op (n + 2) = Return r /\
                            success r = Some (Throw e))) ->
              (forall r, call E op (n + (i - 1)) = Return r ->
                 status_code r = 401%Z -> success r = None ->
                 i = 3 /\ e = HttpFailure 401 (text r)) ->
              outcome n h (Throw e) w3).
    { intros e w3 A3 H3 NE RE U. exists i. split; [exact L3|]. split; [exact A3|].
      split; [exact H3|]. split; [exact SB|]. split; [exact NE|]. split; [exact RE|].
      intros k r Ek Ck S401 Su. right. apply U; [|exact S401|exact Su].
      replace (i - 1) with k by lia. exact Ck. }
    assert (Next : forall w3,
              api_requests w3 = n + i -> http_requests w3 <= h + cost op * i ->
              may_retry i = true ->
              (retried (call E op (n + (i - 1))) \/ file w3 = NoFile) ->
              i < 3 /\ at_attempt n h (S i) w3).
    { intros w3 A3 H3 MR R. split; [exact (may_retry_lt i MR)|].
      split; [rewrite A3; lia|]. split; [replace (S i - 1) with i by lia; exact H3|].
      intros k Lk. destruct (Nat.eq_dec k (i - 1)) as [->|Ek].
      - destruct R as [R|R]; [left; exact R | right; split; [lia | exact R]].
      - left. apply SB. lia. }
    clearbody w2. clear G G2 G3 G1 G4 I1 I2 F w1.
    destruct (call E op (n + (i - 1))) as [r|e] eqn:C.
    + (* an answer *)
      rewrite handle_spec.
      destruct (success r) as [[a|e]|] eqn:Su.
      * unfold ret. exists i. split; [exact L3|]. split; [exact A2|].
        split; [exact H2|]. split; [exact SB|].
        exists (i - 1), r. split; [lia|]. split; [exact C | exact Su].
      * (* reading the answer raises *)
        unfold throw. destruct (is_request_exception e) eqn:RE.
        -- pose proof (on_request_exception_spec i e w2) as O.
           destruct (on_request_exception i before e w2) as [[[a|]|e'] w3].
           ++ destruct O.
           ++ destruct O as (MR & _ & A3 & H3).
              apply Next; [congruence | rewrite H3; exact H2 | exact MR|].
              left. right. exists e. split; [exact Su | exact RE].
           ++ destruct O as (-> & MR & ->).
              pose proof (may_retry_last i L3 MR) as ->.
              apply Last; [exact A2 | exact H2 | exact (success_raises r e Su) | |].
              ** intros _. split; [reflexivity|]. right. exists r.
                 split; [exact C | exact Su].
              ** intros r' Cr _ Su'. injection Cr as <-. rewrite Su in Su'.
                 discriminate Su'.
        -- apply Last; [exact A2 | exact H2 | exact (success_raises r e Su) | |].
           ++ intros H. congruence.
           ++ intros r' Cr _ Su'. injection Cr as <-. rewrite Su in Su'.
              discriminate Su'.
      * (* an answer that is not a success *)
        pose proof (retry_or_raise_spec r i w2) as O.
        destruct (retry_or_raise r i before w2) as [[[a|]|e] w3].
        -- destruct O.
        -- destruct O as (MR & A3 & H3 & St).
           apply Next; [congruence | rewrite H3; exact H2 | exact MR|].
           destruct St as [[_ F3]|S429]; [right; exact F3|].
           left. left. split; [exact Su | exact S429].
        -- destruct O as (A3 & H3 & RE & NE & U). rewrite RE. unfold throw.
           apply Last; [congruence | rewrite H3; exact H2 | exact NE | |].
           ++ intros H. congruence.
           ++ intros r' Cr S401 _. injection Cr as <-.
              destruct (U S401) as [MR ->].
              split; [exact (may_retry_last i L3 MR) | reflexivity].
    + (* the call raises *)
      rewrite (call_throws _ _ _ _ C).
      pose proof (on_request_exception_spec i e w2) as O.
      destruct (on_request_exception i before e w2) as [[[a|]|e'] w3].
      * destruct O.
      * destruct O as (MR & _ & A3 & H3).
        apply Next; [congruence | rewrite H3; exact H2 | exact MR|].
        left. exact (call_throws _ _ _ _ C).
      * destruct O as (-> & MR & ->).
        pose proof (may_retry_last i L3 MR) as ->.
        apply Last; [exact A2 | exact H2 | | |].
        -- intros what ->. pose proof (call_throws _ _ _ _ C) as H. discriminate H.
        -- intros _. split; [reflexivity|]. left. exact C.
        -- intros r Cr. discriminate Cr.
  - (* no token: no call is made *)
    destruct (token_error_cases e (G3 e eq_refl)) as [NE NR].
    rewrite NR. unfold throw. destruct I as (I1 & I2 & I3).
    exists (i - 1). split; [lia|]. split; [rewrite G1; exact I1|].
    split; [rewrite G4; exact I2|]. split.
    + intros k Lk. destruct (I3 k ltac:(lia)) as [R|[Ek _]]; [exact R | lia].
    + split; [exact NE|]. split; [intros H; rewrite NR in H; discriminate H|].
      intros k r Ek Ck S401 Su.
      destruct (I3 k ltac:(lia)) as [R|[_ F]].
      * rewrite Ck in R. cbn [retried] in R.
        destruct R as [[_ S429]|(e' & Su' & _)];
          [rewrite S401 in S429; discriminate S429
          | rewrite Su in Su'; discriminate Su'].
      * left. rewrite (get_access_token_no_file E w F) in G.
        injection G as <- <-. split; [reflexivity | exact F].
Qed.

Lemma attempts_spec (what : string) (n h : nat) :
  forall remaining i w,
    i + remaining = 4 -> 1 <= i -> i <= 3 -> at_attempt n h i w ->
    outcome n h (fst (attempts loop_attempt what remaining i w))
                (snd (attempts loop_attempt what remaining i w)).
Proof.
  induction remaining as [|remaining IH]; intros i w Hsum L1 L3 I.
  - exfalso. lia.
  - cbn [attempts]. rewrite bind_eq.
    pose proof (loop_attempt_spec n h i w L1 L3 I) as H.
    destruct (loop_attempt i w) as [[[a|]|e] w'].
    + exact H.
    + destruct H as [Lt I']. apply IH; [lia | lia | lia | exact I'].
    + exact H.
Qed.

(** A whole run, from a state with [api_requests w] calls made. *)
Lemma call_spec (what : string) (w : world) :
  outcome (api_requests w) (http_requests w)
    (fst (catch (attempts loop_attempt what max_attempts 1) throw w))
    (snd (catch (attempts loop_attempt what max_attempts 1) throw w)).
Proof.
  rewrite catch_throw. apply attempts_spec; [reflexivity | lia | lia |].
  split; [cbn [Nat.sub]; lia|]. split; [cbn [Nat.sub]; lia|]. intros k Lk. lia.
Qed.

End Loop.

(** *** The three calls *)

Lemma ret_tt_spec (w : world) :
  exists w', ret tt w = (Return tt, w') /\ file w' = file w /\
             api_requests w' = api_requests w /\ http_requests w' = http_requests w.
Proof. exists w. split; [reflexivity|]. split; [reflexivity|]. split; reflexivity. Qed.

Lemma rewound_spec (w : world) :
  exists w', emit Rewound w = (Return tt, w') /\ file w' = file w /\
             api_requests w' = api_requests w /\ http_requests w' = http_requests w.
Proof. eexists. split; [reflexivity|]. split; [reflexivity|]. split; reflexivity. Qed.

(** How [create_estimate] reads an answer: the identifiers, or what reading
    them raises, when the status is 201. *)
Definition created (r : response) : option (result (option string * option string)) :=
  if Z.eqb (status_code r) 201 then
    Some match json r with
         | None => Throw JSONDecodeError
         | Some (JsonObject j) => Return (ids_of j)
         | Some JsonOther => Throw NoAttribute
         end
  else None.

(** How [attach_pdf_to_estimate] reads an answer. *)
Definition attached (r : response) : option (result bool) :=
  if (Z.eqb (status_code r) 201 || Z.eqb (status_code r) 200)%bool
  then Some (Return true) else None.

(** How [get_estimate] reads an answer. *)
Definition fetched (r : response) : option (result (option json_value)) :=
  if Z.eqb (status_code r) 200 then
    Some match json r with
         | None => Throw JSONDecodeError
         | Some v => Return (Some v)
         end
  else if Z.eqb (status_code r) 404 then Some (Return None)
  else None.

Lemma create_estimate_outcome (E : env) (df : list line_item)
    (info : option customer_info) (w : world) :
  outcome E _ (CreateEstimate (build_payload E df info)) created
    (api_requests w) (http_requests w)
    (fst (create_estimate E df info w)) (snd (create_estimate E df info w)).
Proof.
  unfold create_estimate.
  apply (call_spec E _ (CreateEstimate (build_payload E df info)) created (ret tt)
           (fun response attempt =>
              if Z.eqb (status_code response) 201
              then
                estimate_data <- response_json response ;;
                ids <- estimate_ids estimate_data ;;
                ret (Done ids)
              else retry_or_raise response attempt (ret tt))).
  - exact ret_tt_spec.
  - intros r i. unfold created, response_json.
    destruct (Z.eqb (status_code r) 201); [|reflexivity].
    destruct (json r) as [[j|]|]; reflexivity.
  - intros r e. unfold created. destruct (Z.eqb (status_code r) 201); [|discriminate].
    destruct (json r) as [[j|]|]; intros H what; inversion H; discriminate.
Qed.

Lemma attach_pdf_to_estimate_outcome (E : env) (id : option string)
    (file_name : string) (w : world) :
  outcome E _ (AttachPdf id file_name) attached (api_requests w) (http_requests w)
    (fst (attach_pdf_to_estimate E id file_name w))
    (snd (attach_pdf_to_estimate E id file_name w)).
Proof.
  unfold attach_pdf_to_estimate.
  apply (call_spec E _ (AttachPdf id file_name) attached (emit Rewound)
           (fun response attempt =>
              if (Z.eqb (status_code response) 201
                  || Z.eqb (status_code response) 200)%bool
              then ret (Done true)
              else retry_or_raise response attempt (emit Rewound))).
  - exact rewound_spec.
  - intros r i. unfold attached.
    destruct (Z.eqb (status_code r) 201 || Z.eqb (status_code r) 200)%bool;
      reflexivity.
  - intros r e. unfold attached.
    destruct (Z.eqb (status_code r) 201 || Z.eqb (status_code r) 200)%bool;
      discriminate.
Qed.

Lemma get_estimate_outcome (E : env) (id : option string) (w : world) :
  outcome E _ (GetEstimate id) fetched (api_requests w) (http_requests w)
    (fst (get_estimate E id w)) (snd (get_estimate E id w)).
Proof.
  unfold get_estimate.
  apply (call_spec E _ (GetEstimate id) fetched (ret tt)
           (fun response attempt =>
              if Z.eqb (status_code response) 200
              then estimate_data <- response_json response ;;
                   ret (Done (Some estimate_data))
              else if (Z.eqb (status_code response) 401 && may_retry attempt)%bool
                   || (Z.eqb (status_code response) 429 && may_retry attempt)%bool
              then retry_or_raise response attempt (ret tt)
              else if Z.eqb (status_code response) 404
              then ret (Done None)
              else throw (HttpFailure (status_code response) (text response)))).
  - exact ret_tt_spec.
  - intros r i. unfold fetched, response_json.
    destruct (Z.eqb (status_code r) 200); [destruct (json r); reflexivity|].
    destruct (Z.eqb (status_code r) 404) eqn:N.
    + apply Z.eqb_eq in N. rewrite N. reflexivity.
    + unfold retry_or_raise.
      destruct (Z.eqb (status_code r) 401 && may_retry i)%bool; [reflexivity|].
      destruct (Z.eqb (status_code r) 429 && may_retry i)%bool; reflexivity.
  - intros r e. unfold fetched. destruct (Z.eqb (status_code r) 200).
    + destruct (json r); intros H what; inversion H; discriminate.
    + destruct (Z.eqb (status_code r) 404); discriminate.
Qed.

Lemma outcome_bound (E : env) (A : Type) (op : operation)
    (success : response -> option (result A))
    (n h : nat) (res : result A) (w' : world) :
  outcome E A op success n h res w' ->
  api_requests w' <= n + 3 /\ http_requests w' <= h + 3 * cost op /\
  forall what, res <> Throw (Exhausted what).
Proof.
  intros (m & L & Aw & Hw & _ & H). split; [lia|]. split; [nia|].
  intros what ->. destruct H as (NE & _). exact (NE what eq_refl).
Qed.

Lemma outcome_return (E : env) (A : Type) (op : operation)
    (success : response -> option (result A))
    (n h : nat) (a : A) (w' : world) :
  outcome E A op success n h (Return a) w' ->
  exists k r,
    k < 3 /\ api_requests w' = n + S k /\
    call E op (n + k) = Return r /\ success r = Some (Return a) /\
    forall j, j < k -> retried A success (call E op (n + j)).
Proof.
  intros (m & L & Aw & _ & So & k & r & -> & Sv & Su).
  exists k, r. split; [lia|]. split; [exact Aw|]. split; [exact Sv|].
  split; [exact Su|]. intros j Lj. apply So. lia.
Qed.

(** A call that returned an answer: the answer is the server's. *)
Lemma call_returns (E : env) (op : operation) (k : nat) (r : response) :
  call E op k = Return r ->
  server E k = Answer r /\ (through_session op = true -> forced r = false).
Proof.
  unfold call. destruct (server E k) as [r'|msg]; [|discriminate].
  destruct (through_session op && forced r')%bool eqn:B; [discriminate|].
  intros H. injection H as <-. split; [reflexivity|].
  intros T. rewrite T in B. exact B.
Qed.

(** An answer 401 is returned by the call. *)
Lemma call_unauthorized (E : env) (op : operation) (k : nat) (r : response) :
  server E k = Answer r -> status_code r = 401%Z -> call E op k = Return r.
Proof.
  intros Sv S401. unfold call. rewrite Sv.
  assert (F : forced r = false) by (unfold forced; rewrite S401; reflexivity).
  rewrite F, andb_false_r. reflexivity.
Qed.

Lemma outcome_unauthorized (E : env) (A : Type) (op : operation)
    (success : response -> option (result A))
    (n h : nat) (res : result A) (w' : world) (k : nat) (r : response) :
  (forall r, status_code r = 401%Z -> success r = None) ->
  outcome E A op success n h res w' ->
  n <= k -> k < api_requests w' ->
  server E k = Answer r -> status_code r = 401%Z ->
  S k = api_requests w' /\
  ((res = Throw (Failure no_token_data) /\ file w' = NoFile) \/
   (k = n + 2 /\ res = Throw (HttpFailure 401 (text r)))).
Proof.
  intros SA (m & L & Aw & _ & So & H) Lk Uk Sv S401.
  pose proof (call_unauthorized E op k r Sv S401) as C.
  assert (Ek : k = n + (k - n)) by lia.
  destruct (Nat.lt_ge_cases (S (k - n)) m) as [Lt|Ge].
  { specialize (So (k - n) Lt). rewrite <- Ek, C in So. cbn [retried] in So.
    destruct So as [[_ S429]|(e & Su & _)].
    - rewrite S401 in S429. discriminate S429.
    - rewrite (SA r S401) in Su. discriminate Su. }
  assert (Em : m = S (k - n)) by lia.
  split; [lia|].
  destruct res as [a|e].
  - destruct H as (k0 & r0 & Em0 & Sv0 & Su0).
    assert (k0 = k - n) by lia. subst k0. rewrite <- Ek, C in Sv0.
    injection Sv0 as <-. rewrite (SA r S401) in Su0. discriminate Su0.
  - destruct H as (_ & _ & H).
    assert (C' : call E op (n + (k - n)) = Return r) by (rewrite <- Ek; exact C).
    destruct (H (k - n) r Em C' S401 (SA r S401)) as [[-> F]|[M3 ->]].
    + left. split; [reflexivity | exact F].
    + right. split; [lia | reflexivity].
Qed.

(** *** Sample runs *)

Definition plain (status : Z) (txt : string) : response :=
  {| status_code := status; text := txt; header_retry_after := NoHeader;
     json := None |}.

Definition created_77 : response :=
  {| status_code := 201; text := "created"; header_retry_after := NoHeader;
     json := Some (JsonObject (Some {| json_estimate_id := Some "77";
                                       json_estimate_number := Some "EST-77";
                                       json_customer_name := None |})) |}.

Definition slow_down : response :=
  {| status_code := 429; text := "slow down"; header_retry_after := Seconds 1;
     json := None |}.

(** The token file holds a token good for a long time. *)
Definition signed_in : world := holding (stored_token "access-1" (Some 100000%Q)).

(** The service answers 429 once, then 201. *)
Definition busy_then_created : env :=
  outside (fun _ => TokenUnreachable "down")
          (fun k => match k with
                    | O => Answer slow_down
                    | _ => Answer created_77
                    end).

(** The service answers 201 with a page that is not JSON, then 201 with the
    estimate. *)
Definition garbled_then_created : env :=
  outside (fun _ => TokenUnreachable "down")
          (fun k => match k with
                    | O => Answer (plain 201 "<html>")
                    | _ => Answer created_77
                    end).

(** The service answers 401. *)
Definition rejecting : env :=
  outside (fun _ => TokenUnreachable "down") (fun _ => Answer (plain 401 "no")).

(** The service does not know the estimate. *)
Definition not_finding : env :=
  outside (fun _ => TokenUnreachable "down") (fun _ => Answer (plain 404 "none")).

(** The service cannot be reached. *)
Definition unreachable : env :=
  outside (fun _ => TokenUnreachable "down") (fun _ => Unreachable "down").

(** A call through the session that the loop repeats: the server was not
    reached, or its answer had a status of the force list, or reading the
    answer raised a [RequestException]. *)
Lemma session_retried (E : env) (A : Type) (op : operation)
    (success : response -> option (result A)) (k : nat) :
  through_session op = true ->
  retried A success (call E op k) ->
  match server E k with
  | Unreachable _ => True
  | Answer r =>
      forced r = true \/
      exists e, success r = Some (Throw e) /\ is_request_exception e = true
  end.
Proof.
  intros T. unfold call. rewrite T. destruct (server E k) as [r|msg]; [|intros; exact I].
  destruct (forced r) eqn:F; cbn [andb]; [intros _; left; reflexivity|].
  cbn [retried]. intros [[_ S429]|H]; [|right; exact H].
  unfold forced in F. rewrite S429 in F. discriminate F.
Qed.

(** A call of [requests.post] that the loop repeats. *)
Lemma plain_retried (E : env) (A : Type) (op : operation)
    (success : response -> option (result A)) (k : nat) :
  through_session op = false ->
  (forall r e, success r <> Some (Throw e)) ->
  retried A success (call E op k) -> soft (server E k) = true.
Proof.
  intros T NS. unfold call. rewrite T. destruct (server E k) as [r|msg];
    [|intros; reflexivity].
  cbn [andb retried soft]. intros [[_ S429]|(e & Su & _)].
  - rewrite S429. reflexivity.
  - elim (NS r e Su).
Qed.

Lemma attached_never_raises (r : response) (e : api_exn) :
  attached r <> Some (Throw e).
Proof.
  unfold attached.
  destruct (Z.eqb (status_code r) 201 || Z.eqb (status_code r) 200)%bool; discriminate.
Qed.

(** X15: each of the three calls of the client runs its loop at most three
    times, whatever the token manager and the service answer, so it calls
    the estimates endpoint at most three times, and none ever ends in the
    "Failed to ... after 3 attempts" exception that follows its loop.
    [create_estimate] and [get_estimate] call it through the session, whose
    adapter sends a request up to four times: they send at most twelve
    requests; [attach_pdf_to_estimate] sends at most three. *)
Theorem retry_loops_stop_within_three_calls (E : env) (df : list line_item)
    (info : option customer_info) (id : option string) (file_name : string)
    (w : world) :
  (api_requests (snd (create_estimate E df info w)) <= api_requests w + 3 /\
   http_requests (snd (create_estimate E df info w)) <= http_requests w + 12 /\
   forall what, fst (create_estimate E df info w) <> Throw (Exhausted what)) /\
  (api_requests (snd (attach_pdf_to_estimate E id file_name w)) <= api_requests w + 3 /\
   http_requests (snd (attach_pdf_to_estimate E id file_name w))
     <= http_requests w + 3 /\
   forall what,
     fst (attach_pdf_to_estimate E id file_name w) <> Throw (Exhausted what)) /\
  (api_requests (snd (get_estimate E id w)) <= api_requests w + 3 /\
   http_requests (snd (get_estimate E id w)) <= http_requests w + 12 /\
   forall what, fst (get_estimate E id w) <> Throw (Exhausted what)).
Proof.
  split; [|split].
  - exact (outcome_bound _ _ _ _ _ _ _ _ (create_estimate_outcome E df info w)).
  - exact (outcome_bound _ _ _ _ _ _ _ _
             (attach_pdf_to_estimate_outcome E id file_name w)).
  - exact (outcome_bound _ _ _ _ _ _ _ _ (get_estimate_outcome E id w)).
Qed.

(** The adapter at its most: every call of a run of [create_estimate] ends
    unreached after three re-sendings, and twelve requests are sent. *)
Example create_estimate_sends_twelve_requests :
  let E := {| clock := clock unreachable; today := today unreachable;
              strptime_date := strptime_date unreachable;
              str_cell := str_cell unreachable;
              token_server := token_server unreachable;
              server := server unreachable;
              resent := fun _ => 3 |} in
  api_requests (snd (create_estimate E [] None signed_in)) = 3 /\
  http_requests (snd (create_estimate E [] None signed_in)) = 12 /\
  fst (create_estimate E [] None signed_in) = Throw (RequestException "down").
Proof. vm_compute. repeat split. Qed.

(** X16: when [create_estimate] returns, the last call it made of the
    estimates endpoint ended with an answer 201 whose body is a JSON object,
    and the pair it returns is read from that body; every call before it
    failed: the server was not reached, or its answer had a status of the
    retry list (the session raises on those), or it was a 201 whose body is
    not JSON. *)
Theorem created_estimate_comes_from_a_201 (E : env) (df : list line_item)
    (info : option customer_info) (w : world)
    (ids : option string * option string) :
  fst (create_estimate E df info w) = Return ids ->
  exists k r j,
    k < 3 /\
    api_requests (snd (create_estimate E df info w)) = api_requests w + S k /\
    server E (api_requests w + k) = Answer r /\
    status_code r = 201%Z /\ json r = Some (JsonObject j) /\ ids = ids_of j /\
    forall i, i < k ->
      match server E (api_requests w + i) with
      | Unreachable _ => True
      | Answer r' =>
          forced r' = true \/ (status_code r' = 201%Z /\ json r' = None)
      end.
Proof.
  intros H. pose proof (create_estimate_outcome E df info w) as O.
  rewrite H in O.
  destruct (outcome_return _ _ _ _ _ _ _ _ O) as (k & r & L & Aw & C & Su & So).
  destruct (call_returns _ _ _ _ C) as [Sv _].
  unfold created in Su. destruct (Z.eqb (status_code r) 201) eqn:S201; [|discriminate Su].
  apply Z.eqb_eq in S201.
  destruct (json r) as [[j|]|] eqn:J; try discriminate Su. injection Su as <-.
  exists k, r, j. split; [exact L|]. split; [exact Aw|]. split; [exact Sv|].
  split; [exact S201|]. split; [exact J|]. split; [reflexivity|].
  intros i Li.
  pose proof (session_retried E _ (CreateEstimate (build_payload E df info)) created
                _ eq_refl (So i Li)) as R.
  destruct (server E (api_requests w + i)) as [r'|msg]; [|exact I].
  destruct R as [F|(e & Se & Re)]; [left; exact F | right].
  unfold created in Se.
  destruct (Z.eqb (status_code r') 201) eqn:S'; [|discriminate Se].
  apply Z.eqb_eq in S'. split; [exact S'|].
  destruct (json r') as [[j'|]|]; [discriminate Se | | reflexivity].
  injection Se as <-. discriminate Re.
Qed.

Lemma created_estimate_comes_from_a_201_witness :
  exists k r j,
    k < 3 /\
    api_requests (snd (create_estimate garbled_then_created [] None signed_in))
      = api_requests signed_in + S k /\
    server garbled_then_created (api_requests signed_in + k) = Answer r /\
    status_code r = 201%Z /\ json r = Some (JsonObject j) /\
    (Some "77", Some "EST-77") = ids_of j /\
    forall i, i < k ->
      match server garbled_then_created (api_requests signed_in + i) with
      | Unreachable _ => True
      | Answer r' =>
          forced r' = true \/ (status_code r' = 201%Z /\ json r' = None)
      end.
Proof.
  apply (created_estimate_comes_from_a_201 garbled_then_created [] None signed_in).
  reflexivity.
Defined.

(** X17: an answer 401 is never recovered from.  If any request of
    [create_estimate] is answered 401, that request is the last one the call
    sends and the call raises: on the first or second attempt the token file
    has been removed and the error is "No token data found"; on the third
    attempt the error is the 401 itself. *)
Theorem unauthorized_answer_ends_create_estimate (E : env) (df : list line_item)
    (info : option customer_info) (w : world) (k : nat) (r : response) :
  api_requests w <= k ->
  k < api_requests (snd (create_estimate E df info w)) ->
  server E k = Answer r ->
  status_code r = 401%Z ->
  S k = api_requests (snd (create_estimate E df info w)) /\
  ((fst (create_estimate E df info w) = Throw (Failure no_token_data) /\
    file (snd (create_estimate E df info w)) = NoFile) \/
   (k = api_requests w + 2 /\
    fst (create_estimate E df info w) = Throw (HttpFailure 401 (text r)))).
Proof.
  intros Lk Uk Sv S401.
  apply (outcome_unauthorized E _ (CreateEstimate (build_payload E df info)) created
           (api_requests w) (http_requests w)); try assumption.
  - intros r0 H. unfold created. rewrite H. reflexivity.
  - apply create_estimate_outcome.
Qed.

Lemma unauthorized_answer_ends_create_estimate_witness :
  1 = api_requests (snd (create_estimate rejecting [] None signed_in)) /\
  ((fst (create_estimate rejecting [] None signed_in) = Throw (Failure no_token_data) /\
    file (snd (create_estimate rejecting [] None signed_in)) = NoFile) \/
   (0 = api_requests signed_in + 2 /\
    fst (create_estimate rejecting [] None signed_in)
      = Throw (HttpFailure 401 (text (plain 401 "no"))))).
Proof.
  apply (unauthorized_answer_ends_create_estimate rejecting [] None signed_in 0
           (plain 401 "no")).
  - simpl. lia.
  - vm_compute. lia.
  - reflexivity.
  - reflexivity.
Defined.

(** X18: when [get_estimate] returns, the last call it made of the estimates
    endpoint ended with an answer 200 whose body is JSON, and it returns the
    value of that body, or with an answer 404, and it returns [None]; every
    call before it failed: the server was not reached, or its answer had a
    status of the retry list (the session raises on those), or it was a 200
    whose body is not JSON. *)
Theorem fetched_estimate_comes_from_a_200_or_404 (E : env) (id : option string)
    (w : world) (v : option json_value) :
  fst (get_estimate E id w) = Return v ->
  exists k r,
    k < 3 /\
    api_requests (snd (get_estimate E id w)) = api_requests w + S k /\
    server E (api_requests w + k) = Answer r /\
    ((status_code r = 200%Z /\ json r = v /\ v <> None) \/
     (status_code r = 404%Z /\ v = None)) /\
    forall i, i < k ->
      match server E (api_requests w + i) with
      | Unreachable _ => True
      | Answer r' =>
          forced r' = true \/ (status_code r' = 200%Z /\ json r' = None)
      end.
Proof.
  intros H. pose proof (get_estimate_outcome E id w) as O.
  rewrite H in O.
  destruct (outcome_return _ _ _ _ _ _ _ _ O) as (k & r & L & Aw & C & Su & So).
  destruct (call_returns _ _ _ _ C) as [Sv _].
  exists k, r. split; [exact L|]. split; [exact Aw|]. split; [exact Sv|]. split.
  - unfold fetched in Su. destruct (Z.eqb (status_code r) 200) eqn:S200.
    + apply Z.eqb_eq in S200. left. split; [exact S200|].
      destruct (json r) as [b|]; [|discriminate Su].
      injection Su as <-. split; [reflexivity | discriminate].
    + destruct (Z.eqb (status_code r) 404) eqn:S404; [|discriminate Su].
      apply Z.eqb_eq in S404. injection Su as <-. right. split; [exact S404 | reflexivity].
  - intros i Li.
    pose proof (session_retried E _ (GetEstimate id) fetched _ eq_refl (So i Li)) as R.
    destruct (server E (api_requests w + i)) as [r'|msg]; [|exact I].
    destruct R as [F|(e & Se & Re)]; [left; exact F | right].
    unfold fetched in Se. destruct (Z.eqb (status_code r') 200) eqn:S'.
    + apply Z.eqb_eq in S'. split; [exact S'|].
      destruct (json r'); [discriminate Se | reflexivity].
    + destruct (Z.eqb (status_code r') 404); discriminate Se.
Qed.

Lemma fetched_estimate_comes_from_a_200_or_404_witness :
  exists k r,
    k < 3 /\
    api_requests (snd (get_estimate not_finding (Some "77") signed_in))
      = api_requests signed_in + S k /\
    server not_finding (api_requests signed_in + k) = Answer r /\
    ((status_code r = 200%Z /\ json r = None /\ @None json_value <> None) \/
     (status_code r = 404%Z /\ @None json_value = None)) /\
    forall i, i < k ->
      match server not_finding (api_requests signed_in + i) with
      | Unreachable _ => True
      | Answer r' =>
          forced r' = true \/ (status_code r' = 200%Z /\ json r' = None)
      end.
Proof.
  apply (fetched_estimate_comes_from_a_200_or_404 not_finding (Some "77") signed_in).
  reflexivity.
Defined.

(** X19: [attach_pdf_to_estimate] lets a network error out only on its third
    attempt: when it raises a [RequestException], it has sent exactly three
    requests, the third raised that exception, and the two before it failed
    on the network or were answered 429. *)
Theorem attach_network_error_after_three_requests (E : env) (id : option string)
    (file_name : string) (w : world) (msg : string) :
  fst (attach_pdf_to_estimate E id file_name w) = Throw (RequestException msg) ->
  api_requests (snd (attach_pdf_to_estimate E id file_name w)) = api_requests w + 3 /\
  server E (api_requests w + 2) = Unreachable msg /\
  soft (server E (api_requests w)) = true /\
  soft (server E (api_requests w + 1)) = true.
Proof.
  intros H. pose proof (attach_pdf_to_estimate_outcome E id file_name w) as O.
  rewrite H in O. destruct O as (m & L & Aw & _ & So & _ & NR & _).
  destruct (NR eq_refl) as [-> [C|(r & _ & Su)]];
    [|elim (attached_never_raises r _ Su)].
  assert (Sv : server E (api_requests w + 2) = Unreachable msg).
  { unfold call in C. destruct (server E (api_requests w + 2)) as [r|msg'].
    - cbn [through_session andb] in C. discriminate C.
    - injection C as ->. reflexivity. }
  split; [exact Aw|]. split; [exact Sv|]. split.
  - rewrite <- (Nat.add_0_r (api_requests w)).
    apply (plain_retried E _ (AttachPdf id file_name) attached);
      [reflexivity | exact attached_never_raises | apply So; lia].
  - apply (plain_retried E _ (AttachPdf id file_name) attached);
      [reflexivity | exact attached_never_raises | apply So; lia].
Qed.

Lemma attach_network_error_after_three_requests_witness :
  api_requests (snd (attach_pdf_to_estimate unreachable (Some "77") "estimate.pdf" signed_in))
    = api_requests signed_in + 3 /\
  server unreachable (api_requests signed_in + 2) = Unreachable "down" /\
  soft (server unreachable (api_requests signed_in)) = true /\
  soft (server unreachable (api_requests signed_in + 1)) = true.
Proof.
  apply (attach_network_error_after_three_requests unreachable (Some "77")
           "estimate.pdf" signed_in "down").
  reflexivity.
Defined.

End ZohoFacts.

(** ** Properties of the PDF workflow *)

Module SyncFacts.

Import Api Zoho TokenFacts ZohoFacts Sync.

Lemma on_api_spec {A} (m : M A) (s : state) :
  fst (on_api m s) = fst (m (api s)) /\
  api (snd (on_api m s)) = snd (m (api s)) /\
  drive_log (snd (on_api m s)) = drive_log s.
Proof.
  unfold on_api. destruct (m (api s)) as [r w']. split; [reflexivity|].
  split; reflexivity.
Qed.

Lemma sbind_eq {A B} (m : Run A) (k : A -> Run B) (s : state) :
  sbind m k s = match m s with
                | (Return a, s') => k a s'
                | (Throw e, s') => (Throw e, s')
                end.
Proof. reflexivity. Qed.

(** What the extraction guarantees of each row it returns. *)
Lemma extracted_row (pdf : pdf_content) (it : line_item) :
  In it (extract_line_items pdf) ->
  (exists i d, item it = CStr i /\ i <> EmptyString /\ description it = CStr d) /\
  (0 < Unit_Price it)%Q /\
  (Normalizer.INT64_MIN <= Quantity it <= Normalizer.INT64_MAX)%Z /\
  ((forall pages, pdf = Ok pages -> quantities_fit (all_tables pages)) ->
   (0 <= Quantity it)%Z).
Proof.
  assert (Err : In it error_items ->
            (exists i d, item it = CStr i /\ i <> EmptyString /\ description it = CStr d) /\
            (0 < Unit_Price it)%Q /\
            (Normalizer.INT64_MIN <= Quantity it <= Normalizer.INT64_MAX)%Z /\
            ((forall pages, pdf = Ok pages -> quantities_fit (all_tables pages)) ->
             (0 <= Quantity it)%Z)).
  { intros Hin. destruct (error_items_text it Hin) as [L Q1].
    split; [exact L|]. split; [exact (proj1 (error_items_invariant it Hin))|].
    rewrite Q1. split; [vm_compute; split; discriminate | intros _; lia]. }
  destruct pdf as [pages|e]; intros Hin; [|exact (Err Hin)].
  rewrite extract_line_items_ok in Hin.
  destruct (cascade_stops (all_text pages) (all_tables pages)) as (st & _ & _ & E & _).
  rewrite E in Hin.
  destruct (yield st (all_text pages) (all_tables pages)) as [l|e] eqn:Y;
    [|exact (Err Hin)].
  destruct (shaped_rows l it (yield_shaped _ _ _ _ Y) Hin) as (A & B & C).
  split; [|split; [exact A|split; [exact B|]]].
  - apply normalize_in in Hin. destruct Hin as (r & Hr & -> & _).
    pose proof (yield_labelled _ _ _ _ Y) as HL. rewrite Forall_forall in HL.
    destruct (HL r Hr) as (i & d & q & p & Er & Hi).
    destruct (coerce_row_labels l r _ _ _ _ Hr Er) as (E1 & E2 & _).
    exists i, d. auto.
  - intros F. apply C. exact (yield_fitting _ _ _ _ (F pages eq_refl) Y).
Qed.

(** *** Sample run *)

Definition estimate_pdf : drive_file :=
  {| file_id := "file-1"; file_name := "estimate.pdf" |}.

(** A folder with one PDF that cannot be read and cannot be moved. *)
Definition one_pdf : drive :=
  {| get_latest_pdf_file := Return (Some estimate_pdf);
     download_file := fun _ => Return (Raise PDFError);
     move_succeeds := fun _ => false |}.

Definition at_start : state := {| api := signed_in; drive_log := [] |}.

(** X20: the estimate the workflow builds from a PDF, readable or not, is
    well formed for the accounting service: each of its items carries the
    label of an extracted row as its non-empty name, that row's unit price as
    a rate above zero and that row's quantity, a 64-bit signed integer (so
    between -2^63 and 2^63 - 1: the cast of the Normalizer can make it
    negative), which is not negative when every table cell of the document,
    read as a quantity, is below 2^63; there is one item per extracted row,
    and the reference number is never the placeholder "Unknown". *)
Theorem pdf_estimate_is_well_formed (E : env) (pdf : pdf_content) :
  let p := build_payload E (extract_line_items pdf)
             (Some (extract_customer_info pdf)) in
  (forall z, In z (payload_line_items p) ->
     name z <> EmptyString /\ (0 < rate z)%Q /\
     (Normalizer.INT64_MIN <= quantity z <= Normalizer.INT64_MAX)%Z /\
     ((forall pages, pdf = Ok pages -> quantities_fit (all_tables pages)) ->
      (0 <= quantity z)%Z) /\
     exists it, In it (extract_line_items pdf) /\ item it = CStr (name z) /\
                rate z = Unit_Price it /\ quantity z = Quantity it) /\
  List.length (payload_line_items p) = List.length (extract_line_items pdf) /\
  exists n, reference_number p = Some n /\ n <> "Unknown".
Proof.
  cbv zeta. unfold build_payload. cbn [payload_line_items reference_number].
  split; [|split].
  - intros z Hz. apply in_map_iff in Hz. destruct Hz as (it & <- & Hin).
    destruct (extracted_row pdf it Hin) as ((i & d & Hi & Hne & Hd) & Hp & Hr & Hq).
    unfold line_item_of. cbn [name rate quantity]. rewrite Hi. cbn [py_str].
    split; [exact Hne|]. split; [exact Hp|]. split; [exact Hr|]. split; [exact Hq|].
    exists it. split; [exact Hin|]. split; [exact Hi|]. split; reflexivity.
  - apply length_map.
  - eexists. split; [reflexivity|].
    destruct pdf as [pages|e]; unfold extract_customer_info;
      cbn [estimate_number default_info].
    + unfold find_estimate_number. apply not_unknown. discriminate.
    + discriminate.
Qed.

(** What a run of [process_pdf_file] from [s] that ended in [p] must have
    done if it asked for a move. *)
Definition moved_after_attachment (E : env) (D : drive) (no_move : bool)
    (s : state) (p : result (option string) * state) : Prop :=
  drive_log (snd p) <> drive_log s ->
  no_move = false /\
  exists f k r,
    get_latest_pdf_file D = Return (Some f) /\
    drive_log (snd p) =
      MoveToProcessed (file_id f) (file_name f) (move_succeeds D (file_id f))
        :: drive_log s /\
    api_requests (api s) <= k /\
    api_requests (api (snd p)) = S k /\
    server E k = Answer r /\
    (status_code r = 201%Z \/ status_code r = 200%Z) /\
    exists v, fst p = Return v.

Lemma nothing_moved (E : env) (D : drive) (no_move : bool) (s s' : state)
    (r : result (option string)) :
  drive_log s' = drive_log s -> moved_after_attachment E D no_move s (r, s').
Proof. intros H N. elim N. exact H. Qed.

Lemma process_pdf_file_moves (E : env) (D : drive) (estimate_id : option string)
    (no_move : bool) (s : state) :
  moved_after_attachment E D no_move s (process_pdf_file E D estimate_id no_move s).
Proof.
  unfold process_pdf_file. rewrite sbind_eq. unfold on_drive at 1.
  destruct (get_latest_pdf_file D) as [[f|]|e] eqn:L;
    [|apply nothing_moved; reflexivity ..].
  rewrite sbind_eq. unfold on_drive.
  destruct (download_file D (file_id f)) as [pdf|e];
    [|apply nothing_moved; reflexivity].
  rewrite sbind_eq.
  (* the estimate id: given, or that of the estimate created *)
  set (step := if given_id estimate_id then sret estimate_id
               else sbind (on_api (emit Rewound))
                      (fun _ => sbind (on_api (estimate_of_pdf E pdf))
                                  (fun ids => sret (fst ids)))).
  assert (P : drive_log (snd (step s)) = drive_log s /\
              api_requests (api s) <= api_requests (api (snd (step s)))).
  { unfold step. destruct (given_id estimate_id);
      [unfold sret; cbn [snd]; split; [reflexivity | lia]|].
    rewrite sbind_eq.
    destruct (on_api_spec (emit Rewound) s) as (F1 & A1 & L1).
    destruct (on_api (emit Rewound) s) as [[u|e] s1]; cbn [fst snd] in *;
      [|discriminate F1].
    rewrite sbind_eq.
    destruct (on_api_spec (estimate_of_pdf E pdf) s1) as (F2 & A2 & L2).
    pose proof (create_estimate_outcome E (extract_line_items pdf)
                  (Some (extract_customer_info pdf)) (api s1)) as (m & _ & Am & _).
    fold (estimate_of_pdf E pdf) in Am.
    assert (N1 : api_requests (api s1) = api_requests (api s))
      by (rewrite A1; reflexivity).
    destruct (on_api (estimate_of_pdf E pdf) s1) as [[ids|e] s2]; cbn [fst snd] in *.
    - unfold sret. cbn [snd]. split; [congruence|]. rewrite A2, Am. lia.
    - split; [congruence|]. rewrite A2, Am. lia. }
  clearbody step.
  destruct (step s) as [[id|e] s1]; cbn [fst snd] in P;
    [|apply nothing_moved; exact (proj1 P)].
  destruct P as [L1 N1].
  rewrite sbind_eq.
  destruct (on_api_spec (emit Rewound) s1) as (F2 & A2 & L2).
  destruct (on_api (emit Rewound) s1) as [[u|e] s2]; cbn [fst snd] in *;
    [|discriminate F2].
  rewrite sbind_eq.
  destruct (on_api_spec (attach_pdf_to_estimate E id (file_name f)) s2) as (F3 & A3 & L3).
  pose proof (attach_pdf_to_estimate_outcome E id (file_name f) (api s2)) as O.
  destruct (on_api (attach_pdf_to_estimate E id (file_name f)) s2) as [[b|e] s3];
    cbn [fst snd] in *;
    [|apply nothing_moved; congruence].
  rewrite <- F3, <- A3 in O.
  destruct (outcome_return _ _ _ _ _ _ _ _ O) as (k & r & _ & Ak & C & Su & _).
  destruct (call_returns _ _ _ _ C) as [Sv _].
  rewrite sbind_eq.
  destruct no_move; [unfold sret; apply nothing_moved; congruence|].
  rewrite sbind_eq. unfold move_file_to_processed, sret.
  intros _. cbn [fst snd api drive_log]. split; [reflexivity|].
  exists f, (api_requests (api s2) + k), r.
  split; [exact L|]. split; [congruence|].
  assert (N2 : api_requests (api s2) = api_requests (api s1))
    by (rewrite A2; reflexivity).
  split; [lia|]. split; [rewrite Ak; lia|]. split; [exact Sv|]. split.
  - unfold attached in Su.
    destruct (Z.eqb (status_code r) 201) eqn:S201;
      [left; apply Z.eqb_eq; exact S201|].
    destruct (Z.eqb (status_code r) 200) eqn:S200;
      [right; apply Z.eqb_eq; exact S200 | discriminate Su].
  - eexists. reflexivity.
Qed.

(** X21: the PDF is moved to the processed folder only after it was
    attached.  Whenever [process_pdf_file] asks the Drive for a move, the
    caller did not pass [no_move], the move is the only one and concerns the
    latest PDF, the last request the client sent was answered 201 or 200
    (the attachment), and the call returns, whether the move succeeded or
    not. *)
Theorem pdf_moved_only_after_attachment (E : env) (D : drive)
    (estimate_id : option string) (no_move : bool) (s : state) :
  let s' := snd (process_pdf_file E D estimate_id no_move s) in
  drive_log s' <> drive_log s ->
  no_move = false /\
  exists f k r,
    get_latest_pdf_file D = Return (Some f) /\
    drive_log s' =
      MoveToProcessed (file_id f) (file_name f) (move_succeeds D (file_id f))
        :: drive_log s /\
    api_requests (api s) <= k /\
    api_requests (api s') = S k /\
    server E k = Answer r /\
    (status_code r = 201%Z \/ status_code r = 200%Z) /\
    exists v, fst (process_pdf_file E D estimate_id no_move s) = Return v.
Proof.
  exact (process_pdf_file_moves E D estimate_id no_move s).
Qed.

Lemma pdf_moved_only_after_attachment_witness :
  let s' := snd (process_pdf_file busy_then_created one_pdf None false at_start) in
  false = false /\
  exists f k r,
    get_latest_pdf_file one_pdf = Return (Some f) /\
    drive_log s' =
      MoveToProcessed (file_id f) (file_name f) (move_succeeds one_pdf (file_id f))
        :: drive_log at_start /\
    api_requests (api at_start) <= k /\
    api_requests (api s') = S k /\
    server busy_then_created k = Answer r /\
    (status_code r = 201%Z \/ status_code r = 200%Z) /\
    exists v,
      fst (process_pdf_file busy_then_created one_pdf None false at_start) = Return v.
Proof.
  apply (pdf_moved_only_after_attachment busy_then_created one_pdf None false at_start).
  vm_compute. discriminate.
Defined.

End SyncFacts.

(** ** The log view of the dashboard ([dashboard.py], [parse_log_file]) *)

Module LogFile.

Import Re.

(** The pattern of line 111:
    [(\d{4}-\d{2}-\d{2} \d{2}:\d{2}:\d{2},\d{3}) - (\w+) - (\w+) - ]
    followed by a fourth group that holds [.*], the rest of the line. *)
Definition entry_pattern : regex :=
  seq [Grp 1 (seq [times 4 d; Lit "-"; times 2 d; Lit "-"; times 2 d; Lit " ";
                   times 2 d; Lit ":"; times 2 d; Lit ":"; times 2 d; Lit ",";
                   times 3 d]);
       lit " - "; Grp 2 (plus w);
       lit " - "; Grp 3 (plus w);
       lit " - "; Grp 4 (Rep true 0 None Dot)].

(** [re.match(r, line)] *)
Definition re_match (r : regex) (line : string) : option match_obj :=
  match_at no_flags r (start_of line).

Record log_entry := {
  timestamp : string;
  logger : string;
  level : string;
  message : string;
  details : list string
}.

(** Lines 116-123. *)
Definition new_entry (m : match_obj) : log_entry :=
  {| timestamp := group 1 m; logger := group 2 m; level := group 3 m;
     message := group 4 m; details := [] |}.

(** Line 126: [current_entry['details'].append(line.strip())]. *)
Definition add_detail (e : log_entry) (line : string) : log_entry :=
  {| timestamp := timestamp e; logger := logger e; level := level e;
     message := message e; details := details e ++ [PyStr.strip line] |}.

(** [log_entries] with [current_entry] appended if there is one. *)
Definition close (log_entries : list log_entry) (current_entry : option log_entry)
  : list log_entry :=
  match current_entry with
  | Some e => log_entries ++ [e]
  | None => log_entries
  end.

(** The body of the loop, lines 110-126, on [(log_entries, current_entry)]. *)
Definition read_line (st : list log_entry * option log_entry) (line : string)
  : list log_entry * option log_entry :=
  match re_match entry_pattern line with
  | Some m => (close (fst st) (snd st), Some (new_entry m))
  | None =>
      match snd st with
      | Some e => (fst st, Some (add_detail e line))
      | None => st
      end
  end.

(** The log file: absent, or its lines as iterating over the file gives
    them. *)
Inductive log_file :=
| NoLog
| Log (lines : list string).

(** [parse_log_file()], lines 100-132. *)
Definition parse_log_file (f : log_file) : list log_entry :=
  match f with
  | NoLog => []
  | Log lines =>
      let st := fold_left read_line lines ([], None) in
      close (fst st) (snd st)
  end.

(** *** Properties *)

(** Whether a line opens an entry. *)
Definition opens_entry (line : string) : bool :=
  match re_match entry_pattern line with
  | Some _ => true
  | None => false
  end.

Definition heading (e : log_entry) : string * string * string * string :=
  (timestamp e, logger e, level e, message e).

(** The headings the lines give, one for each line that opens an entry. *)
Definition headings_of (lines : list string)
  : list (string * string * string * string) :=
  flat_map (fun line => match re_match entry_pattern line with
                        | Some m => [heading (new_entry m)]
                        | None => []
                        end) lines.

(** The lines up to the first that opens an entry, removed. *)
Fixpoint from_first_entry (lines : list string) : list string :=
  match lines with
  | [] => []
  | line :: lines' => if opens_entry line then lines else from_first_entry lines'
  end.

Definition continuation_lines (lines : list string) : list string :=
  filter (fun line => negb (opens_entry line)) lines.

Definition finish (st : list log_entry * option log_entry) : list log_entry :=
  close (fst st) (snd st).

Lemma finish_read_line_heading (st : list log_entry * option log_entry)
    (line : string) :
  map heading (finish (read_line st line)) =
  (map heading (finish st) ++ headings_of [line])%list.
Proof.
  unfold read_line, headings_of, finish. cbn [flat_map].
  destruct (re_match entry_pattern line) as [m|].
  - cbn [fst snd close]. rewrite map_app, app_nil_r. reflexivity.
  - rewrite !app_nil_r. destruct st as [entries [e|]]; cbn [fst snd close];
      [|reflexivity].
    rewrite !map_app. reflexivity.
Qed.

Lemma fold_headings (lines : list string) :
  forall st,
    map heading (finish (fold_left read_line lines st)) =
    (map heading (finish st) ++ headings_of lines)%list.
Proof.
  induction lines as [|line lines IH]; intros st.
  - cbn [fold_left]. unfold headings_of. cbn [flat_map]. now rewrite app_nil_r.
  - cbn [fold_left]. rewrite IH, finish_read_line_heading.
    unfold headings_of. cbn [flat_map]. rewrite app_nil_r, <- app_assoc. reflexivity.
Qed.

Lemma concat_details_close (entries : list log_entry) (e : log_entry) :
  concat (map details (close entries (Some e))) =
  (concat (map details entries) ++ details e)%list.
Proof.
  cbn [close]. rewrite map_app, concat_app. cbn [map concat].
  now rewrite app_nil_r.
Qed.

Lemma read_line_entry (st : list log_entry * option log_entry)
    (line : string) (m : match_obj) :
  re_match entry_pattern line = Some m ->
  read_line st line = (close (fst st) (snd st), Some (new_entry m)).
Proof. intros M. unfold read_line. rewrite M. reflexivity. Qed.

Lemma read_line_other (st : list log_entry * option log_entry) (line : string) :
  re_match entry_pattern line = None ->
  read_line st line =
    match snd st with
    | Some e => (fst st, Some (add_detail e line))
    | None => st
    end.
Proof. intros M. unfold read_line. rewrite M. reflexivity. Qed.

Lemma fold_details (lines : list string) :
  forall st,
    concat (map details (finish (fold_left read_line lines st))) =
    (concat (map details (finish st)) ++
     map PyStr.strip
       (continuation_lines
          (match snd st with
           | Some _ => lines
           | None => from_first_entry lines
           end)))%list.
Proof.
  induction lines as [|line lines IH]; intros [entries cur].
  - cbn [fold_left snd]. destruct cur; cbn; now rewrite app_nil_r.
  - cbn [fold_left]. rewrite IH.
    assert (O : opens_entry line =
                match re_match entry_pattern line with
                | Some _ => true
                | None => false
                end) by reflexivity.
    destruct (re_match entry_pattern line) as [m|] eqn:M.
    + rewrite (read_line_entry _ _ _ M). unfold finish. cbn [fst snd].
      rewrite concat_details_close. cbn [new_entry details].
      rewrite app_nil_r.
      unfold continuation_lines.
      destruct cur as [e|]; cbn [from_first_entry filter]; rewrite O;
        cbn [negb filter]; rewrite ?O; reflexivity.
    + rewrite (read_line_other _ _ M). unfold finish. cbn [fst snd].
      destruct cur as [e|]; cbn [fst snd].
      * rewrite !concat_details_close. cbn [add_detail details].
        unfold continuation_lines. cbn [filter]. rewrite O. cbn [negb map].
        rewrite <- !app_assoc. reflexivity.
      * cbn [from_first_entry]. rewrite O. reflexivity.
Qed.

Lemma close_app (entries : list log_entry) (cur : option log_entry) :
  close entries cur = (entries ++ close [] cur)%list.
Proof. destruct cur; cbn [close]; [reflexivity | now rewrite app_nil_r]. Qed.

Lemma fold_from_entries (lines : list string) :
  forall entries cur,
    finish (fold_left read_line lines (entries, cur)) =
    (entries ++ finish (fold_left read_line lines ([], cur)))%list.
Proof.
  induction lines as [|line lines IH]; intros entries cur.
  - cbn [fold_left]. unfold finish. cbn [fst snd]. apply close_app.
  - cbn [fold_left].
    destruct (re_match entry_pattern line) as [m|] eqn:M.
    + rewrite !(read_line_entry _ _ _ M). cbn [fst snd].
      rewrite IH. rewrite (IH (close [] cur)).
      rewrite (close_app entries cur), <- app_assoc. reflexivity.
    + rewrite !(read_line_other _ _ M). cbn [fst snd].
      destruct cur as [e|]; apply IH.
Qed.

(** A line that opens an entry, for the sample runs. *)
Definition started_line : string :=
  "2025-05-15 10:00:00,123 - sync - INFO - Sync completed successfully".

(** X22: [parse_log_file] returns one entry for each line that opens with a
    time stamp, a logger name and a level, in the order of the file, with
    the four fields of that line; the details of the entries, taken
    together, are the other lines, stripped, from the first entry on: the
    lines before the first entry are dropped, and a missing log file gives
    no entry. *)
Theorem log_entries_follow_the_lines (lines : list string) :
  map heading (parse_log_file (Log lines)) = headings_of lines /\
  concat (map details (parse_log_file (Log lines))) =
    map PyStr.strip (continuation_lines (from_first_entry lines)) /\
  List.length (parse_log_file (Log lines)) =
    List.length (filter opens_entry lines) /\
  parse_log_file NoLog = [].
Proof.
  split; [|split; [|split]].
  - unfold parse_log_file. cbv zeta. fold (finish (fold_left read_line lines ([], None))).
    rewrite fold_headings. reflexivity.
  - unfold parse_log_file. cbv zeta. fold (finish (fold_left read_line lines ([], None))).
    rewrite fold_details. reflexivity.
  - rewrite <- (length_map heading).
    unfold parse_log_file. cbv zeta. fold (finish (fold_left read_line lines ([], None))).
    rewrite fold_headings. cbn [finish fst snd close map app].
    unfold headings_of. induction lines as [|line lines IH]; [reflexivity|].
    cbn [flat_map filter]. unfold opens_entry at 1.
    destruct (re_match entry_pattern line); cbn [app List.length]; now rewrite IH.
  - reflexivity.
Qed.

(** X23: the log can be read in pieces.  Cut before any line that opens an
    entry, the file gives the entries of the first piece followed by the
    entries of the second: what is appended to the log later never changes
    the entries read before, the last one apart, whose details may grow. *)
Theorem log_splits_before_an_entry (before after : list string) (line : string) :
  opens_entry line = true ->
  parse_log_file (Log (before ++ line :: after)) =
  (parse_log_file (Log before) ++ parse_log_file (Log (line :: after)))%list.
Proof.
  intros H. unfold parse_log_file. cbv zeta.
  rewrite fold_left_app. cbn [fold_left].
  destruct (fold_left read_line before ([], None)) as [entries cur].
  fold (finish (fold_left read_line after (read_line (entries, cur) line))).
  fold (finish (fold_left read_line after (read_line ([], None) line))).
  unfold opens_entry in H.
  destruct (re_match entry_pattern line) as [m|] eqn:M; [|discriminate H].
  rewrite !(read_line_entry _ _ _ M). cbn [fst snd]. rewrite fold_from_entries.
  unfold finish at 2. cbn [fst snd close app]. reflexivity.
Qed.

Lemma log_splits_before_an_entry_witness :
  parse_log_file (Log (["Traceback" ; started_line] ++ started_line :: ["  detail"])) =
  (parse_log_file (Log ["Traceback"; started_line]) ++
   parse_log_file (Log (started_line :: ["  detail"])))%list.
Proof.
  apply (log_splits_before_an_entry ["Traceback"; started_line] ["  detail"] started_line).
  vm_compute. reflexivity.
Defined.

End LogFile.

(** ** Whitespace of the names and addresses *)

Module Whitespace.

Import Re CustomerInfo.

Fixpoint drop_while (p : ascii -> bool) (x : string) : string :=
  match x with
  | EmptyString => EmptyString
  | String c x' => if p c then drop_while p x' else x
  end.

(** Every maximal run of characters of [p] replaced by [repl]; [inrun]
    tells that the character before belongs to a run already replaced. *)
Fixpoint collapse (p : ascii -> bool) (repl : string) (inrun : bool) (x : string)
  : string :=
  match x with
  | EmptyString => EmptyString
  | String c x' =>
      if p c then
        if inrun then collapse p repl true x'
        else repl ++ collapse p repl true x'
      else String c (collapse p repl false x')
  end.

Definition head_space (x : string) : bool :=
  match x with
  | String c _ => PyStr.is_space c
  | EmptyString => false
  end.

Fixpoint last_space (x : string) : bool :=
  match x with
  | EmptyString => false
  | String c EmptyString => PyStr.is_space c
  | String _ x' => last_space x'
  end.

(** Every whitespace character is a blank, and no two are adjacent. *)
Fixpoint spaced (x : string) : bool :=
  match x with
  | EmptyString => true
  | String c x' =>
      ((if PyStr.is_space c then Ascii.eqb c " " && negb (head_space x') else true)
       && spaced x')%bool
  end.

(** Words separated by single blanks: every whitespace character is a blank
    that stands alone between two other characters. *)
Definition single_spaced (x : string) : bool :=
  (spaced x && negb (head_space x) && negb (last_space x))%bool.

Fixpoint all_space (x : string) : bool :=
  match x with
  | EmptyString => true
  | String c x' => (PyStr.is_space c && all_space x')%bool
  end.

(** *** The engine on [c+] with a replacement *)

Lemma take_drop_while (p : ascii -> bool) (x : string) :
  x = take_while p x ++ drop_while p x.
Proof.
  induction x as [|c x IH]; [reflexivity|]. cbn [take_while drop_while].
  destruct (p c); [|reflexivity]. cbn [append]. f_equal. exact IH.
Qed.

Lemma drop_while_length (p : ascii -> bool) (x : string) :
  String.length (drop_while p x) <= String.length x.
Proof.
  induction x as [|c x IH]; [apply Nat.le_refl|]. cbn [drop_while].
  destruct (p c); cbn [String.length]; lia.
Qed.

Lemma collapse_true_eq (p : ascii -> bool) (repl : string) (x : string) :
  collapse p repl true x = collapse p repl false (drop_while p x).
Proof.
  induction x as [|c x IH]; [reflexivity|]. cbn [collapse drop_while].
  destruct (p c) eqn:E; [exact IH|]. cbn [collapse]. rewrite E. reflexivity.
Qed.

Lemma skip_run (run y : string) :
  forall p pv cs,
    exists pv',
      skip (String.length run) {| pos := p; prev := pv; rest := run ++ y; caps := cs |} =
      {| pos := p + String.length run; prev := pv'; rest := y; caps := cs |}.
Proof.
  induction run as [|c run IH]; intros p pv cs.
  - exists pv. cbn [String.length skip append]. rewrite Nat.add_0_r. reflexivity.
  - cbn [String.length skip append rest]. unfold advance. cbn [pos caps].
    destruct (IH (S p) (Some c) cs) as (pv' & ->). exists pv'.
    f_equal. lia.
Qed.

Lemma sub_from_plus_class (fl : flags) (ng : bool) (ms : list cset) (repl : string) :
  forall fuel x p pv cs,
    String.length x < fuel ->
    sub_from fl (plus (Class ng ms)) repl fuel
      {| pos := p; prev := pv; rest := x; caps := cs |} =
    collapse (class_mem ng ms) repl false x.
Proof.
  induction fuel as [|fuel IH]; intros x p pv cs Hf; [lia|].
  pose proof (match_at_plus_class fl ng ms x p pv cs) as M.
  cbn [sub_from rest pos].
  destruct x as [|c x].
  - cbn [take_while] in M.
    destruct (match_at _ _ _) as [m|]; [discriminate M | reflexivity].
  - cbn [take_while collapse] in M |- *. cbn [String.length] in Hf.
    destruct (class_mem ng ms c) eqn:E.
    + destruct (match_at _ _ _) as [m|]; [|discriminate M].
      cbn [option_map] in M. injection M as M1 M2 M3.
      rewrite M1, M2.
      set (P := class_mem ng ms) in *.
      set (n := String.length (take_while P x)) in *.
      rewrite (proj2 (Nat.ltb_lt p (p + S n))) by lia.
      replace (p + S n - p) with (S n) by lia.
      destruct (skip_run (String c (take_while P x)) (drop_while P x) p pv cs)
        as (pv' & SK).
      cbn [append String.length] in SK. rewrite <- take_drop_while in SK.
      fold n in SK. rewrite SK.
      rewrite IH by (pose proof (drop_while_length P x); lia).
      rewrite collapse_true_eq. reflexivity.
    + destruct (match_at _ _ _) as [m|]; [discriminate M|].
      unfold advance. cbn [pos prev rest caps]. rewrite IH by lia. reflexivity.
Qed.

(** [re.sub(c+, repl, x)] for a character class [c] replaces every maximal
    run of characters of the class by [repl]. *)
Lemma sub_plus_class (ng : bool) (ms : list cset) (repl x : string) :
  sub no_flags (plus (Class ng ms)) repl x = collapse (class_mem ng ms) repl false x.
Proof. unfold sub, start_of. apply sub_from_plus_class. lia. Qed.

Lemma collapse_ext (p q : ascii -> bool) (repl : string) :
  (forall c, p c = q c) ->
  forall x b, collapse p repl b x = collapse q repl b x.
Proof.
  intros H. induction x as [|c x IH]; intros b; [reflexivity|].
  cbn [collapse]. rewrite H, !IH. reflexivity.
Qed.

(** *** What [strip] leaves *)

Lemma append_assoc' (a b c : string) : (a ++ b) ++ c = a ++ (b ++ c).
Proof. induction a as [|x a IH]; [reflexivity|]. cbn [append]. now rewrite IH. Qed.

Lemma rev_onto_acc (s acc : string) :
  PyStr.rev_onto s acc = PyStr.rev_onto s EmptyString ++ acc.
Proof.
  revert acc. induction s as [|c s IH]; intros acc; [reflexivity|].
  cbn [PyStr.rev_onto]. rewrite IH, (IH (String c EmptyString)).
  rewrite append_assoc'. reflexivity.
Qed.

Lemma rev_cons (c : ascii) (s : string) :
  PyStr.rev (String c s) = PyStr.rev s ++ String c EmptyString.
Proof. unfold PyStr.rev. cbn [PyStr.rev_onto]. apply rev_onto_acc. Qed.

Lemma rev_onto_snoc (s : string) (c : ascii) :
  forall acc,
    PyStr.rev_onto (s ++ String c EmptyString) acc = String c (PyStr.rev_onto s acc).
Proof.
  induction s as [|x s IH]; intros acc; [reflexivity|].
  cbn [append PyStr.rev_onto]. apply IH.
Qed.

Lemma rev_snoc (s : string) (c : ascii) :
  PyStr.rev (s ++ String c EmptyString) = String c (PyStr.rev s).
Proof. unfold PyStr.rev. apply rev_onto_snoc. Qed.

Lemma all_space_app (a b : string) :
  all_space (a ++ b) = (all_space a && all_space b)%bool.
Proof.
  induction a as [|c a IH]; [reflexivity|]. cbn [append all_space].
  rewrite IH. apply andb_assoc.
Qed.

Lemma all_space_rev (s : string) : all_space (PyStr.rev s) = all_space s.
Proof.
  induction s as [|c s IH]; [reflexivity|].
  rewrite rev_cons, all_space_app, IH. cbn [all_space].
  rewrite andb_true_r. apply andb_comm.
Qed.

Lemma lstrip_all_space (a : string) : all_space a = true -> PyStr.lstrip a = EmptyString.
Proof.
  induction a as [|c a IH]; [reflexivity|]. cbn [all_space PyStr.lstrip].
  intros H. apply andb_prop in H. destruct H as [H1 H2]. rewrite H1. exact (IH H2).
Qed.

Lemma lstrip_app (a b : string) :
  PyStr.lstrip (a ++ b) =
  if all_space a then PyStr.lstrip b else PyStr.lstrip a ++ b.
Proof.
  induction a as [|c a IH]; [reflexivity|]. cbn [append PyStr.lstrip all_space].
  destruct (PyStr.is_space c); [exact IH | reflexivity].
Qed.

(** [rstrip], read from the left. *)
Lemma rstrip_cons (c : ascii) (x : string) :
  PyStr.rstrip (String c x) =
  if all_space (String c x) then EmptyString else String c (PyStr.rstrip x).
Proof.
  unfold PyStr.rstrip. rewrite rev_cons, lstrip_app, all_space_rev.
  cbn [all_space]. destruct (all_space x) eqn:A.
  - rewrite andb_true_r. cbn [PyStr.lstrip].
    rewrite <- (all_space_rev x) in A. rewrite (lstrip_all_space _ A).
    destruct (PyStr.is_space c); reflexivity.
  - rewrite andb_false_r. apply rev_snoc.
Qed.

Lemma head_space_lstrip (x : string) : head_space (PyStr.lstrip x) = false.
Proof.
  induction x as [|c x IH]; [reflexivity|]. cbn [PyStr.lstrip].
  destruct (PyStr.is_space c) eqn:E; [exact IH|]. cbn [head_space]. exact E.
Qed.

Lemma spaced_tail (c : ascii) (x : string) : spaced (String c x) = true -> spaced x = true.
Proof. cbn [spaced]. intros H. apply andb_prop in H. exact (proj2 H). Qed.

Lemma spaced_lstrip (x : string) : spaced x = true -> spaced (PyStr.lstrip x) = true.
Proof.
  induction x as [|c x IH]; [reflexivity|]. intros H. cbn [PyStr.lstrip].
  destruct (PyStr.is_space c); [exact (IH (spaced_tail _ _ H)) | exact H].
Qed.

Lemma head_space_rstrip (x : string) :
  head_space x = false -> head_space (PyStr.rstrip x) = false.
Proof.
  destruct x as [|c x]; [reflexivity|]. rewrite rstrip_cons.
  destruct (all_space (String c x)); [reflexivity|]. exact (fun H => H).
Qed.

Lemma spaced_rstrip (x : string) :
  spaced x = true ->
  spaced (PyStr.rstrip x) = true /\ last_space (PyStr.rstrip x) = false.
Proof.
  induction x as [|c x IH]; [split; reflexivity|]. intros H.
  rewrite rstrip_cons. destruct (all_space (String c x)) eqn:A; [split; reflexivity|].
  destruct (IH (spaced_tail _ _ H)) as [S1 L1].
  cbn [all_space] in A. cbn [spaced] in H |- *.
  apply andb_prop in H. destruct H as [H1 H2].
  destruct (PyStr.is_space c) eqn:E.
  - cbn [andb] in A. apply andb_prop in H1. destruct H1 as [Hc Hh].
    rewrite Hc, S1. apply negb_true_iff in Hh.
    rewrite (head_space_rstrip x Hh). split; [reflexivity|].
    destruct x as [|c' x]; [discriminate A|].
    rewrite rstrip_cons in L1 |- *. rewrite A in L1 |- *.
    cbn [last_space]. exact L1.
  - rewrite S1. split; [reflexivity|].
    destruct (PyStr.rstrip x) as [|c' r] eqn:R; [cbn [last_space]; exact E|].
    cbn [last_space]. destruct r; exact L1.
Qed.

Lemma spaced_collapse (x : string) :
  spaced (collapse PyStr.is_space " " false x) = true /\
  spaced (collapse PyStr.is_space " " true x) = true /\
  head_space (collapse PyStr.is_space " " true x) = false.
Proof.
  induction x as [|c x (IH1 & IH2 & IH3)]; [repeat split|].
  cbn [collapse]. destruct (PyStr.is_space c) eqn:E.
  - split; [|split; assumption].
    cbn [append spaced]. change (PyStr.is_space " ") with true. cbv iota.
    rewrite IH2, IH3. reflexivity.
  - cbn [spaced head_space]. rewrite E, IH1. repeat split.
Qed.

(** [re.sub(r'\s+', ' ', x).strip()] leaves words separated by single
    blanks. *)
Lemma squeeze_single_spaced (x : string) : single_spaced (squeeze x) = true.
Proof.
  unfold squeeze, s. rewrite sub_plus_class.
  rewrite (collapse_ext _ PyStr.is_space " " (fun c => orb_false_r _)).
  unfold PyStr.strip, single_spaced.
  destruct (spaced_collapse x) as (S1 & _ & _).
  pose proof (spaced_lstrip _ S1) as S2.
  destruct (spaced_rstrip _ S2) as [S3 L3].
  rewrite S3, L3, (head_space_rstrip _ (head_space_lstrip _)). reflexivity.
Qed.

(** *** The customer record *)

Lemma head_space_strip (x : string) : head_space (PyStr.strip x) = false.
Proof. unfold PyStr.strip. apply head_space_rstrip, head_space_lstrip. Qed.

(** A name found, if any, starts with a character that is not whitespace. *)
Definition stripped (customer_name : option string) : Prop :=
  match customer_name with
  | Some x => head_space x = false
  | None => True
  end.

Lemma name_in_rows_stripped (t : table) : stripped (name_in_rows t).
Proof.
  induction t as [|r rs IH]; [exact I|]. cbn [name_in_rows].
  destruct (name_in_row r) as [n|] eqn:N; [|exact IH].
  unfold name_in_row in N.
  destruct (_ && _ && _)%bool; [|discriminate N].
  injection N as <-. apply head_space_strip.
Qed.

Lemma name_in_tables_stripped (tables : list table) :
  forall customer_name,
    stripped customer_name -> stripped (name_in_tables tables customer_name).
Proof.
  induction tables as [|t ts IH]; intros cn H; [exact H|].
  cbn [name_in_tables]. destruct (Nat.ltb (List.length t) 2); [exact (IH cn H)|].
  cbv zeta.
  assert (H' : stripped match name_in_rows t with
                        | Some n => Some n
                        | None => cn
                        end).
  { pose proof (name_in_rows_stripped t) as R.
    destruct (name_in_rows t); [exact R | exact H]. }
  destruct (truthy _); [exact H' | exact (IH _ H')].
Qed.

Lemma squeeze_nonempty (x : string) :
  PyStr.nonempty x = true -> head_space x = false -> squeeze x <> EmptyString.
Proof.
  destruct x as [|c x]; [discriminate|]. intros _ H. cbn [head_space] in H.
  unfold squeeze, s. rewrite sub_plus_class.
  rewrite (collapse_ext _ PyStr.is_space " " (fun c => orb_false_r _)).
  cbn [collapse]. rewrite H. unfold PyStr.strip. cbn [PyStr.lstrip]. rewrite H.
  rewrite rstrip_cons. cbn [all_space]. rewrite H. discriminate.
Qed.

(** X24: the customer name of the record is never empty, and it and the
    address, when there is one, are written with single blanks: every
    whitespace character in them is one blank standing between two other
    characters, so neither holds a newline, a tab or a run of blanks, nor
    starts or ends with whitespace, whatever the layout of the document. *)
Theorem names_and_addresses_are_single_spaced (pdf : pdf_content) :
  single_spaced (customer_name (extract_customer_info pdf)) = true /\
  customer_name (extract_customer_info pdf) <> EmptyString /\
  forall a, address (extract_customer_info pdf) = Some a -> single_spaced a = true.
Proof.
  destruct pdf as [pages|e]; unfold extract_customer_info;
    cbn [customer_name address default_info];
    [|split; [reflexivity|]; split; [discriminate | discriminate]].
  set (text := first_page_text pages). set (tables := first_page_tables pages).
  unfold find_customer_name. cbv zeta.
  set (cn := if negb (truthy (name_in_tables tables None))
             then match first_match multiline_dotall patterns text with
                  | Some m => Some (PyStr.strip (group 1 m))
                  | None => name_in_tables tables None
                  end
             else name_in_tables tables None).
  assert (C : stripped cn).
  { pose proof (name_in_tables_stripped tables None I) as T. unfold cn.
    destruct (negb _); [|exact T].
    destruct (first_match _ _ _); [apply head_space_strip | exact T]. }
  clearbody cn. split; [|split].
  - destruct (truthy cn); [apply squeeze_single_spaced | reflexivity].
  - destruct cn as [x|]; cbn [truthy str_of]; [|discriminate].
    destruct (PyStr.nonempty x) eqn:N; [|discriminate].
    exact (squeeze_nonempty x N C).
  - unfold find_address. intros a H.
    destruct (search _ _ _) as [m|]; [|discriminate H].
    cbn [option_map] in H. injection H as <-. apply squeeze_single_spaced.
Qed.

End Whitespace.
